(** * STDM plugin: control value handlers, handler registry,
      template database helper and composer data source selector.

    A shallow embedding of
      - stdm/ui/helpers/valuehandlers.py
      - data/template-database.py
      - stdm/ui/composer/composer_data_source.py
      - ui/forms/mapper_dialog.py
    together with the properties stated about them. *)

From Stdlib Require Import ZArith List String Ascii Bool Lia DecimalString.
From Stdlib Require Import DecimalPos.
From Stdlib Require Import Floats.SpecFloat.
From stdpp Require Import base option gmap strings.
Import ListNotations.

Local Open Scope string_scope.
Local Open Scope Z_scope.

(* ===================================================================== *)
(** * Python values and builtins used by the sources *)
(* ===================================================================== *)

Module Py.

(** Exception classes raised or caught by the sources. *)
Inductive exn : Type :=
  | TypeError
  | ValueError
  | AttributeError
  | NotImplementedError
  | RuntimeError
  | OverflowError.

(** A [QDate] is a day number, a [QDateTime] a day number and the
    milliseconds elapsed in that day. *)
#[warnings="-register-all"]
Inductive value : Type :=
  | VNone
  | VBool (b : bool)
  | VInt (z : Z)
  | VFloat (f : spec_float)
  | VStr (s : string)
  | VList (l : list value)
  | VDate (day : Z)
  | VDateTime (day : Z) (msec : Z)
  | VObject (ident : string).

(** [x is None] *)
Definition is_None (v : value) : bool :=
  match v with VNone => true | _ => false end.

(** [x != None]: every builtin and toolkit value but [None] differs from
    [None]. *)
Definition ne_None (v : value) : bool := negb (is_None v).

(** [isinstance(x, str)] *)
Definition isinstance_str (v : value) : bool :=
  match v with VStr _ => true | _ => false end.

(** binary64 *)
Definition prec : Z := 53.
Definition emax : Z := 1024.

Definition float_of_Z (z : Z) : spec_float := binary_normalize prec emax z 0 false.

Definition float_is_zero (f : spec_float) : bool :=
  match f with S754_zero _ => true | _ => false end.

(** Truth value testing, [if x:]. *)
Definition truthy (v : value) : bool :=
  match v with
  | VNone => false
  | VBool b => b
  | VInt z => negb (z =? 0)
  | VFloat f => negb (float_is_zero f)
  | VStr s => negb (String.eqb s "")
  | VList l => match l with [] => false | _ => true end
  | VDate _ | VDateTime _ _ | VObject _ => true
  end.

(** [except RuntimeError] also catches the subclasses of
    [RuntimeError]. *)
Definition is_RuntimeError (e : exn) : bool :=
  match e with RuntimeError | NotImplementedError => true | _ => false end.

(** ** Equality, [a == b] *)

Definition float_eq_int (f : spec_float) (z : Z) : bool :=
  match f with
  | S754_zero _ => z =? 0
  | S754_finite s m e =>
      let mz := if s then Zneg m else Zpos m in
      if 0 <=? e then z =? mz * 2 ^ e else z * 2 ^ (- e) =? mz
  | S754_infinity _ | S754_nan => false
  end.

Definition int_of_bool (b : bool) : Z := if b then 1 else 0.

Fixpoint py_eq (a b : value) {struct a} : bool :=
  match a, b with
  | VNone, VNone => true
  | VBool x, VBool y => int_of_bool x =? int_of_bool y
  | VBool x, VInt y | VInt y, VBool x => int_of_bool x =? y
  | VInt x, VInt y => x =? y
  | VBool x, VFloat f | VFloat f, VBool x => float_eq_int f (int_of_bool x)
  | VInt x, VFloat f | VFloat f, VInt x => float_eq_int f x
  | VFloat f, VFloat g => SFeqb f g
  | VStr s, VStr t => String.eqb s t
  | VList la, VList lb =>
      (fix all2 (la lb : list value) : bool :=
         match la, lb with
         | [], [] => true
         | x :: xs, y :: ys => py_eq x y && all2 xs ys
         | _, _ => false
         end) la lb
  | VDate d, VDate d' => d =? d'
  | VDateTime d ms, VDateTime d' ms' => (d =? d') && (ms =? ms')
  | VObject i, VObject j => String.eqb i j
  | _, _ => false
  end.

(** Results of a computation: a value, an exception, or [Outside] when
    the computation calls a method of a control that is not described
    here. *)
Inductive result (A : Type) : Type :=
  | Ok (a : A)
  | Raise (e : exn)
  | Outside.
Arguments Ok {A} a.
Arguments Raise {A} e.
Arguments Outside {A}.

Definition result_bind {A B} (r : result A) (k : A -> result B) : result B :=
  match r with Ok a => k a | Raise e => Raise e | Outside => Outside end.

(** ** Strings

    Strings are sequences of code points below 256. *)

Definition code (c : ascii) : Z := Z.of_N (N_of_ascii c).
Definition chr (z : Z) : ascii := ascii_of_N (Z.to_N z).

Definition is_upper (c : ascii) : bool :=
  let n := code c in
  ((65 <=? n) && (n <=? 90)) || ((192 <=? n) && (n <=? 222) && negb (n =? 215)).

(** [str.lower] on one character. *)
Definition lower_char (c : ascii) : ascii :=
  if is_upper c then chr (code c + 32) else c.

(** [str.lower] *)
Fixpoint lower (s : string) : string :=
  match s with
  | EmptyString => EmptyString
  | String c s' => String (lower_char c) (lower s')
  end.

Definition is_digit (c : ascii) : bool :=
  let n := code c in (48 <=? n) && (n <=? 57).

Definition digit_val (c : ascii) : Z := code c - 48.

(** White space skipped around a number by [int()] and [float()]. *)
Definition is_space (c : ascii) : bool :=
  let n := code c in
  ((9 <=? n) && (n <=? 13)) || (n =? 32) || (n =? 133) || (n =? 160).

Fixpoint lstrip (s : list ascii) : list ascii :=
  match s with
  | c :: s' => if is_space c then lstrip s' else s
  | [] => []
  end.

Definition rstrip (s : list ascii) : list ascii := rev (lstrip (rev s)).

Definition strip (s : list ascii) : list ascii := rstrip (lstrip s).

(** ** [int()] *)

(** Digits with single underscores in between: [prev] tells whether the
    previous character was a digit; the value read so far is [acc]. *)
Fixpoint digits_us (s : list ascii) (prev : bool) (acc : Z) : option Z :=
  match s with
  | [] => if prev then Some acc else None
  | c :: s' =>
      if is_digit c then digits_us s' true (10 * acc + digit_val c)
      else if (Ascii.eqb c "_"%char) && prev then
        match s' with
        | d :: _ => if is_digit d then digits_us s' false acc else None
        | [] => None
        end
      else None
  end.

Definition split_sign (s : list ascii) : bool * list ascii :=
  match s with
  | c :: s' =>
      if Ascii.eqb c "-"%char then (true, s')
      else if Ascii.eqb c "+"%char then (false, s')
      else (false, s)
  | [] => (false, [])
  end.

(** The interpreter converts between integers and decimal text only up
    to this number of digits (its default setting). *)
Definition max_str_digits : Z := 4300.

(** The digits of a numeral: the sign, the white space around it and the
    underscores do not count, leading zeros do. *)
Fixpoint count_digits (s : list ascii) : Z :=
  match s with
  | [] => 0
  | c :: s' => (if is_digit c then 1 else 0) + count_digits s'
  end.

(** [int(s)] for a string [s], base 10.  A numeral of more than
    [max_str_digits] digits is refused with [ValueError], as text that is
    no numeral is. *)
Definition int_of_str (s : string) : result Z :=
  let '(neg, body) := split_sign (strip (list_ascii_of_string s)) in
  match digits_us body false 0 with
  | Some n =>
      if max_str_digits <? count_digits body then Raise ValueError
      else Ok (if neg then - n else n)
  | None => Raise ValueError
  end.

(** Truncation of a float towards zero. *)
Definition int_of_float (f : spec_float) : result Z :=
  match f with
  | S754_zero _ => Ok 0
  | S754_infinity _ => Raise OverflowError
  | S754_nan => Raise ValueError
  | S754_finite s m e =>
      let a := if 0 <=? e then Z.shiftl (Zpos m) e else Z.shiftr (Zpos m) (- e) in
      Ok (if s then - a else a)
  end.

(** [int(x)] *)
Definition int (v : value) : result Z :=
  match v with
  | VBool b => Ok (if b then 1 else 0)
  | VInt z => Ok z
  | VFloat f => int_of_float f
  | VStr s => int_of_str s
  | VNone | VList _ | VDate _ | VDateTime _ _ | VObject _ => Raise TypeError
  end.

(** ** [float()] *)

(** The float nearest to [m * 10 ^ e], ties to even. *)
Definition float_of_decimal (neg : bool) (m e : Z) : spec_float :=
  if m =? 0 then S754_zero neg
  else if 0 <=? e then
    binary_normalize prec emax (if neg then - (m * 10 ^ e) else m * 10 ^ e) 0 neg
  else
    let '(q, e', l) := SFdiv_core_binary prec emax m 0 (10 ^ (- e)) 0 in
    binary_round_aux prec emax neg q e' l.

(** Underscores are allowed between two digits only; they are dropped
    before the number is read. [None] when one is misplaced. *)
Fixpoint drop_underscores (s : list ascii) (prev : ascii) : option (list ascii) :=
  match s with
  | [] => if Ascii.eqb prev "_"%char then None else Some []
  | c :: s' =>
      if Ascii.eqb c "_"%char then
        if is_digit prev then drop_underscores s' c else None
      else if (Ascii.eqb prev "_"%char) && negb (is_digit c) then None
      else option_map (cons c) (drop_underscores s' c)
  end.

(** A maximal run of digits: its value, its length and the rest. *)
Fixpoint take_digits (s : list ascii) (acc : Z) (n : Z) : Z * Z * list ascii :=
  match s with
  | c :: s' => if is_digit c then take_digits s' (10 * acc + digit_val c) (n + 1)
               else (acc, n, s)
  | [] => (acc, n, [])
  end.

(** The exponent part, if a complete one follows; otherwise nothing is
    consumed. *)
Definition take_exponent (s : list ascii) : Z * list ascii :=
  match s with
  | c :: s1 =>
      if Ascii.eqb (lower_char c) "e"%char then
        let '(eneg, s2) := split_sign s1 in
        let '(ev, en, s3) := take_digits s2 0 0 in
        if en =? 0 then (0, s) else (if eneg then - ev else ev, s3)
      else (0, s)
  | [] => (0, [])
  end.

(** A decimal number at the head of [s]: mantissa, decimal exponent and
    the rest; [None] when there is no digit. *)
Definition take_decimal (s : list ascii) : option (Z * Z * list ascii) :=
  let '(ip, ni, s1) := take_digits s 0 0 in
  let '(m, nf, s2) :=
    match s1 with
    | c :: s1' =>
        if Ascii.eqb c "."%char then
          let '(m, n, s2) := take_digits s1' ip 0 in (m, n, s2)
        else (ip, 0, s1)
    | [] => (ip, 0, s1)
    end in
  if (ni + nf) =? 0 then None
  else let '(ev, s3) := take_exponent s2 in Some (m, ev - nf, s3).

Definition lower_list (s : list ascii) : list ascii := map lower_char s.

Definition list_ascii_eqb (a b : list ascii) : bool :=
  String.eqb (string_of_list_ascii a) (string_of_list_ascii b).

(** [float(s)] for a string [s]. *)
Definition float_of_str (s : string) : result spec_float :=
  match drop_underscores (strip (list_ascii_of_string s)) " "%char with
  | None => Raise ValueError
  | Some t =>
      let '(neg, body) := split_sign t in
      let word := lower_list body in
      if list_ascii_eqb word (list_ascii_of_string "inf")
         || list_ascii_eqb word (list_ascii_of_string "infinity")
      then Ok (S754_infinity neg)
      else if list_ascii_eqb word (list_ascii_of_string "nan") then Ok S754_nan
      else
        match take_decimal body with
        | Some (m, e, []) => Ok (float_of_decimal neg m e)
        | _ => Raise ValueError
        end
  end.

(** [float(x)] *)
Definition float (v : value) : result spec_float :=
  match v with
  | VBool b => Ok (float_of_Z (if b then 1 else 0))
  | VInt z =>
      match float_of_Z z with
      | S754_infinity _ => Raise OverflowError
      | f => Ok f
      end
  | VFloat f => Ok f
  | VStr s => float_of_str s
  | VNone | VList _ | VDate _ | VDateTime _ _ | VObject _ => Raise TypeError
  end.

(** ** [str()] *)

(** The decimal text of an integer. *)
Definition str_of_int (z : Z) : string := NilZero.string_of_int (Z.to_int z).

(** The number of digits of that text. *)
Definition int_str_digits (z : Z) : Z :=
  count_digits (list_ascii_of_string (str_of_int z)).

(** [str(z)] for an integer [z]: [ValueError] when the text would have
    more than [max_str_digits] digits. *)
Definition str_int (z : Z) : result string :=
  if max_str_digits <? int_str_digits z then Raise ValueError else Ok (str_of_int z).

(** [s[:n]] *)
Fixpoint str_left (n : Z) (s : string) : string :=
  match s with
  | EmptyString => EmptyString
  | String c s' => if 0 <? n then String c (str_left (n - 1) s') else EmptyString
  end.

(** ** Rounding to decimals

    [round_decimals f] is the float nearest to the decimal numeral with
    two digits after the point that is nearest to [f], a tie going away
    from zero: the toolkit's [QString::number(f, 'f', 2).toDouble()].  A
    zero is written without its sign. *)
Definition round_decimals (f : spec_float) : spec_float :=
  match f with
  | S754_zero _ => S754_zero false
  | S754_finite s m e =>
      let hundredths :=
        if 0 <=? e then Zpos m * 2 ^ e * 100
        else (Zpos m * 200 + 2 ^ (- e)) / 2 ^ (1 - e) in
      float_of_decimal s hundredths (-2)
  | S754_infinity _ | S754_nan => f
  end.

(** ** String formatting, [fmt % arg] with a single argument

    The format string is scanned from the left.  Only [%s], [%%] and a
    [%] that ends the string occur in the sources; any other conversion
    is reported as [OtherConversion] and not interpreted. *)
Inductive fmt_outcome : Type :=
  | Formatted (s : string)
  | IncompleteFormat
  | OtherConversion
  | NotAllConverted
  | NotEnoughArguments.

Fixpoint format_with (fmt : string) (arg : option string) : fmt_outcome :=
  match fmt with
  | EmptyString =>
      match arg with Some _ => NotAllConverted | None => Formatted "" end
  | String "%"%char EmptyString => IncompleteFormat
  | String "%"%char (String "%"%char rest) =>
      match format_with rest arg with
      | Formatted r => Formatted (String "%"%char r)
      | o => o
      end
  | String "%"%char (String "s"%char rest) =>
      match arg with
      | None => NotEnoughArguments
      | Some a =>
          match format_with rest None with
          | Formatted r => Formatted (a ++ r)
          | o => o
          end
      end
  | String "%"%char (String _ _) => OtherConversion
  | String c rest =>
      match format_with rest arg with
      | Formatted r => Formatted (String c r)
      | o => o
      end
  end.

End Py.

(* ===================================================================== *)
(** * The toolkit controls *)
(* ===================================================================== *)

Module Qt.
Import Py.

(** What the handlers use of widgets and helpers defined outside the
    embedded sources (QTextEdit, QComboBox, stdm.ui.customcontrols,
    stdm.ui.foreign_key_mapper, stdm.ui.sourcedocument, stdm.utils.util)
    and of [str()] on values other than [None], booleans, integers and
    strings. *)
Class External : Type := {
  widget : Type;
  (** [w.name(args)] *)
  call : string -> list value -> widget -> result value * widget;
  (** [w.name] *)
  getattr : string -> widget -> result value;
  (** [v.name] for a value handed out by a widget *)
  value_getattr : string -> value -> result value;
  (** [setComboCurrentIndexWithItemData(w, v)] *)
  setComboCurrentIndexWithItemData : value -> widget -> result unit * widget;
  (** [str(v)] *)
  str_other : value -> string
}.

Section Controls.
Context `{External}.

(** The state of a control.  The controls are as the toolkit constructs
    them, since no statement of the module configures one: a line edit
    takes up to 32767 characters, a [QSpinBox] has the range 0 to 99 and
    a [QDoubleSpinBox] the range 0.0 to 99.99 with two decimals.  Dates
    are valid and within the range a date control accepts.
    [QDateTimeEdit] also stands for its subclass [QDateEdit] ([date_edit]
    tells which) and carries a flag telling that the underlying toolkit
    object has been destroyed.
    Modelled from the spec: [ExpressionLineEdit], a line edit whose bound
    column carries the declared output type tag. *)
Inductive control : Type :=
  | NoControl
  | QLineEdit (text : string)
  | QCheckBox (checked : bool)
  | QDateTimeEdit (date_edit : bool) (destroyed : bool) (day : Z) (msec : Z)
  | QSpinBox (val : Z)
  | QDoubleSpinBox (dval : spec_float)
  | ExpressionLineEdit (text : string) (output_data_type : value)
  | OtherWidget (w : widget).

(** The part of the program state the handlers touch: the control the
    handler is bound to, the system clock and the message boxes shown. *)
Record world : Type := World {
  the_control : control;
  clock_day : Z;
  clock_msec : Z;
  message_boxes : list (string * string)
}.

Definition with_control (c : control) (w : world) : world :=
  World c (clock_day w) (clock_msec w) (message_boxes w).

(** Computations: a result (or an exception) and the state left behind. *)
Definition M (A : Type) : Type := world -> result A * world.

Definition ret {A} (a : A) : M A := fun w => (Ok a, w).
Definition raise {A} (e : exn) : M A := fun w => (Raise e, w).
Definition bind {A B} (m : M A) (k : A -> M B) : M B :=
  fun w => match m w with
           | (Ok a, w') => k a w'
           | (Raise e, w') => (Raise e, w')
           | (Outside, w') => (Outside, w')
           end.
Definition lift {A} (r : result A) : M A := fun w => (r, w).

(** [try: m except ...: handler] *)
Definition try_except {A} (m : M A) (handler : exn -> option (M A)) : M A :=
  fun w => match m w with
           | (Ok a, w') => (Ok a, w')
           | (Raise e, w') =>
               match handler e with
               | Some h => h w'
               | None => (Raise e, w')
               end
           | (Outside, w') => (Outside, w')
           end.

(** [self.control.name(args)]: [concrete] gives the toolkit's method on
    the controls described here.  [None] has no attributes. *)
Definition method (name : string) (args : list value)
    (concrete : control -> option (result value * control)) : M value :=
  fun w =>
    match the_control w with
    | OtherWidget x =>
        let '(r, x') := call name args x in (r, with_control (OtherWidget x') w)
    | c =>
        match concrete c with
        | Some (r, c') => (r, with_control c' w)
        | None => match c with
                  | NoControl => (Raise AttributeError, w)
                  | _ => (Outside, w)
                  end
        end
    end.

Definition text : M value :=
  method "text" [] (fun c =>
    match c with
    | QLineEdit t | ExpressionLineEdit t _ => Some (Ok (VStr t), c)
    | _ => None
    end).

(** [maxLength()] of a line edit as constructed. *)
Definition maxLength : Z := 32767.

(** [setText]: the text is cut at [maxLength]; [None] is taken for the
    empty string; any other value is refused with [TypeError]. *)
Definition setText (v : value) : M value :=
  method "setText" [v] (fun c =>
    match c, v with
    | QLineEdit _, VStr s => Some (Ok VNone, QLineEdit (str_left maxLength s))
    | QLineEdit _, VNone => Some (Ok VNone, QLineEdit "")
    | ExpressionLineEdit _ ty, VStr s =>
        Some (Ok VNone, ExpressionLineEdit (str_left maxLength s) ty)
    | ExpressionLineEdit _ ty, VNone => Some (Ok VNone, ExpressionLineEdit "" ty)
    | QLineEdit _, _ | ExpressionLineEdit _ _, _ => Some (Raise TypeError, c)
    | _, _ => None
    end).

Definition isChecked : M value :=
  method "isChecked" [] (fun c =>
    match c with
    | QCheckBox b => Some (Ok (VBool b), c)
    | _ => None
    end).

Definition setChecked (v : value) : M value :=
  method "setChecked" [v] (fun c =>
    match c, v with
    | QCheckBox _, VBool b => Some (Ok VNone, QCheckBox b)
    | QCheckBox _, VInt z => Some (Ok VNone, QCheckBox (negb (z =? 0)))
    | QCheckBox _, _ => Some (Raise TypeError, c)
    | _, _ => None
    end).

Definition date : M value :=
  method "date" [] (fun c =>
    match c with
    | QDateTimeEdit _ true _ _ => Some (Raise RuntimeError, c)
    | QDateTimeEdit _ false d _ => Some (Ok (VDate d), c)
    | _ => None
    end).

Definition setDate (v : value) : M value :=
  method "setDate" [v] (fun c =>
    match c, v with
    | QDateTimeEdit _ true _ _, VDate _ => Some (Raise RuntimeError, c)
    | QDateTimeEdit k false _ ms, VDate d => Some (Ok VNone, QDateTimeEdit k false d ms)
    | QDateTimeEdit _ _ _ _, _ => Some (Raise TypeError, c)
    | _, _ => None
    end).

Definition dateTime : M value :=
  method "dateTime" [] (fun c =>
    match c with
    | QDateTimeEdit _ true _ _ => Some (Raise RuntimeError, c)
    | QDateTimeEdit _ false d ms => Some (Ok (VDateTime d ms), c)
    | _ => None
    end).

Definition setDateTime (v : value) : M value :=
  method "setDateTime" [v] (fun c =>
    match c, v with
    | QDateTimeEdit _ true _ _, VDateTime _ _ => Some (Raise RuntimeError, c)
    | QDateTimeEdit k false _ _, VDateTime d ms => Some (Ok VNone, QDateTimeEdit k false d ms)
    | QDateTimeEdit _ _ _ _, _ => Some (Raise TypeError, c)
    | _, _ => None
    end).

(** An integer argument must fit the toolkit's 32-bit [int]. *)
Definition fits_int (z : Z) : bool := (- 2 ^ 31 <=? z) && (z <? 2 ^ 31).

Definition spin_value : M value :=
  method "value" [] (fun c =>
    match c with
    | QSpinBox z => Some (Ok (VInt z), c)
    | QDoubleSpinBox f => Some (Ok (VFloat f), c)
    | _ => None
    end).

(** The range of a [QSpinBox] as constructed, and the value it keeps of
    an integer it is given: the nearest one within the range. *)
Definition spin_minimum : Z := 0.
Definition spin_maximum : Z := 99.

Definition bound_int (z : Z) : Z :=
  if z <? spin_minimum then spin_minimum
  else if spin_maximum <? z then spin_maximum
  else z.

(** The range of a [QDoubleSpinBox] as constructed, 0.0 to 99.99. *)
Definition double_spin_minimum : spec_float := S754_zero false.
Definition double_spin_maximum : spec_float := float_of_decimal false 9999 (-2).

(** The value a [QDoubleSpinBox] keeps of a float it is given: the float
    rounded to two decimals, then the nearest one within the range.  What
    the control keeps of a NaN is not described. *)
Definition bound_double (f : spec_float) : option spec_float :=
  match round_decimals f with
  | S754_nan => None
  | r =>
      Some (if SFltb r double_spin_minimum then double_spin_minimum
            else if SFltb double_spin_maximum r then double_spin_maximum
            else r)
  end.

Definition double_spin_setValue (c : control) (f : spec_float) : result value * control :=
  match bound_double f with
  | Some g => (Ok VNone, QDoubleSpinBox g)
  | None => (Outside, c)
  end.

Definition spin_setValue (v : value) : M value :=
  method "setValue" [v] (fun c =>
    match c, v with
    | QSpinBox _, VInt z =>
        Some (if fits_int z then (Ok VNone, QSpinBox (bound_int z))
              else (Raise OverflowError, c))
    | QSpinBox _, VBool b => Some (Ok VNone, QSpinBox (bound_int (if b then 1 else 0)))
    | QSpinBox _, _ => Some (Raise TypeError, c)
    | QDoubleSpinBox _, VFloat f => Some (double_spin_setValue c f)
    | QDoubleSpinBox _, (VInt _ | VBool _) =>
        Some (match float v with
              | Ok f => double_spin_setValue c f
              | Raise e => (Raise e, c)
              | Outside => (Outside, c)
              end)
    | QDoubleSpinBox _, _ => Some (Raise TypeError, c)
    | _, _ => None
    end).

(** [self.control.column.output_data_type] *)
Definition column_output_data_type : M value :=
  fun w =>
    match the_control w with
    | ExpressionLineEdit _ ty => (Ok ty, w)
    | OtherWidget x =>
        (result_bind (getattr "column" x) (value_getattr "output_data_type"), w)
    | NoControl => (Raise AttributeError, w)
    | _ => (Outside, w)
    end.

(** [self.control.name] on a widget defined elsewhere. *)
Definition attribute (name : string) : M value :=
  fun w =>
    match the_control w with
    | OtherWidget x => (getattr name x, w)
    | NoControl => (Raise AttributeError, w)
    | _ => (Outside, w)
    end.

(** [setComboCurrentIndexWithItemData(self.control, v)] *)
Definition set_combo_current_index_with_item_data (v : value) : M unit :=
  fun w =>
    match the_control w with
    | OtherWidget x =>
        let '(r, x') := setComboCurrentIndexWithItemData v x in
        (r, with_control (OtherWidget x') w)
    | _ => (Outside, w)
    end.

(** [QDate.currentDate()], [QDateTime.currentDateTime()]: the reading of
    the clock.  No method of the handlers reads the clock twice; between
    two calls time passes and the clock moves on, which is [tick]. *)
Definition currentDate : M value := fun w => (Ok (VDate (clock_day w)), w).
Definition currentDateTime : M value :=
  fun w => (Ok (VDateTime (clock_day w) (clock_msec w)), w).

Definition with_clock (day msec : Z) (w : world) : world :=
  World (the_control w) day msec (message_boxes w).

(** The clock moves on to the reading [day], [msec]. *)
Definition tick (day msec : Z) : M unit := fun w => (Ok tt, with_clock day msec w).

(** [QMessageBox.warning(None, title, text)] *)
Definition warning (title body : string) : M unit :=
  fun w => (Ok tt, World (the_control w) (clock_day w) (clock_msec w)
                         (message_boxes w ++ [(title, body)])).

(** [str(v)] *)
Definition str (v : value) : result string :=
  match v with
  | VNone => Ok "None"
  | VBool b => Ok (if b then "True" else "False")
  | VInt z => str_int z
  | VStr s => Ok s
  | _ => Ok (str_other v)
  end.

End Controls.

Declare Scope py_scope.
Delimit Scope py_scope with py.
Notation "'let*' x := m 'in' k" := (bind m (fun x => k))
  (at level 10, x name, m at level 100, k at level 200) : py_scope.
Notation "m >> k" := (bind m (fun _ => k))
  (at level 65, right associativity) : py_scope.

End Qt.

(* ===================================================================== *)
(** * stdm/ui/helpers/valuehandlers.py: the handler classes *)
(* ===================================================================== *)

Module ValueHandlers.
Import Py Qt.
Local Open Scope py_scope.

(** The classes of the module, in the order of their definition. *)
Inductive handler : Type :=
  | ControlValueHandler
  | LineEditValueHandler
  | AdministrativeUnitLineEditValueHandler
  | AutoGeneratedLineEditValueHandler
  | RelatedEntityLineEditValueHandler
  | MultipleSelectTreeViewValueHandler
  | CheckBoxValueHandler
  | TextEditValueHandler
  | ComboBoxValueHandler
  | DateEditValueHandler
  | DateTimeEditValueHandler
  | SourceDocManagerValueHandler
  | ForeignKeyMapperValueHandler
  | SpinBoxValueHandler
  | DoubleSpinBoxValueHandler
  | CoordinatesWidgetValueHandler
  | MultipleChoiceComboBox
  | ExpressionLineEditValueHandler.

#[global] Instance handler_eq_dec : EqDecision handler.
Proof. solve_decision. Defined.

Definition handler_eqb (a b : handler) : bool := bool_decide (a = b).

(** The base classes named in each [class] statement. *)
Definition bases (c : handler) : list handler :=
  match c with
  | ControlValueHandler => []
  | LineEditValueHandler => [ControlValueHandler]
  | AdministrativeUnitLineEditValueHandler => [LineEditValueHandler]
  | AutoGeneratedLineEditValueHandler => [LineEditValueHandler]
  | RelatedEntityLineEditValueHandler => [AdministrativeUnitLineEditValueHandler]
  | MultipleSelectTreeViewValueHandler => [ControlValueHandler]
  | CheckBoxValueHandler => [ControlValueHandler]
  | TextEditValueHandler => [LineEditValueHandler]
  | ComboBoxValueHandler => [LineEditValueHandler]
  | DateEditValueHandler => [ControlValueHandler]
  | DateTimeEditValueHandler => [ControlValueHandler]
  | SourceDocManagerValueHandler => [ControlValueHandler]
  | ForeignKeyMapperValueHandler => [ControlValueHandler]
  | SpinBoxValueHandler => [ControlValueHandler]
  | DoubleSpinBoxValueHandler => [ControlValueHandler]
  | CoordinatesWidgetValueHandler => [ControlValueHandler]
  | MultipleChoiceComboBox => [ControlValueHandler]
  | ExpressionLineEditValueHandler =>
      [LineEditValueHandler; DoubleSpinBoxValueHandler; SpinBoxValueHandler]
  end.

(** ** Method resolution order (C3 linearization) *)

Definition in_tail (h : handler) (l : list handler) : bool :=
  match l with
  | [] => false
  | _ :: t => existsb (handler_eqb h) t
  end.

(** The first head that is in no tail. *)
Fixpoint good_head (candidates all : list (list handler)) : option handler :=
  match candidates with
  | [] => None
  | [] :: rest => good_head rest all
  | (h :: _) :: rest =>
      if existsb (in_tail h) all then good_head rest all else Some h
  end.

Definition drop_head (h : handler) (l : list handler) : list handler :=
  match l with
  | x :: t => if handler_eqb h x then t else l
  | [] => []
  end.

Definition nonempty {A} (l : list A) : bool :=
  match l with [] => false | _ => true end.

Fixpoint merge (fuel : nat) (seqs : list (list handler)) : option (list handler) :=
  match fuel with
  | O => None
  | S n =>
      match filter nonempty seqs with
      | [] => Some []
      | live =>
          match good_head live live with
          | None => None
          | Some h => option_map (cons h) (merge n (map (drop_head h) live))
          end
      end
  end.

Fixpoint sequence {A} (l : list (option A)) : option (list A) :=
  match l with
  | [] => Some []
  | None :: _ => None
  | Some a :: t => option_map (cons a) (sequence t)
  end.

Fixpoint linearize (fuel : nat) (c : handler) : option (list handler) :=
  match fuel with
  | O => None
  | S n =>
      match sequence (map (linearize n) (bases c)) with
      | None => None
      | Some ls => option_map (cons c) (merge 32 (ls ++ [bases c]))
      end
  end.

Definition mro (c : handler) : list handler :=
  match linearize 8 c with Some l => l | None => [] end.

(** Attribute lookup along the method resolution order: [table] tells
    what each class defines itself. *)
Fixpoint first_defined {A} (table : handler -> option A) (l : list handler) : option A :=
  match l with
  | [] => None
  | c :: t => match table c with Some a => Some a | None => first_defined table t end
  end.

Definition resolve {A} (table : handler -> option A) (self : handler) : option A :=
  first_defined table (mro self).

Section Methods.
Context `{External}.

(** ** [default] *)

Definition own_default (cls : handler) : option (M value) :=
  match cls with
  | ControlValueHandler => Some (raise NotImplementedError)
  | LineEditValueHandler => Some (ret VNone)
  | AdministrativeUnitLineEditValueHandler => Some (ret VNone)
  | AutoGeneratedLineEditValueHandler => Some (ret VNone)
  | RelatedEntityLineEditValueHandler => None
  | MultipleSelectTreeViewValueHandler => Some (ret (VList []))
  | CheckBoxValueHandler => Some (ret VNone)
  | TextEditValueHandler => Some (ret VNone)
  | ComboBoxValueHandler => Some (ret VNone)
  | DateEditValueHandler => Some currentDate
  | DateTimeEditValueHandler => Some currentDateTime
  | SourceDocManagerValueHandler => Some (ret (VList []))
  | ForeignKeyMapperValueHandler => Some (ret VNone)
  | SpinBoxValueHandler => Some (ret VNone)
  | DoubleSpinBoxValueHandler => Some (ret VNone)
  | CoordinatesWidgetValueHandler => Some (ret VNone)
  | MultipleChoiceComboBox => Some (ret VNone)
  | ExpressionLineEditValueHandler => Some (ret VNone)
  end.

(** [self.default()] *)
Definition default (self : handler) : M value :=
  match resolve own_default self with
  | Some m => m
  | None => raise AttributeError
  end.

(** ** [supportsMandatory] *)

Definition own_supportsMandatory (cls : handler) : option (result bool) :=
  match cls with
  | ControlValueHandler => Some (Raise NotImplementedError)
  | LineEditValueHandler => Some (Ok true)
  | AdministrativeUnitLineEditValueHandler => Some (Ok true)
  | AutoGeneratedLineEditValueHandler => Some (Ok true)
  | RelatedEntityLineEditValueHandler => None
  | MultipleSelectTreeViewValueHandler => Some (Ok true)
  | CheckBoxValueHandler => Some (Ok false)
  | TextEditValueHandler => Some (Ok true)
  | ComboBoxValueHandler => Some (Ok true)
  | DateEditValueHandler => Some (Ok false)
  | DateTimeEditValueHandler => Some (Ok false)
  | SourceDocManagerValueHandler => Some (Ok true)
  | ForeignKeyMapperValueHandler => Some (Ok true)
  | SpinBoxValueHandler => Some (Ok false)
  | DoubleSpinBoxValueHandler => Some (Ok false)
  | CoordinatesWidgetValueHandler => Some (Ok false)
  | MultipleChoiceComboBox => None
  | ExpressionLineEditValueHandler => Some (Ok true)
  end.

(** [self.supportsMandatory()] *)
Definition supportsMandatory (self : handler) : result bool :=
  match resolve own_supportsMandatory self with
  | Some r => r
  | None => Raise AttributeError
  end.

(** ** [value] *)

(** [x == ''] and [x == 'tag'] for a value [x]. *)
Definition eq_str (v : value) (s : string) : bool :=
  match v with VStr t => String.eqb t s | _ => false end.

(** The body shared by the three branches of
    [ExpressionLineEditValueHandler.value]. *)
Definition expression_branch (self : handler) (convert : value -> M value) : M value :=
  let* t := text in
  if eq_str t "" then default self
  else let* t' := text in convert t'.

Definition own_value (cls self : handler) : option (M value) :=
  match cls with
  | ControlValueHandler => Some (raise NotImplementedError)
  | LineEditValueHandler | AutoGeneratedLineEditValueHandler =>
      Some (let* t := text in
            if eq_str t "" then default self else text)
  | AdministrativeUnitLineEditValueHandler =>
      Some (let* item := attribute "current_item" in
            if negb (is_None item) then
              let* item' := attribute "current_item" in
              lift (value_getattr "id" item')
            else ret VNone)
  | RelatedEntityLineEditValueHandler => None
  | MultipleSelectTreeViewValueHandler => Some (method "selection" [] (fun _ => None))
  | CheckBoxValueHandler => Some isChecked
  | TextEditValueHandler => Some (method "toPlainText" [] (fun _ => None))
  | ComboBoxValueHandler =>
      Some (let* i := method "currentIndex" [] (fun _ => None) in
            method "itemData" [i] (fun _ => None))
  | DateEditValueHandler => Some date
  | DateTimeEditValueHandler => Some dateTime
  | SourceDocManagerValueHandler => Some (method "model_objects" [] (fun _ => None))
  | ForeignKeyMapperValueHandler => Some (method "entities" [] (fun _ => None))
  | SpinBoxValueHandler => Some spin_value
  | DoubleSpinBoxValueHandler => Some spin_value
  | CoordinatesWidgetValueHandler => Some (method "toEWKT" [] (fun _ => None))
  | MultipleChoiceComboBox => Some (method "values" [] (fun _ => None))
  | ExpressionLineEditValueHandler =>
      Some (let* ty := column_output_data_type in
            if eq_str ty "float" then
              expression_branch self
                (fun t => let* f := lift (float t) in ret (VFloat f))
            else
              let* ty := column_output_data_type in
              if eq_str ty "int" then
                expression_branch self
                  (fun t => let* z := lift (int t) in ret (VInt z))
              else
                let* ty := column_output_data_type in
                if eq_str ty "str" then expression_branch self ret
                else ret VNone)
  end.

(** [self.value()] *)
Definition value_of (self : handler) : M value :=
  match resolve (fun cls => own_value cls self) self with
  | Some m => m
  | None => raise AttributeError
  end.

(** ** [setValue] *)

(** [QApplication.translate(context, source)], no translation loaded. *)
Definition translate (context source : string) : string := source.

(** [v.lower()] *)
Definition lower_of (v : value) : M value :=
  match v with
  | VStr s => ret (VStr (lower s))
  | _ => raise AttributeError
  end.

(** [v in (s1, s2, ...)] *)
Definition in_tuple (v : value) (l : list string) : bool := existsb (eq_str v) l.

(** The [try] statement of the date and date-time handlers. *)
Definition guarded_set (context : string) (set : M value) : M value :=
  try_except set (fun e =>
    if is_RuntimeError e then
      Some (warning (translate context "Attribute Table Error")
                    "The change is not saved. Please use the form to edit data."
            >> ret VNone)
    else match e with
         | TypeError => Some (ret VNone)
         | _ => None
         end).

Definition own_setValue (cls : handler) (v : value) : option (M value) :=
  match cls with
  | ControlValueHandler => Some (raise NotImplementedError)
  | LineEditValueHandler => Some (setText v)
  | AdministrativeUnitLineEditValueHandler =>
      Some (if negb (is_None v)
            then method "load_current_item_from_id" [v] (fun _ => None)
            else ret VNone)
  | AutoGeneratedLineEditValueHandler =>
      Some (if negb (is_None v) then setText v else ret VNone)
  | RelatedEntityLineEditValueHandler => None
  | MultipleSelectTreeViewValueHandler =>
      Some (if negb (is_None v)
            then method "set_selection" [v] (fun _ => None)
            else ret VNone)
  | CheckBoxValueHandler =>
      Some (if isinstance_str v || isinstance_str v then
              let* l := lower_of v in
              if in_tuple l ["yes"; "true"; "t"; "1"]
              then setChecked (VBool true)
              else setChecked (VBool false)
            else
              if is_None v then setChecked (VBool false)
              else setChecked v)
  | TextEditValueHandler => Some (setText v)
  | ComboBoxValueHandler =>
      Some (set_combo_current_index_with_item_data v >> ret VNone)
  | DateEditValueHandler =>
      Some (if negb (is_None v)
            then guarded_set "DateEditValueHandler" (setDate v)
            else ret VNone)
  | DateTimeEditValueHandler =>
      Some (guarded_set "DateTimeEditValueHandler" (setDateTime v))
  | SourceDocManagerValueHandler =>
      Some (if negb (is_None v)
            then method "set_source_documents" [v] (fun _ => None)
            else ret VNone)
  | ForeignKeyMapperValueHandler => Some (method "setEntities" [v] (fun _ => None))
  | SpinBoxValueHandler =>
      Some (if ne_None v
            then let* z := lift (int v) in spin_setValue (VInt z)
            else spin_setValue (VInt 0))
  | DoubleSpinBoxValueHandler =>
      Some (if ne_None v
            then let* f := lift (float v) in spin_setValue (VFloat f)
            else spin_setValue (VInt 0))
  | CoordinatesWidgetValueHandler => Some (ret VNone)
  | MultipleChoiceComboBox =>
      Some (if truthy v then method "set_values" [v] (fun _ => None) else ret VNone)
  | ExpressionLineEditValueHandler =>
      Some (if negb (is_None v)
            then let* s := lift (str v) in setText (VStr s)
            else ret VNone)
  end.

(** [self.setValue(v)] *)
Definition setValue (self : handler) (v : value) : M value :=
  match resolve (fun cls => own_setValue cls v) self with
  | Some m => m
  | None => raise AttributeError
  end.

(** The state after the warning of the date handlers. *)
Definition warned (w : world) : world :=
  World (the_control w) (clock_day w) (clock_msec w)
        (message_boxes w ++
           [("Attribute Table Error",
             "The change is not saved. Please use the form to edit data.")]).

(** [self.setValue(self.default())] followed by
    [self.value() == self.default()]. *)
Definition round_trip (self : handler) : M bool :=
  let* d := default self in
  setValue self d >>
  let* v := value_of self in
  let* d' := default self in
  ret (py_eq v d').

(** The same, with the time that passes before the second call of
    [default()]: the clock then reads [day], [msec]. *)
Definition round_trip_at (self : handler) (day msec : Z) : M bool :=
  let* d := default self in
  setValue self d >>
  let* v := value_of self in
  tick day msec >>
  let* d' := default self in
  ret (py_eq v d').

(** [self.setValue(v)] followed by [self.value()]. *)
Definition set_then_get (self : handler) (v : value) : M value :=
  setValue self v >> value_of self.

(** [self.setValue(self.default())] followed by [self.value()]. *)
Definition set_default_then_get (self : handler) : M value :=
  let* d := default self in
  set_then_get self d.

End Methods.

(** The handlers whose [setValue] tests its argument against [None]
    before touching the control. *)
Definition none_guarded : list handler :=
  [ AdministrativeUnitLineEditValueHandler;
    AutoGeneratedLineEditValueHandler;
    RelatedEntityLineEditValueHandler;
    MultipleSelectTreeViewValueHandler;
    DateEditValueHandler;
    SourceDocManagerValueHandler;
    MultipleChoiceComboBox;
    ExpressionLineEditValueHandler ].

(** The tokens the check box handler reads as true. *)
Definition true_tokens : list string := ["yes"; "true"; "t"; "1"].

Definition is_true_token (s : string) : bool :=
  existsb (String.eqb (lower s)) true_tokens.

(** [str.upper] on the letters A to Z. *)
Definition upper_ascii (c : ascii) : ascii :=
  let n := code c in
  if (97 <=? n) && (n <=? 122) then chr (n - 32) else c.

(** All spellings of [s] that differ from it in the case of its letters. *)
Fixpoint case_variants (s : string) : list string :=
  match s with
  | EmptyString => [EmptyString]
  | String c s' =>
      let rest := case_variants s' in
      map (String (lower_char c)) rest ++ map (String (upper_ascii c)) rest
  end.

End ValueHandlers.

(* ===================================================================== *)
(** * The registry of handler classes *)
(* ===================================================================== *)

Module Registry.
Import Py ValueHandlers.

(** The meta-object of a toolkit class. *)
Record QMetaObject : Type := { className : string }.

(** A control class; [staticMetaObject] is absent on a class that is not
    a toolkit object class. *)
Record control_class : Type := {
  control_name : string;
  staticMetaObject : option QMetaObject
}.

(** A handler class as [register] sees it: its name and its
    [controlType] attribute, if it has one. *)
Record handler_class : Type := {
  class_name : string;
  controlType : option control_class
}.

(** [cls.controlType.staticMetaObject.className()] *)
Definition control_class_name (cls : handler_class) : result string :=
  match controlType cls with
  | None => Raise AttributeError
  | Some ct =>
      match staticMetaObject ct with
      | None => Raise AttributeError
      | Some mo => Ok (className mo)
      end
  end.

(** [ControlValueHandler.register], acting on
    [ControlValueHandler.handlers]. *)
Definition register (cls : handler_class) (handlers : gmap string handler_class)
    : result unit * gmap string handler_class :=
  match control_class_name cls with
  | Ok ctlClassName => (Ok tt, <[ctlClassName := cls]> handlers)
  | Raise AttributeError => (Raise AttributeError, handlers)
  | Raise e => (Raise e, handlers)
  | Outside => (Outside, handlers)
  end.

(** Modelled from the spec: [lookup(kind)], which reads
    [ControlValueHandler.handlers]. *)
Definition lookup (kind : string) (handlers : gmap string handler_class)
    : option handler_class :=
  handlers !! kind.

(** A run of [register] calls; the first failure ends it. *)
Fixpoint register_all (classes : list handler_class)
    (handlers : gmap string handler_class)
    : result unit * gmap string handler_class :=
  match classes with
  | [] => (Ok tt, handlers)
  | cls :: rest =>
      match register cls handlers with
      | (Ok _, handlers') => register_all rest handlers'
      | failure => failure
      end
  end.

(** Every entry is stored under the class name of its own control type. *)
Definition key_consistent (handlers : gmap string handler_class) : Prop :=
  forall key cls, handlers !! key = Some cls -> control_class_name cls = Ok key.

(** ** The classes of valuehandlers.py *)

Definition toolkit_class (name : string) : control_class :=
  {| control_name := name; staticMetaObject := Some {| className := name |} |}.

(** The [controlType] attribute set in each class body.
    Modelled from the spec: the control classes imported from the
    repository's other modules carry the toolkit's type metadata, which
    reports the name of the class. *)
Definition own_controlType (c : handler) : option control_class :=
  match c with
  | ControlValueHandler => None
  | LineEditValueHandler => Some (toolkit_class "QLineEdit")
  | AdministrativeUnitLineEditValueHandler => Some (toolkit_class "AdministrativeUnitLineEdit")
  | AutoGeneratedLineEditValueHandler => Some (toolkit_class "AutoGeneratedLineEdit")
  | RelatedEntityLineEditValueHandler => Some (toolkit_class "RelatedEntityLineEdit")
  | MultipleSelectTreeViewValueHandler => Some (toolkit_class "MultipleSelectTreeView")
  | CheckBoxValueHandler => Some (toolkit_class "QCheckBox")
  | TextEditValueHandler => Some (toolkit_class "QTextEdit")
  | ComboBoxValueHandler => Some (toolkit_class "QComboBox")
  | DateEditValueHandler => Some (toolkit_class "QDateEdit")
  | DateTimeEditValueHandler => Some (toolkit_class "QDateTimeEdit")
  | SourceDocManagerValueHandler => Some (toolkit_class "SourceDocumentManager")
  | ForeignKeyMapperValueHandler => Some (toolkit_class "ForeignKeyMapper")
  | SpinBoxValueHandler => Some (toolkit_class "QSpinBox")
  | DoubleSpinBoxValueHandler => Some (toolkit_class "QDoubleSpinBox")
  | CoordinatesWidgetValueHandler => Some (toolkit_class "CoordinatesWidget")
  | MultipleChoiceComboBox => Some (toolkit_class "MultipleChoiceCombo")
  | ExpressionLineEditValueHandler => Some (toolkit_class "ExpressionLineEdit")
  end.

Definition handler_name (c : handler) : string :=
  match c with
  | ControlValueHandler => "ControlValueHandler"
  | LineEditValueHandler => "LineEditValueHandler"
  | AdministrativeUnitLineEditValueHandler => "AdministrativeUnitLineEditValueHandler"
  | AutoGeneratedLineEditValueHandler => "AutoGeneratedLineEditValueHandler"
  | RelatedEntityLineEditValueHandler => "RelatedEntityLineEditValueHandler"
  | MultipleSelectTreeViewValueHandler => "MultipleSelectTreeViewValueHandler"
  | CheckBoxValueHandler => "CheckBoxValueHandler"
  | TextEditValueHandler => "TextEditValueHandler"
  | ComboBoxValueHandler => "ComboBoxValueHandler"
  | DateEditValueHandler => "DateEditValueHandler"
  | DateTimeEditValueHandler => "DateTimeEditValueHandler"
  | SourceDocManagerValueHandler => "SourceDocManagerValueHandler"
  | ForeignKeyMapperValueHandler => "ForeignKeyMapperValueHandler"
  | SpinBoxValueHandler => "SpinBoxValueHandler"
  | DoubleSpinBoxValueHandler => "DoubleSpinBoxValueHandler"
  | CoordinatesWidgetValueHandler => "CoordinatesWidgetValueHandler"
  | MultipleChoiceComboBox => "MultipleChoiceComboBox"
  | ExpressionLineEditValueHandler => "ExpressionLineEditValueHandler"
  end.

(** The class object: [controlType] is looked up along the method
    resolution order. *)
Definition class_of (c : handler) : handler_class :=
  {| class_name := handler_name c; controlType := resolve own_controlType c |}.

(** The classes on which the module calls [register()], in order. *)
Definition registered : list handler :=
  [ LineEditValueHandler;
    AdministrativeUnitLineEditValueHandler;
    AutoGeneratedLineEditValueHandler;
    RelatedEntityLineEditValueHandler;
    MultipleSelectTreeViewValueHandler;
    CheckBoxValueHandler;
    TextEditValueHandler;
    ComboBoxValueHandler;
    DateEditValueHandler;
    DateTimeEditValueHandler;
    SourceDocManagerValueHandler;
    ForeignKeyMapperValueHandler;
    SpinBoxValueHandler;
    DoubleSpinBoxValueHandler;
    CoordinatesWidgetValueHandler;
    MultipleChoiceComboBox;
    ExpressionLineEditValueHandler ].

(** [handlers = {}] followed by the [register()] calls of the module. *)
Definition module_load : result unit * gmap string handler_class :=
  register_all (map class_of registered) ∅.

End Registry.

(* ===================================================================== *)
(** * data/template-database.py *)
(* ===================================================================== *)

(** [DatabaseCreator.createDbExtension].  [createDb] is left out: its
    statement [session.execute(dbStmt) % self.] is not a complete
    expression. *)

Module TemplateDatabase.
Import Py.

(** An exception object: its class, its [message] attribute when it has
    one (the builtin exceptions have it in Python 2 only), and whether
    the class derives from [Exception]: [KeyboardInterrupt] and
    [SystemExit], for instance, do not, and [except Exception] does not
    catch them. *)
Record exception : Type := {
  exc_class : string;
  exc_message : option string;
  exc_is_Exception : bool
}.

(** What a call leaves behind: the statements handed to [_execute], in
    order, and the exception that reaches the caller, if any. *)
Record outcome : Type := {
  executed : list string;
  raised : option exception
}.

(** The exception raised by the interpreter itself. *)
Definition builtin_exception (python2 : bool) (cls msg : string) : exception :=
  {| exc_class := cls;
     exc_message := if python2 then Some msg else None;
     exc_is_Exception := true |}.

(** [fmt % arg] *)
Definition percent (python2 : bool) (fmt arg : string) : string + exception :=
  match format_with fmt (Some arg) with
  | Formatted r => inl r
  | IncompleteFormat => inr (builtin_exception python2 "ValueError" "incomplete format")
  | OtherConversion =>
      inr (builtin_exception python2 "ValueError" "unsupported format character")
  | NotAllConverted =>
      inr (builtin_exception python2 "TypeError"
             "not all arguments converted during string formatting")
  | NotEnoughArguments =>
      inr (builtin_exception python2 "TypeError" "not enough arguments for format string")
  end.

(** [raise ex.message]: the attribute is looked up first; a string is not
    an exception and cannot be raised. *)
Definition raise_message (python2 : bool) (ex : exception) : exception :=
  match exc_message ex with
  | None => builtin_exception python2 "AttributeError" "message"
  | Some _ =>
      builtin_exception python2 "TypeError" "exceptions must derive from BaseException"
  end.

(** [except Exception as ex: raise ex.message]: an exception that does
    not derive from [Exception] passes through as it is. *)
Definition except_Exception (python2 : bool) (ex : exception) : exception :=
  if exc_is_Exception ex then raise_message python2 ex else ex.

(** [DatabaseCreator.createDbExtension].  [template] is [self.template]
    ([None] when no template was given) and [execute] is [_execute],
    which answers with the exception the driver raises, if any. *)
Definition createDbExtension (python2 : bool) (template : option string)
    (execute : string -> option exception) : outcome :=
  let sql : string + exception :=
    match template with
    | Some t => percent python2 "CREATE EXTENSION %" t
    | None => inl "CREATE EXTENSION postgis"
    end in
  match sql with
  | inl template_sql =>
      match execute template_sql with
      | None => {| executed := [template_sql]; raised := None |}
      | Some ex =>
          {| executed := [template_sql]; raised := Some (except_Exception python2 ex) |}
      end
  | inr ex => {| executed := []; raised := Some (except_Exception python2 ex) |}
  end.

(** The behaviour stated for the operation. *)
Definition stated_createDbExtension (template : option string)
    (execute : string -> option exception) : outcome :=
  let template_sql :=
    match template with
    | Some t => "CREATE EXTENSION " ++ t
    | None => "CREATE EXTENSION postgis"
    end in
  {| executed := [template_sql]; raised := execute template_sql |}.

End TemplateDatabase.

(* ===================================================================== *)
(** * stdm/ui/composer/composer_data_source.py *)
(* ===================================================================== *)

Module Composer.
Import Py.

(** The two helpers of [GuiUtils] the selector calls on a combo box: the
    index each of them makes current, or [-1] to leave the combo alone. *)
Class GuiUtils : Type := {
  index_by_text : list (string * option string) -> string -> Z;
  index_by_data : list (string * option string) -> option string -> Z
}.

(** A combo box: its items (text and data), the current index ([-1]
    when there is none) and whether it is enabled. *)
Record combo : Type := Combo {
  items : list (string * option string);
  currentIndex : Z;
  enabled : bool
}.

(** The variables the selector writes onto the layout. *)
Record layout_variables : Type := Layout {
  layout_data_source : option string;
  layout_referenced_table : option string;
  layout_category : option string
}.

(** The selector.  [signals_connected] tells whether the [connect] calls
    of [__init__] have been made; [profile_views] stands for
    [profile_and_user_views(self.curr_profile, True)]. *)
Record selector : Type := Selector {
  rbTables : bool;
  rbViews : bool;
  cboDataSource : combo;
  cboReferencedTable : combo;
  sync_data_source : bool;
  signals_connected : bool;
  layout : layout_variables;
  ref_tables : list (string * string);
  tables : list (string * string);
  profile_views : list string
}.

Definition with_cboDataSource (c : combo) (s : selector) : selector :=
  Selector (rbTables s) (rbViews s) c (cboReferencedTable s) (sync_data_source s)
           (signals_connected s) (layout s) (ref_tables s) (tables s) (profile_views s).

Definition with_cboReferencedTable (c : combo) (s : selector) : selector :=
  Selector (rbTables s) (rbViews s) (cboDataSource s) c (sync_data_source s)
           (signals_connected s) (layout s) (ref_tables s) (tables s) (profile_views s).

Definition with_sync (b : bool) (s : selector) : selector :=
  Selector (rbTables s) (rbViews s) (cboDataSource s) (cboReferencedTable s) b
           (signals_connected s) (layout s) (ref_tables s) (tables s) (profile_views s).

Definition with_layout (l : layout_variables) (s : selector) : selector :=
  Selector (rbTables s) (rbViews s) (cboDataSource s) (cboReferencedTable s)
           (sync_data_source s) (signals_connected s) l (ref_tables s) (tables s)
           (profile_views s).

Definition with_radios (t v : bool) (s : selector) : selector :=
  Selector t v (cboDataSource s) (cboReferencedTable s) (sync_data_source s)
           (signals_connected s) (layout s) (ref_tables s) (tables s) (profile_views s).

Definition with_connected (b : bool) (s : selector) : selector :=
  Selector (rbTables s) (rbViews s) (cboDataSource s) (cboReferencedTable s)
           (sync_data_source s) b (layout s) (ref_tables s) (tables s) (profile_views s).

(** ** Combo boxes *)

Definition count (c : combo) : Z := Z.of_nat (List.length (items c)).

Definition item_at (c : combo) (i : Z) : option (string * option string) :=
  if (0 <=? i) && (i <? count c) then nth_error (items c) (Z.to_nat i) else None.

Definition itemText (c : combo) (i : Z) : string :=
  match item_at c i with Some (t, _) => t | None => "" end.

Definition itemData (c : combo) (i : Z) : option string :=
  match item_at c i with Some (_, d) => d | None => None end.

Definition currentData (c : combo) : option string := itemData c (currentIndex c).

Definition setEnabled (b : bool) (c : combo) : combo :=
  Combo (items c) (currentIndex c) b.

(** [setCurrentIndex]: the combo, and the text carried by
    [currentIndexChanged] when the current index changes. *)
Definition setCurrentIndex (i : Z) (c : combo) : combo * option string :=
  let i' := if (0 <=? i) && (i <? count c) then i else -1 in
  if i' =? currentIndex c then (c, None)
  else (Combo (items c) i' (enabled c), Some (itemText c i')).

(** [clear]: the signal is sent when the combo had a current item. *)
Definition clear (c : combo) : combo * option string :=
  (Combo [] (-1) (enabled c),
   if currentIndex c =? -1 then None else Some "").

(** [addItem]: the item is appended; the first item of an empty combo
    becomes the current one. *)
Definition addItem (text : string) (data : option string) (c : combo)
    : combo * option string :=
  match items c with
  | [] => (Combo [(text, data)] 0 (enabled c), Some text)
  | l => (Combo (l ++ [(text, data)]) (currentIndex c) (enabled c), None)
  end.

(** The part of the state the slots of [cboDataSource] leave alone while
    the category is "Table". *)
Definition table_mode (s : selector) : Prop :=
  rbTables s = true
  /\ sync_data_source s = true
  /\ enabled (cboReferencedTable s) = false
  /\ signals_connected s = true.

(** The same for the category "View"; the referenced table combo is not
    part of it. *)
Definition view_mode (s : selector) : Prop :=
  rbTables s = false
  /\ rbViews s = true
  /\ sync_data_source s = false
  /\ signals_connected s = true.

Section Selector.
Context `{GuiUtils}.

(** ** [LayoutUtils] *)

Definition set_stdm_data_source_for_layout (v : option string) (s : selector) : selector :=
  with_layout (Layout v (layout_referenced_table (layout s)) (layout_category (layout s))) s.

Definition set_stdm_referenced_table_for_layout (v : option string) (s : selector) : selector :=
  with_layout (Layout (layout_data_source (layout s)) v (layout_category (layout s))) s.

Definition set_stdm_data_category_for_layout (v : option string) (s : selector) : selector :=
  with_layout (Layout (layout_data_source (layout s)) (layout_referenced_table (layout s)) v) s.

(** ** The selector's methods *)

Definition category (s : selector) : option string :=
  if rbTables s then Some "Table"
  else if rbViews s then Some "View"
  else None.

Definition category_is (s : selector) (name : string) : bool :=
  match category s with Some c => String.eqb c name | None => false end.

Definition referenced_table_name (s : selector) : option string :=
  itemData (cboReferencedTable s) (currentIndex (cboReferencedTable s)).

Definition on_referenced_table_selected (_ : string) (s : selector) : selector :=
  set_stdm_referenced_table_for_layout (referenced_table_name s) s.

(** An operation on [cboReferencedTable], followed by the slot connected
    to its [currentIndexChanged] signal. *)
Definition on_cboReferencedTable (op : combo -> combo * option string) (s : selector)
    : selector :=
  let '(c, signal) := op (cboReferencedTable s) in
  let s' := with_cboReferencedTable c s in
  match signal with
  | Some text => if signals_connected s' then on_referenced_table_selected text s' else s'
  | None => s'
  end.

(** [GuiUtils.set_combo_current_index_by_text(self.cboReferencedTable, text)] *)
Definition set_referenced_table_by_text (text : string) (s : selector) : selector :=
  let i := index_by_text (items (cboReferencedTable s)) text in
  if i =? -1 then s else on_cboReferencedTable (setCurrentIndex i) s.

Definition onDataSourceSelected (dataSource : string) (s : selector) : selector :=
  let s1 :=
    if category_is s "View" then
      if String.eqb dataSource "" then
        with_cboReferencedTable (setEnabled false (cboReferencedTable s)) s
      else
        with_cboReferencedTable (setEnabled true (cboReferencedTable s)) s
    else s in
  let s2 :=
    if sync_data_source s1 then set_referenced_table_by_text dataSource s1 else s1 in
  let data_source_name := currentData (cboDataSource s2) in
  set_stdm_data_source_for_layout data_source_name s2.

(** An operation on [cboDataSource], followed by the slot connected to
    its [currentIndexChanged] signal. *)
Definition on_cboDataSource (op : combo -> combo * option string) (s : selector)
    : selector :=
  let '(c, signal) := op (cboDataSource s) in
  let s' := with_cboDataSource c s in
  match signal with
  | Some text => if signals_connected s' then onDataSourceSelected text s' else s'
  | None => s'
  end.

Fixpoint add_all (entries : list (string * option string))
    (on : (combo -> combo * option string) -> selector -> selector) (s : selector)
    : selector :=
  match entries with
  | [] => s
  | (text, data) :: rest => add_all rest on (on (addItem text data) s)
  end.

Definition _populate_referenced_tables (s : selector) : selector :=
  add_all (("", None) :: map (fun e => (lower (fst e), Some (snd e))) (ref_tables s))
          on_cboReferencedTable s.

(** [table.find('supporting_document')] differs from [-1]. *)
Fixpoint has_substring (needle : string) (s : string) : bool :=
  if String.prefix needle s then true
  else match s with
       | EmptyString => false
       | String _ s' => has_substring needle s'
       end.

Definition _contains_supporting_document (table : string) : bool :=
  has_substring "supporting_document" table.

Definition _reset_referenced_table_combo (s : selector) : selector :=
  let s1 :=
    if 0 <? count (cboReferencedTable s)
    then on_cboReferencedTable (setCurrentIndex 0) s
    else s in
  if category_is s1 "Table" then
    with_sync true (with_cboReferencedTable (setEnabled false (cboReferencedTable s1)) s1)
  else
    with_sync false (with_cboReferencedTable (setEnabled true (cboReferencedTable s1)) s1).

Definition onShowTables (state : bool) (save_change : bool) (s : selector) : selector :=
  let s1 :=
    if state then
      let s' := _reset_referenced_table_combo s in
      let s' := on_cboDataSource clear s' in
      let s' := on_cboDataSource (addItem "" None) s' in
      add_all (map (fun kv => (lower (snd kv), Some (fst kv)))
                   (filter (fun kv => negb (_contains_supporting_document (fst kv)))
                           (tables s')))
              on_cboDataSource s'
    else s in
  if save_change then set_stdm_data_category_for_layout (category s1) s1 else s1.

Definition onShowViews (state : bool) (save_change : bool) (s : selector) : selector :=
  let s1 :=
    if state then
      let s' := _reset_referenced_table_combo s in
      let s' := on_cboDataSource clear s' in
      let s' := on_cboDataSource (addItem "" None) s' in
      add_all (map (fun view => (view, Some view)) (profile_views s'))
              on_cboDataSource s'
    else s in
  if save_change then set_stdm_data_category_for_layout (category s1) s1 else s1.

(** ** The radio buttons

    Modelled from the spec: the category is one of "Table" and "View";
    [rbTables] and [rbViews] are the two buttons of an exclusive group.
    Checking a button unchecks the other one, whose [toggled(False)] is
    sent before the [toggled(True)] of the button checked. *)

Definition rbTables_setChecked_True (s : selector) : selector :=
  if rbTables s then s
  else
    let was_views := rbViews s in
    let s1 := with_radios true false s in
    let s2 := if was_views && signals_connected s1 then onShowViews false true s1 else s1 in
    if signals_connected s2 then onShowTables true true s2 else s2.

Definition rbViews_setChecked_True (s : selector) : selector :=
  if rbViews s then s
  else
    let was_tables := rbTables s in
    let s1 := with_radios false true s in
    let s2 := if was_tables && signals_connected s1 then onShowTables false true s1 else s1 in
    if signals_connected s2 then onShowViews true true s2 else s2.

Definition setCategory (categoryName : string) (s : selector) : selector :=
  if String.eqb categoryName "Table" then rbTables_setChecked_True s
  else if String.eqb categoryName "View" then rbViews_setChecked_True s
  else s.

Definition setSelectedSource (dataSourceName : option string) (s : selector) : selector :=
  let i := index_by_data (items (cboDataSource s)) dataSourceName in
  if i =? -1 then s else on_cboDataSource (setCurrentIndex i) s.

Definition set_referenced_table (referenced_table : option string) (s : selector)
    : selector :=
  if category_is s "View" then
    let i := index_by_data (items (cboReferencedTable s)) referenced_table in
    if i =? -1 then s else on_cboReferencedTable (setCurrentIndex i) s
  else s.

(** [set_data_source], given the name, the category and the referenced
    table name of the data source. *)
Definition set_data_source (name : string) (category_name : string)
    (referenced_table_name : option string) (s : selector) : selector :=
  if String.eqb name "" then s
  else
    set_referenced_table referenced_table_name
      (setSelectedSource (Some name) (setCategory category_name s)).

(** [__init__], from the state left by [setupUi]. *)
Definition init (ui : selector) : selector :=
  let s := with_connected false ui in
  let s := _populate_referenced_tables s in
  let s := with_sync false s in
  let s := rbViews_setChecked_True s in
  let s := onShowViews true false s in
  let s := with_connected true s in
  with_cboReferencedTable (setEnabled false (cboReferencedTable s)) s.

End Selector.
End Composer.

(* ===================================================================== *)
(** * valuehandlers.py: the remaining methods *)
(* ===================================================================== *)

Module HandlerMethods.
Import Py Qt ValueHandlers Registry.
Local Open Scope py_scope.

Section Methods.
Context `{External}.

(** [self.setControl(control)] *)
Definition setControl (c : control) : M value :=
  fun w => (Ok VNone, with_control c w).

(** [self.control.clear()]: a line edit loses its text. *)
Definition control_clear : M value :=
  method "clear" [] (fun c =>
    match c with
    | QLineEdit _ => Some (Ok VNone, QLineEdit "")
    | ExpressionLineEdit _ ty => Some (Ok VNone, ExpressionLineEdit "" ty)
    | _ => None
    end).

(** ** [clear] *)

Definition own_clear (cls : handler) : option (M value) :=
  match cls with
  | ControlValueHandler => Some (raise NotImplementedError)
  | LineEditValueHandler => Some control_clear
  | AdministrativeUnitLineEditValueHandler => Some control_clear
  | AutoGeneratedLineEditValueHandler =>
      Some (method "clear_line_edit" [] (fun _ => None))
  | RelatedEntityLineEditValueHandler => None
  | MultipleSelectTreeViewValueHandler =>
      Some (method "clear_selection" [] (fun _ => None))
  | CheckBoxValueHandler => Some (setChecked (VBool false))
  | TextEditValueHandler => Some control_clear
  | ComboBoxValueHandler => Some (method "setCurrentIndex" [VInt 0] (fun _ => None))
  | DateEditValueHandler => Some (let* d := currentDate in setDate d)
  | DateTimeEditValueHandler => Some (let* d := currentDateTime in setDateTime d)
  | SourceDocManagerValueHandler => Some control_clear
  | ForeignKeyMapperValueHandler => Some (method "remove_rows" [] (fun _ => None))
  | SpinBoxValueHandler => Some control_clear
  | DoubleSpinBoxValueHandler => Some control_clear
  | CoordinatesWidgetValueHandler => Some control_clear
  | MultipleChoiceComboBox => Some control_clear
  | ExpressionLineEditValueHandler =>
      Some (method "clear_line_edit" [] (fun _ => None))
  end.

(** [self.clear()] *)
Definition clear (self : handler) : M value :=
  match resolve own_clear self with
  | Some m => m
  | None => raise AttributeError
  end.

(** [self.clear()] followed by [self.value()]. *)
Definition clear_then_get (self : handler) : M value :=
  clear self >> value_of self.

(** [self.clear()] followed by [self.value() == self.default()]; when
    [default()] is called the clock reads [day], [msec]. *)
Definition clear_round_trip_at (self : handler) (day msec : Z) : M bool :=
  clear self >>
  let* v := value_of self in
  tick day msec >>
  let* d := default self in
  ret (py_eq v d).

(** ** [isControlTypeValid] *)

(** The class of a control described here. *)
Definition control_class_of (c : control) : option string :=
  match c with
  | QLineEdit _ => Some "QLineEdit"
  | QCheckBox _ => Some "QCheckBox"
  | QDateTimeEdit true _ _ _ => Some "QDateEdit"
  | QDateTimeEdit false _ _ _ => Some "QDateTimeEdit"
  | QSpinBox _ => Some "QSpinBox"
  | QDoubleSpinBox _ => Some "QDoubleSpinBox"
  | ExpressionLineEdit _ _ => Some "ExpressionLineEdit"
  | NoControl | OtherWidget _ => None
  end.

Definition toolkit_classes : list string :=
  ["QLineEdit"; "QCheckBox"; "QTextEdit"; "QComboBox"; "QDateEdit"; "QDateTimeEdit";
   "QSpinBox"; "QDoubleSpinBox"].

Definition is_toolkit_class (name : string) : bool :=
  existsb (String.eqb name) toolkit_classes.

(** [isinstance(control, cls)].  Among the toolkit classes only
    [QDateEdit] derives from another one, [QDateTimeEdit]; a toolkit
    control is an instance of no class of the repository.  The ancestors
    of the repository's own widget classes are not described. *)
Definition isinstance (c : control) (cls : string) : result bool :=
  match control_class_of c with
  | None => Outside
  | Some k =>
      if String.eqb k cls then Ok true
      else if is_toolkit_class k then
        Ok (String.eqb k "QDateEdit" && String.eqb cls "QDateTimeEdit")
      else Outside
  end.

Definition isControlTypeValid (self : handler) : M bool :=
  fun w =>
    match the_control w with
    | NoControl => (Raise TypeError, w)
    | c =>
        match resolve own_controlType self with
        | None => (Raise AttributeError, w)
        | Some ct =>
            match isinstance c (control_name ct) with
            | Ok true => (Ok true, w)
            | Ok false => (Raise TypeError, w)
            | Raise e => (Raise e, w)
            | Outside => (Outside, w)
            end
        end
    end.

End Methods.

(** A call that the object does not support: it ends in an
    [AttributeError] or in a [NotImplementedError]. *)
Definition unsupported {A} (r : result A) : bool :=
  match r with
  | Raise AttributeError | Raise NotImplementedError => true
  | _ => false
  end.

(** The handler classes whose control is described here. *)
Definition described_handlers : list handler :=
  [ LineEditValueHandler; CheckBoxValueHandler; DateEditValueHandler;
    DateTimeEditValueHandler; SpinBoxValueHandler; DoubleSpinBoxValueHandler;
    ExpressionLineEditValueHandler ].

(** A control of the class each of them is written for. *)
Definition control_for `{External} (h : handler) : control :=
  match h with
  | LineEditValueHandler => QLineEdit ""
  | CheckBoxValueHandler => QCheckBox false
  | DateEditValueHandler => QDateTimeEdit true false 0 0
  | DateTimeEditValueHandler => QDateTimeEdit false false 0 0
  | SpinBoxValueHandler => QSpinBox 0
  | DoubleSpinBoxValueHandler => QDoubleSpinBox (S754_zero false)
  | ExpressionLineEditValueHandler => ExpressionLineEdit "" (VStr "str")
  | _ => NoControl
  end.

(** The class whose definition an attribute lookup finds. *)
Fixpoint first_definer {A} (table : handler -> option A) (l : list handler)
    : option handler :=
  match l with
  | [] => None
  | c :: t => match table c with Some _ => Some c | None => first_definer table t end
  end.

Definition definer {A} (table : handler -> option A) (self : handler) : option handler :=
  first_definer table (mro self).

End HandlerMethods.

(* ===================================================================== *)
(** * ui/forms/mapper_dialog.py *)
(* ===================================================================== *)

Module MapperDialog.
Import Py.

(** [MapperDialog.center]: the position handed to [move], from the
    width and height of the screen and of the dialog.  [/] is the floor
    division of integers. *)
Definition center (screen_width screen_height width height : Z) : Z * Z :=
  ((screen_width - width) / 2, (screen_height - height) / 2).

(** [attr.replace("_", " ")] *)
Fixpoint replace_underscores (s : string) : string :=
  match s with
  | EmptyString => EmptyString
  | String c s' =>
      String (if Ascii.eqb c "_"%char then " "%char else c) (replace_underscores s')
  end.

Definition is_ascii_lower (c : ascii) : bool :=
  let n := code c in (97 <=? n) && (n <=? 122).

Definition is_ascii_upper (c : ascii) : bool :=
  let n := code c in (65 <=? n) && (n <=? 90).

(** [str.title], on the letters A to Z and a to z: a letter that follows
    a letter is put in lower case, any other letter in upper case. *)
Fixpoint title_from (previous_is_cased : bool) (s : string) : string :=
  match s with
  | EmptyString => EmptyString
  | String c s' =>
      if is_ascii_lower c then
        String (if previous_is_cased then c else chr (code c - 32)) (title_from true s')
      else if is_ascii_upper c then
        String (if previous_is_cased then chr (code c + 32) else c) (title_from true s')
      else String c (title_from false s')
  end.

Definition title (s : string) : string := title_from false s.

(** [CustomFormDialog.userLabel] *)
Definition userLabel (attr : string) : string := title (replace_underscores attr).

Definition is_ascii (s : string) : bool :=
  forallb (fun c => code c <? 128) (list_ascii_of_string s).

(** No character of [s] is an underscore. *)
Definition no_underscore (s : string) : bool :=
  forallb (fun c => negb (Ascii.eqb c "_"%char)) (list_ascii_of_string s).

End MapperDialog.

(* ===================================================================== *)
(** * composer_data_source.py: what the user can do to the selector *)
(* ===================================================================== *)

Module ComposerEvents.
Import Py Composer.

(** The calls that reach the selector once it is constructed: the public
    setters, and the choice of an item in either combo box. *)
Inductive event : Type :=
  | SetCategory (categoryName : string)
  | SetSelectedSource (dataSourceName : option string)
  | SetReferencedTable (referenced_table : option string)
  | SetDataSource (name category_name : string) (referenced_table_name : option string)
  | ChooseDataSource (index : Z)
  | ChooseReferencedTable (index : Z).

Section Events.
Context `{GuiUtils}.

Definition step (e : event) (s : selector) : selector :=
  match e with
  | SetCategory n => setCategory n s
  | SetSelectedSource d => setSelectedSource d s
  | SetReferencedTable r => set_referenced_table r s
  | SetDataSource n c r => set_data_source n c r s
  | ChooseDataSource i => on_cboDataSource (setCurrentIndex i) s
  | ChooseReferencedTable i => on_cboReferencedTable (setCurrentIndex i) s
  end.

Fixpoint run (events : list event) (s : selector) : selector :=
  match events with
  | [] => s
  | e :: rest => run rest (step e s)
  end.

End Events.

(** The entries [onShowTables] puts into the data source combo. *)
Definition table_entries (s : selector) : list (string * option string) :=
  ("", None)
  :: map (fun kv => (lower (snd kv), Some (fst kv)))
         (filter (fun kv => negb (_contains_supporting_document (fst kv))) (tables s)).

(** The entries [onShowViews] puts into the data source combo. *)
Definition view_entries (s : selector) : list (string * option string) :=
  ("", None) :: map (fun view => (view, Some view)) (profile_views s).

(** What no slot and no combo box operation changes: the buttons, the
    connections, the profile and the category stored on the layout. *)
Definition same_frame (s s' : selector) : Prop :=
  rbTables s' = rbTables s
  /\ rbViews s' = rbViews s
  /\ signals_connected s' = signals_connected s
  /\ tables s' = tables s
  /\ profile_views s' = profile_views s
  /\ ref_tables s' = ref_tables s
  /\ layout_category (layout s') = layout_category (layout s).

(** [addItem] for each entry, on the combo box alone. *)
Fixpoint add_items (entries : list (string * option string)) (c : combo) : combo :=
  match entries with
  | [] => c
  | (text, data) :: rest => add_items rest (fst (addItem text data c))
  end.

(** The two buttons are not both checked. *)
Definition exclusive (s : selector) : Prop := rbTables s && rbViews s = false.

(** What holds of the selector between two events. *)
Definition consistent (s : selector) : Prop :=
  signals_connected s = true
  /\ rbTables s = negb (rbViews s)
  /\ (rbTables s = true ->
      enabled (cboReferencedTable s) = false
      /\ sync_data_source s = true
      /\ items (cboDataSource s) = table_entries s)
  /\ (rbViews s = true ->
      sync_data_source s = false
      /\ items (cboDataSource s) = view_entries s
      /\ enabled (cboReferencedTable s)
         = negb (String.eqb (itemText (cboDataSource s) (currentIndex (cboDataSource s)))
                            "")).

End ComposerEvents.

(* ===================================================================== *)
(** * Decimal digits *)
(* ===================================================================== *)

Module Digits.

(** The value of a run of decimal digits read after [acc]. *)
Fixpoint uint_value (d : Decimal.uint) (acc : Z) : Z :=
  match d with
  | Decimal.Nil => acc
  | Decimal.D0 l => uint_value l (10 * acc + 0)
  | Decimal.D1 l => uint_value l (10 * acc + 1)
  | Decimal.D2 l => uint_value l (10 * acc + 2)
  | Decimal.D3 l => uint_value l (10 * acc + 3)
  | Decimal.D4 l => uint_value l (10 * acc + 4)
  | Decimal.D5 l => uint_value l (10 * acc + 5)
  | Decimal.D6 l => uint_value l (10 * acc + 6)
  | Decimal.D7 l => uint_value l (10 * acc + 7)
  | Decimal.D8 l => uint_value l (10 * acc + 8)
  | Decimal.D9 l => uint_value l (10 * acc + 9)
  end.

(** The characters of a decimal number. *)
Definition uint_chars (d : Decimal.uint) : list ascii :=
  list_ascii_of_string (NilEmpty.string_of_uint d).

End Digits.

(* ===================================================================== *)
(** * Sample inputs *)
(* ===================================================================== *)

Module Samples.
Import Py Qt.

(** No widget other than the toolkit controls described above. *)
Definition toolkit_only : External := {|
  widget := Empty_set;
  call := fun _ _ w => match w with end;
  getattr := fun _ w => match w with end;
  value_getattr := fun _ _ => Raise AttributeError;
  setComboCurrentIndexWithItemData := fun _ w => match w with end;
  str_other := fun _ => "object"
|}.

Definition sample_world (c : @control toolkit_only) : @world toolkit_only :=
  World c 738000 0 [].

(** A second handler class for the line edit. *)
Definition other_line_edit_handler : Registry.handler_class :=
  {| Registry.class_name := "PlainLineEditValueHandler";
     Registry.controlType := Some (Registry.toolkit_class "QLineEdit") |}.

(** A driver that rejects every statement. *)
Definition driver_error : TemplateDatabase.exception :=
  {| TemplateDatabase.exc_class := "ProgrammingError";
     TemplateDatabase.exc_message := None;
     TemplateDatabase.exc_is_Exception := true |}.

(** An interrupt raised while the driver runs the statement. *)
Definition keyboard_interrupt : TemplateDatabase.exception :=
  {| TemplateDatabase.exc_class := "KeyboardInterrupt";
     TemplateDatabase.exc_message := None;
     TemplateDatabase.exc_is_Exception := false |}.

Definition interrupted_driver (sql : string) : option TemplateDatabase.exception :=
  Some keyboard_interrupt.

Definition failing_driver (sql : string) : option TemplateDatabase.exception :=
  Some driver_error.

Definition accepting_driver (sql : string) : option TemplateDatabase.exception := None.

Fixpoint find_index {A} (p : A -> bool) (l : list A) (i : Z) : Z :=
  match l with
  | [] => -1
  | x :: t => if p x then i else find_index p t (i + 1)
  end.

Definition option_string_eqb (a b : option string) : bool :=
  match a, b with
  | Some x, Some y => String.eqb x y
  | None, None => true
  | _, _ => false
  end.

(** [findText] and [findData] followed by [setCurrentIndex]. *)
Definition find_utils : Composer.GuiUtils := {|
  Composer.index_by_text := fun items text =>
    find_index (fun it => String.eqb (fst it) text) items 0;
  Composer.index_by_data := fun items data =>
    find_index (fun it => option_string_eqb (snd it) data) items 0
|}.

(** The selector as [setupUi] leaves it, for a profile with two entities
    and one view. *)
Definition fresh_ui : Composer.selector :=
  Composer.Selector false false
    (Composer.Combo [] (-1) true) (Composer.Combo [] (-1) true)
    false false (Composer.Layout None None None)
    [("Household", "hl_household"); ("Parcel", "hl_parcel")]
    [("hl_household", "Household"); ("hl_parcel", "Parcel");
     ("hl_household_supporting_document", "Household Supporting Document")]
    ["hl_household_view"].

Definition after_init : Composer.selector := @Composer.init find_utils fresh_ui.

Definition after_table : Composer.selector :=
  @Composer.setCategory find_utils "Table" after_init.

Definition after_view : Composer.selector :=
  @Composer.setCategory find_utils "View" after_table.

End Samples.

(* ===================================================================== *)
(** * Properties of the value handlers *)
(* ===================================================================== *)

Section HandlerProperties.
Import Py Qt ValueHandlers.
Context `{External}.

(** The method resolution order is computed for every class. *)
Lemma linearize_total (c : handler) : linearize 8 c = Some (mro c).
Proof. destruct c; reflexivity. Qed.

Lemma mro_head (c : handler) : exists rest, mro c = c :: rest.
Proof. destruct c; eexists; reflexivity. Qed.

Lemma float_of_str_7 : float_of_str "7" = Ok (float_of_Z 7).
Proof. reflexivity. Qed.

Lemma int_of_str_7 : int_of_str "7" = Ok 7.
Proof. reflexivity. Qed.

Example int_of_str_samples :
  int_of_str " -1_000 " = Ok (-1000)
  /\ int_of_str "abc" = Raise ValueError
  /\ int_of_str "" = Raise ValueError
  /\ int_of_str "1__0" = Raise ValueError
  /\ int_of_str "7.0" = Raise ValueError.
Proof. repeat split; reflexivity. Qed.

Example float_of_str_samples :
  float_of_str "0.1" = Ok (S754_finite false 7205759403792794 (-56))
  /\ float_of_str "-1_0.5e-3" = Ok (S754_finite true 6052837899185947 (-59))
  /\ float_of_str " +InFinity " = Ok (S754_infinity false)
  /\ float_of_str "1e400" = Ok (S754_infinity false)
  /\ float_of_str "5e-324" = Ok (S754_finite false 1 (-1074))
  /\ float_of_str "1e" = Raise ValueError
  /\ float_of_str "abc" = Raise ValueError.
Proof. repeat split; reflexivity. Qed.

Example mro_expression :
  mro ExpressionLineEditValueHandler
  = [ExpressionLineEditValueHandler; LineEditValueHandler; DoubleSpinBoxValueHandler;
     SpinBoxValueHandler; ControlValueHandler].
Proof. reflexivity. Qed.

Example mro_related_entity :
  mro RelatedEntityLineEditValueHandler
  = [RelatedEntityLineEditValueHandler; AdministrativeUnitLineEditValueHandler;
     LineEditValueHandler; ControlValueHandler].
Proof. reflexivity. Qed.

(** C5: on the integer and on the double spin box handler
    [setValue(None)] followed by [value()] returns 0 (the float 0.0,
    which equals 0, on the double one); [setValue("7")] followed by
    [value()] returns the integer 7 on the integer spin box handler and
    the float 7.0 on the double one. *)
Theorem C5_numeric_handlers (w : world) (z : Z) (f : spec_float) :
  set_then_get SpinBoxValueHandler VNone (with_control (QSpinBox z) w)
    = (Ok (VInt 0), with_control (QSpinBox 0) w)
  /\ (set_then_get DoubleSpinBoxValueHandler VNone (with_control (QDoubleSpinBox f) w)
        = (Ok (VFloat (float_of_Z 0)), with_control (QDoubleSpinBox (float_of_Z 0)) w)
      /\ py_eq (VFloat (float_of_Z 0)) (VInt 0) = true)
  /\ set_then_get SpinBoxValueHandler (VStr "7") (with_control (QSpinBox z) w)
       = (Ok (VInt 7), with_control (QSpinBox 7) w)
  /\ (set_then_get DoubleSpinBoxValueHandler (VStr "7") (with_control (QDoubleSpinBox f) w)
        = (Ok (VFloat (float_of_Z 7)), with_control (QDoubleSpinBox (float_of_Z 7)) w)
      /\ py_eq (VFloat (float_of_Z 7)) (VInt 7) = true).
Proof.
  repeat split; reflexivity.
Qed.

(** C6: with the output type tag "int" and the text "42" the expression
    handler's [value()] returns the integer 42; with an empty text and
    any of the tags "float", "int", "str" it returns [default()], which
    is [None]. *)
Theorem C6_expression_value (w : world) :
  value_of ExpressionLineEditValueHandler
      (with_control (ExpressionLineEdit "42" (VStr "int")) w)
    = (Ok (VInt 42), with_control (ExpressionLineEdit "42" (VStr "int")) w)
  /\ Forall (fun tag =>
       let w0 := with_control (ExpressionLineEdit "" (VStr tag)) w in
       value_of ExpressionLineEditValueHandler w0 = default ExpressionLineEditValueHandler w0
       /\ default ExpressionLineEditValueHandler w0 = (Ok VNone, w0))
     ["float"; "int"; "str"].
Proof.
  split; [reflexivity|].
  repeat constructor.
Qed.

(** C10: [MultipleChoiceComboBox] does not define [supportsMandatory];
    the call resolves to the method of [ControlValueHandler] and raises
    [NotImplementedError], whereas on every other registered class it
    returns a boolean. *)
Theorem C10_supportsMandatory_not_implemented :
  own_supportsMandatory MultipleChoiceComboBox = None
  /\ resolve own_supportsMandatory MultipleChoiceComboBox
       = own_supportsMandatory ControlValueHandler
  /\ supportsMandatory MultipleChoiceComboBox = Raise NotImplementedError
  /\ In MultipleChoiceComboBox Registry.registered
  /\ Forall (fun h =>
       h = MultipleChoiceComboBox \/ exists b : bool, supportsMandatory h = Ok b)
     Registry.registered.
Proof.
  split; [reflexivity|]. split; [reflexivity|]. split; [reflexivity|].
  split.
  - unfold Registry.registered. simpl. tauto.
  - unfold Registry.registered.
    repeat (constructor; [first [left; reflexivity | right; eexists; reflexivity]|]).
    constructor.
Qed.

(** The check box handler, on a string. *)
Lemma checkbox_string (w : world) (b : bool) (s : string) :
  set_then_get CheckBoxValueHandler (VStr s) (with_control (QCheckBox b) w)
    = (Ok (VBool (is_true_token s)), with_control (QCheckBox (is_true_token s)) w).
Proof.
  unfold set_then_get, setValue, value_of. simpl.
  unfold bind, lower_of, ret, in_tuple, is_true_token, true_tokens. simpl.
  destruct (lower s =? "yes")%string; [reflexivity|].
  destruct (lower s =? "true")%string; [reflexivity|].
  destruct (lower s =? "t")%string; [reflexivity|].
  destruct (lower s =? "1")%string; reflexivity.
Qed.

(** C2, amended: on the check box handler, [setValue] of a string
    followed by [value()] returns [True] exactly when the lower-case form
    of the string is one of "yes", "true", "t", "1"; this covers every
    case variant of these tokens, among them "yes", "YES", "true", "t"
    and "1".  Every other string, and [None], gives [False]; a boolean is
    stored as given. *)
Theorem C2_checkbox_tokens (w : world) (b : bool) :
  let w0 := with_control (QCheckBox b) w in
  (forall s : string,
      set_then_get CheckBoxValueHandler (VStr s) w0
        = (Ok (VBool (is_true_token s)), with_control (QCheckBox (is_true_token s)) w))
  /\ Forall (fun s => is_true_token s = true) (flat_map case_variants true_tokens)
  /\ Forall (fun s => In s (flat_map case_variants true_tokens))
            ["yes"; "YES"; "true"; "t"; "1"]
  /\ set_then_get CheckBoxValueHandler VNone w0
       = (Ok (VBool false), with_control (QCheckBox false) w)
  /\ (forall b' : bool,
        set_then_get CheckBoxValueHandler (VBool b') w0
          = (Ok (VBool b'), with_control (QCheckBox b') w)).
Proof.
  cbv zeta. split; [intros s; apply checkbox_string|].
  split.
  { let l := eval vm_compute in (flat_map case_variants true_tokens) in
    change (flat_map case_variants true_tokens) with l.
    repeat (constructor; [reflexivity|]). constructor. }
  split.
  { repeat (constructor; [vm_compute; tauto|]). constructor. }
  split; [reflexivity|].
  intros b'. reflexivity.
Qed.

Lemma spin_setValue_int (w : world) (z n : Z) :
  spin_setValue (VInt n) (with_control (QSpinBox z) w)
  = if fits_int n then (Ok VNone, with_control (QSpinBox (bound_int n)) w)
    else (Raise OverflowError, with_control (QSpinBox z) w).
Proof. unfold spin_setValue, method. simpl. destruct (fits_int n); reflexivity. Qed.

Lemma spin_setValue_float (w : world) (f g : spec_float) :
  spin_setValue (VFloat g) (with_control (QDoubleSpinBox f) w)
  = match bound_double g with
    | Some g' => (Ok VNone, with_control (QDoubleSpinBox g') w)
    | None => (Outside, with_control (QDoubleSpinBox f) w)
    end.
Proof.
  unfold spin_setValue, method, double_spin_setValue. cbn [the_control with_control].
  destruct (bound_double g); reflexivity.
Qed.

(** [setValue] of the spin box handler, for every value. *)
Lemma spin_box_setValue (w : world) (v : value) (z : Z) :
  setValue SpinBoxValueHandler v (with_control (QSpinBox z) w)
  = if is_None v then (Ok VNone, with_control (QSpinBox 0) w)
    else match int v with
         | Ok n => if fits_int n then (Ok VNone, with_control (QSpinBox (bound_int n)) w)
                   else (Raise OverflowError, with_control (QSpinBox z) w)
         | Raise e => (Raise e, with_control (QSpinBox z) w)
         | Outside => (Outside, with_control (QSpinBox z) w)
         end.
Proof.
  change (setValue SpinBoxValueHandler v)
    with (if ne_None v then bind (lift (int v)) (fun n => spin_setValue (VInt n))
          else spin_setValue (VInt 0)).
  unfold ne_None. destruct (is_None v); cbn [negb]; [reflexivity|].
  unfold bind, lift. destruct (int v) as [n|e|]; try reflexivity.
  apply spin_setValue_int.
Qed.

(** [setValue] of the double spin box handler, for every value. *)
Lemma double_spin_box_setValue (w : world) (v : value) (f : spec_float) :
  setValue DoubleSpinBoxValueHandler v (with_control (QDoubleSpinBox f) w)
  = if is_None v then (Ok VNone, with_control (QDoubleSpinBox (float_of_Z 0)) w)
    else match float v with
         | Ok g => match bound_double g with
                   | Some g' => (Ok VNone, with_control (QDoubleSpinBox g') w)
                   | None => (Outside, with_control (QDoubleSpinBox f) w)
                   end
         | Raise e => (Raise e, with_control (QDoubleSpinBox f) w)
         | Outside => (Outside, with_control (QDoubleSpinBox f) w)
         end.
Proof.
  change (setValue DoubleSpinBoxValueHandler v)
    with (if ne_None v then bind (lift (float v)) (fun g => spin_setValue (VFloat g))
          else spin_setValue (VInt 0)).
  unfold ne_None. destruct (is_None v); cbn [negb]; [reflexivity|].
  unfold bind, lift. destruct (float v) as [g|e|]; try reflexivity.
  apply spin_setValue_float.
Qed.

(** C3, amended: the date and the date-time handler never propagate a
    failure of the control: a value that is not a date (date-time) is
    ignored and leaves the control as it was, and on a destroyed control
    a warning is shown instead.  The coordinates handler ignores every
    value, and the handlers that test for [None] ignore [None].  The spin
    box handler hands on whatever [int()] raises on the value, among it
    [ValueError] on text that is no number, [TypeError] on a list or an
    object and [OverflowError] on an infinite float, and the
    [OverflowError] of the control; the double spin box handler hands on
    whatever [float()] raises.  The line edit handler hands on the
    [TypeError] of [setText] for a value that is neither a string nor
    [None]. *)
Theorem C3_setValue_failures (w : world) :
  (forall (v : value) (k dead : bool) (d ms : Z),
      let w0 := with_control (QDateTimeEdit k dead d ms) w in
      setValue DateEditValueHandler v w0
        = (Ok VNone,
           match v with
           | VDate d' =>
               if dead then warned w0 else with_control (QDateTimeEdit k false d' ms) w
           | _ => w0
           end)
      /\ setValue DateTimeEditValueHandler v w0
        = (Ok VNone,
           match v with
           | VDateTime d' ms' =>
               if dead then warned w0 else with_control (QDateTimeEdit k false d' ms') w
           | _ => w0
           end))
  /\ (forall v : value, setValue CoordinatesWidgetValueHandler v w = (Ok VNone, w))
  /\ Forall (fun h => setValue h VNone w = (Ok VNone, w)) none_guarded
  /\ (forall (v : value) (z : Z),
        let w0 := with_control (QSpinBox z) w in
        setValue SpinBoxValueHandler v w0
          = if is_None v then (Ok VNone, with_control (QSpinBox 0) w)
            else match int v with
                 | Ok n => if fits_int n
                           then (Ok VNone, with_control (QSpinBox (bound_int n)) w)
                           else (Raise OverflowError, w0)
                 | Raise e => (Raise e, w0)
                 | Outside => (Outside, w0)
                 end)
  /\ (forall (v : value) (f : spec_float),
        let w0 := with_control (QDoubleSpinBox f) w in
        setValue DoubleSpinBoxValueHandler v w0
          = if is_None v then (Ok VNone, with_control (QDoubleSpinBox (float_of_Z 0)) w)
            else match float v with
                 | Ok g => match bound_double g with
                           | Some g' => (Ok VNone, with_control (QDoubleSpinBox g') w)
                           | None => (Outside, w0)
                           end
                 | Raise e => (Raise e, w0)
                 | Outside => (Outside, w0)
                 end)
  /\ (forall z : Z,
        let w0 := with_control (QSpinBox z) w in
        setValue SpinBoxValueHandler (VStr "abc") w0 = (Raise ValueError, w0)
        /\ (forall l, setValue SpinBoxValueHandler (VList l) w0 = (Raise TypeError, w0))
        /\ (forall i, setValue SpinBoxValueHandler (VObject i) w0 = (Raise TypeError, w0))
        /\ (forall b, setValue SpinBoxValueHandler (VFloat (S754_infinity b)) w0
                      = (Raise OverflowError, w0))
        /\ setValue SpinBoxValueHandler (VFloat S754_nan) w0 = (Raise ValueError, w0)
        /\ setValue SpinBoxValueHandler (VInt (2 ^ 31)) w0 = (Raise OverflowError, w0))
  /\ (forall f : spec_float,
        let w0 := with_control (QDoubleSpinBox f) w in
        setValue DoubleSpinBoxValueHandler (VStr "abc") w0 = (Raise ValueError, w0)
        /\ (forall l, setValue DoubleSpinBoxValueHandler (VList l) w0
                      = (Raise TypeError, w0))
        /\ (forall i, setValue DoubleSpinBoxValueHandler (VObject i) w0
                      = (Raise TypeError, w0))
        /\ setValue DoubleSpinBoxValueHandler (VInt (2 ^ 1024)) w0
           = (Raise OverflowError, w0))
  /\ (forall (v : value) (t : string),
        let w0 := with_control (QLineEdit t) w in
        setValue LineEditValueHandler v w0
          = match v with
            | VStr s => (Ok VNone, with_control (QLineEdit (str_left maxLength s)) w)
            | VNone => (Ok VNone, with_control (QLineEdit "") w)
            | _ => (Raise TypeError, w0)
            end).
Proof.
  split.
  { intros v k dead d ms. cbv zeta. split; destruct v, dead; reflexivity. }
  split; [reflexivity|].
  split; [repeat constructor|].
  split; [intros v z; apply spin_box_setValue|].
  split; [intros v f; apply double_spin_box_setValue|].
  split.
  { intros z. cbv zeta.
    repeat split; intros; rewrite spin_box_setValue; reflexivity. }
  split.
  { intros f. cbv zeta.
    repeat split; intros; rewrite double_spin_box_setValue; reflexivity. }
  intros v t. cbv zeta. destruct v; reflexivity.
Qed.

(** C1, amended: [setValue(default())] followed by [value()] returns
    [default()] on the line edit handler, where [setText(None)] clears
    the text and [value()] gives [None] for an empty text, and on the
    expression handler when the text of the control is empty.  On the
    date and on the date-time handler, with a live control, [value()]
    returns the date (date and time) that [default()] gave to
    [setValue]; a later call of [default()] gives the same value exactly
    when the clock still reads the same day (the same day and
    millisecond).  On the check box, the spin box and the double spin box
    handler [default()] is [None], [setValue(None)] stores [False], 0 and
    0.0, and [value()] returns that stored value, which is not equal to
    [default()].  [day] and [msec] are the reading of the clock at the
    second call of [default()]. *)
Theorem C1_round_trip_of_default (w : world) (day msec : Z) :
  let later := with_clock day msec w in
  (forall t : string,
      round_trip_at LineEditValueHandler day msec (with_control (QLineEdit t) w)
        = (Ok true, with_control (QLineEdit "") later)
      /\ set_default_then_get LineEditValueHandler (with_control (QLineEdit t) w)
        = (Ok VNone, with_control (QLineEdit "") w))
  /\ (forall (k : bool) (d ms : Z),
        let w0 := with_control (QDateTimeEdit k false d ms) w in
        set_default_then_get DateEditValueHandler w0
          = (Ok (VDate (clock_day w)),
             with_control (QDateTimeEdit k false (clock_day w) ms) w)
        /\ round_trip_at DateEditValueHandler day msec w0
          = (Ok (clock_day w =? day),
             with_control (QDateTimeEdit k false (clock_day w) ms) later)
        /\ set_default_then_get DateTimeEditValueHandler w0
          = (Ok (VDateTime (clock_day w) (clock_msec w)),
             with_control (QDateTimeEdit k false (clock_day w) (clock_msec w)) w)
        /\ round_trip_at DateTimeEditValueHandler day msec w0
          = (Ok ((clock_day w =? day) && (clock_msec w =? msec)),
             with_control (QDateTimeEdit k false (clock_day w) (clock_msec w)) later))
  /\ (forall ty : value,
        round_trip_at ExpressionLineEditValueHandler day msec
          (with_control (ExpressionLineEdit "" ty) w)
        = (Ok true, with_control (ExpressionLineEdit "" ty) later))
  /\ (forall t : string,
        round_trip_at ExpressionLineEditValueHandler day msec
          (with_control (ExpressionLineEdit t (VStr "str")) w)
        = (Ok (String.eqb t ""), with_control (ExpressionLineEdit t (VStr "str")) later))
  /\ (forall b : bool,
        round_trip_at CheckBoxValueHandler day msec (with_control (QCheckBox b) w)
          = (Ok false, with_control (QCheckBox false) later)
        /\ set_then_get CheckBoxValueHandler VNone (with_control (QCheckBox b) w)
          = (Ok (VBool false), with_control (QCheckBox false) w))
  /\ (forall z : Z,
        round_trip_at SpinBoxValueHandler day msec (with_control (QSpinBox z) w)
          = (Ok false, with_control (QSpinBox 0) later)
        /\ set_then_get SpinBoxValueHandler VNone (with_control (QSpinBox z) w)
          = (Ok (VInt 0), with_control (QSpinBox 0) w))
  /\ (forall f : spec_float,
        round_trip_at DoubleSpinBoxValueHandler day msec (with_control (QDoubleSpinBox f) w)
          = (Ok false, with_control (QDoubleSpinBox (float_of_Z 0)) later)
        /\ set_then_get DoubleSpinBoxValueHandler VNone (with_control (QDoubleSpinBox f) w)
          = (Ok (VFloat (float_of_Z 0)), with_control (QDoubleSpinBox (float_of_Z 0)) w)).
Proof.
  cbv zeta. split.
  { intros t. split; reflexivity. }
  split.
  { intros k d ms. cbv zeta. repeat split; reflexivity. }
  split.
  { intros ty. destruct ty as [| | | |s| | | |]; try reflexivity.
    unfold round_trip_at, bind, default, setValue, value_of. simpl.
    unfold bind, column_output_data_type, eq_str. simpl.
    destruct (s =? "float")%string; [reflexivity|]. simpl.
    destruct (s =? "int")%string; [reflexivity|]. simpl.
    destruct (s =? "str")%string; reflexivity. }
  split.
  { intros t. destruct t; reflexivity. }
  split; [intros b; split; reflexivity|].
  split; [intros z; split; reflexivity|].
  intros f; split; reflexivity.
Qed.

End HandlerProperties.

(** C1, counterexample: on the spin box handler [default()] is [None],
    [setValue(None)] stores 0 and [value()] returns 0, so the comparison
    of [value()] with [default()] is false. *)
Lemma C1_counterexample_spin_box :
  In ValueHandlers.SpinBoxValueHandler Registry.registered
  /\ @ValueHandlers.default Samples.toolkit_only ValueHandlers.SpinBoxValueHandler
       (Samples.sample_world (Qt.QSpinBox 5))
     = (Py.Ok Py.VNone, Samples.sample_world (Qt.QSpinBox 5))
  /\ @ValueHandlers.set_then_get Samples.toolkit_only ValueHandlers.SpinBoxValueHandler
       Py.VNone (Samples.sample_world (Qt.QSpinBox 5))
     = (Py.Ok (Py.VInt 0), Samples.sample_world (Qt.QSpinBox 0))
  /\ @ValueHandlers.round_trip Samples.toolkit_only ValueHandlers.SpinBoxValueHandler
       (Samples.sample_world (Qt.QSpinBox 5))
     = (Py.Ok false, Samples.sample_world (Qt.QSpinBox 0)).
Proof.
  split; [unfold Registry.registered; simpl; tauto|].
  repeat split; reflexivity.
Qed.

(** C2, counterexample: [True] is a non-null input that is none of the
    tokens, and [setValue(True)] followed by [value()] returns [True]. *)
Lemma C2_counterexample_boolean :
  Py.is_None (Py.VBool true) = false
  /\ Py.isinstance_str (Py.VBool true) = false
  /\ @ValueHandlers.set_then_get Samples.toolkit_only ValueHandlers.CheckBoxValueHandler
       (Py.VBool true) (Samples.sample_world (Qt.QCheckBox false))
     = (Py.Ok (Py.VBool true), Samples.sample_world (Qt.QCheckBox true)).
Proof. repeat split; reflexivity. Qed.

(** C3, counterexample: [setValue("abc")] on the spin box handler raises
    [ValueError]. *)
Lemma C3_counterexample_spin_box :
  @ValueHandlers.setValue Samples.toolkit_only ValueHandlers.SpinBoxValueHandler
     (Py.VStr "abc") (Samples.sample_world (Qt.QSpinBox 3))
  = (Py.Raise Py.ValueError, Samples.sample_world (Qt.QSpinBox 3)).
Proof. reflexivity. Qed.

(* ===================================================================== *)
(** * Properties of the registry *)
(* ===================================================================== *)

Section RegistryProperties.
Import Py Registry.

Lemma register_ok (cls : handler_class) (kind : string)
    (handlers : gmap string handler_class) :
  control_class_name cls = Ok kind ->
  register cls handlers = (Ok tt, <[kind := cls]> handlers).
Proof. intros Hk. unfold register. rewrite Hk. reflexivity. Qed.

Lemma register_succeeds_inv (cls : handler_class)
    (handlers handlers' : gmap string handler_class) :
  register cls handlers = (Ok tt, handlers') ->
  exists kind, control_class_name cls = Ok kind /\ handlers' = <[kind := cls]> handlers.
Proof.
  unfold register. destruct (control_class_name cls) as [kind|e|] eqn:Hk.
  - intros [= <-]. eauto.
  - destruct e; discriminate.
  - discriminate.
Qed.

(** A failed call leaves the mapping as it was. *)
Lemma register_fails_unchanged (cls : handler_class)
    (handlers handlers' : gmap string handler_class) (r : result unit) :
  register cls handlers = (r, handlers') -> r <> Ok tt -> handlers' = handlers.
Proof.
  unfold register. destruct (control_class_name cls) as [kind|e|].
  - intros [= <- _] Hr. congruence.
  - destruct e; intros [= _ <-] _; reflexivity.
  - intros [= _ <-] _; reflexivity.
Qed.

Lemma key_consistent_empty : key_consistent ∅.
Proof. intros key cls Hl. rewrite lookup_empty in Hl. discriminate. Qed.

Lemma key_consistent_insert (cls : handler_class) (kind : string)
    (handlers : gmap string handler_class) :
  control_class_name cls = Ok kind ->
  key_consistent handlers ->
  key_consistent (<[kind := cls]> handlers).
Proof.
  intros Hk Hinv key cls' Hl.
  destruct (decide (kind = key)) as [->|Hne].
  - rewrite lookup_insert_eq in Hl. injection Hl as <-. exact Hk.
  - rewrite lookup_insert_ne in Hl by exact Hne. apply Hinv. exact Hl.
Qed.

Lemma register_keeps_consistent (cls : handler_class)
    (handlers handlers' : gmap string handler_class) (r : result unit) :
  key_consistent handlers ->
  register cls handlers = (r, handlers') ->
  key_consistent handlers'.
Proof.
  intros Hinv. unfold register.
  destruct (control_class_name cls) as [kind|e|] eqn:Hk.
  - intros [= _ <-]. apply key_consistent_insert; assumption.
  - destruct e; intros [= _ <-]; exact Hinv.
  - intros [= _ <-]; exact Hinv.
Qed.

Lemma register_all_keeps_consistent (classes : list handler_class) :
  forall (handlers handlers' : gmap string handler_class) (r : result unit),
    key_consistent handlers ->
    register_all classes handlers = (r, handlers') ->
    key_consistent handlers'.
Proof.
  induction classes as [|cls rest IH]; intros handlers handlers' r Hinv Hrun.
  - simpl in Hrun. injection Hrun as _ <-. exact Hinv.
  - simpl in Hrun.
    destruct (register cls handlers) as [r1 h1] eqn:Hreg.
    assert (Hinv1 : key_consistent h1)
      by (eapply register_keeps_consistent; eassumption).
    destruct r1 as [[]|e|].
    + eapply IH; eassumption.
    + injection Hrun as _ <-. exact Hinv1.
    + injection Hrun as _ <-. exact Hinv1.
Qed.

(** C4: when two classes are registered one after the other under the
    same control kind, both calls succeed (nothing detects the duplicate
    key) and a lookup of that kind returns the class registered second. *)
Theorem C4_last_registration_wins (first second : handler_class) (kind : string)
    (handlers : gmap string handler_class) :
  control_class_name first = Ok kind ->
  control_class_name second = Ok kind ->
  exists handlers1 handlers2,
    register first handlers = (Ok tt, handlers1)
    /\ register second handlers1 = (Ok tt, handlers2)
    /\ lookup kind handlers2 = Some second.
Proof.
  intros H1 H2.
  exists (<[kind := first]> handlers), (<[kind := second]> (<[kind := first]> handlers)).
  split; [apply register_ok; exact H1|].
  split; [apply register_ok; exact H2|].
  unfold lookup. apply lookup_insert_eq.
Qed.

(** C9: after any run of successful [register()] calls on the empty
    mapping, every entry is stored under the class name of the control
    type of its own class. *)
Theorem C9_registry_key_consistent (classes : list handler_class)
    (handlers : gmap string handler_class) :
  register_all classes ∅ = (Ok tt, handlers) ->
  forall (key : string) (cls : handler_class),
    handlers !! key = Some cls ->
    control_class_name cls = Ok key.
Proof.
  intros Hrun.
  apply (register_all_keeps_consistent classes ∅ handlers (Ok tt));
    [apply key_consistent_empty | exact Hrun].
Qed.

(** The module registers its seventeen classes without failure, each
    under a key of its own. *)
Lemma module_load_ok :
  fst module_load = Ok tt /\ size (snd module_load) = 17%nat.
Proof. split; vm_compute; reflexivity. Qed.

End RegistryProperties.

(** C4, witness: a second handler class for [QLineEdit], registered
    after [LineEditValueHandler]. *)
Lemma C4_witness_line_edit :
  Registry.control_class_name (Registry.class_of ValueHandlers.LineEditValueHandler)
    = Py.Ok "QLineEdit"
  /\ Registry.control_class_name Samples.other_line_edit_handler = Py.Ok "QLineEdit"
  /\ exists handlers1 handlers2,
       Registry.register (Registry.class_of ValueHandlers.LineEditValueHandler) ∅
         = (Py.Ok tt, handlers1)
       /\ Registry.register Samples.other_line_edit_handler handlers1 = (Py.Ok tt, handlers2)
       /\ Registry.lookup "QLineEdit" handlers2 = Some Samples.other_line_edit_handler.
Proof.
  split; [reflexivity|]. split; [reflexivity|].
  apply (C4_last_registration_wins
           (Registry.class_of ValueHandlers.LineEditValueHandler)
           Samples.other_line_edit_handler "QLineEdit" ∅); reflexivity.
Defined.

(** C9, witness: the registrations made when the module is loaded. *)
Lemma C9_witness_module_load :
  fst Registry.module_load = Py.Ok tt
  /\ forall (key : string) (cls : Registry.handler_class),
       snd Registry.module_load !! key = Some cls ->
       Registry.control_class_name cls = Py.Ok key.
Proof.
  split; [reflexivity|].
  apply (C9_registry_key_consistent
           (map Registry.class_of Registry.registered) (snd Registry.module_load)).
  reflexivity.
Defined.

(* ===================================================================== *)
(** * Properties of the template database helper *)
(* ===================================================================== *)

Section TemplateDatabaseProperties.
Import TemplateDatabase.

Lemma percent_incomplete (python2 : bool) (arg : string) :
  percent python2 "CREATE EXTENSION %" arg
    = inr (builtin_exception python2 "ValueError" "incomplete format").
Proof. reflexivity. Qed.

(** What [raise ex.message] raises is an [AttributeError] or a
    [TypeError] of the interpreter, whatever [ex] is. *)
Lemma raise_message_class (python2 : bool) (ex : exception) :
  exc_class (raise_message python2 ex) = "AttributeError"
  \/ exc_class (raise_message python2 ex) = "TypeError".
Proof. unfold raise_message. destruct (exc_message ex); [right|left]; reflexivity. Qed.

(** Without a template the statement executed is the stated one. *)
Lemma createDbExtension_no_template (python2 : bool)
    (execute : string -> option exception) :
  executed (createDbExtension python2 None execute) = ["CREATE EXTENSION postgis"]
  /\ (execute "CREATE EXTENSION postgis" = None ->
      createDbExtension python2 None execute = stated_createDbExtension None execute).
Proof.
  unfold createDbExtension, stated_createDbExtension.
  destruct (execute "CREATE EXTENSION postgis") eqn:He; simpl; rewrite ?He;
    split; try reflexivity; discriminate.
Qed.

(** A failure of the driver reaches the caller as another exception. *)
Lemma createDbExtension_driver_failure (python2 : bool)
    (execute : string -> option exception) (ex : exception) :
  execute "CREATE EXTENSION postgis" = Some ex ->
  exc_is_Exception ex = true ->
  raised (createDbExtension python2 None execute) = Some (raise_message python2 ex).
Proof.
  intros He Hx. unfold createDbExtension, except_Exception. rewrite He. simpl.
  rewrite Hx. reflexivity.
Qed.

Example createDbExtension_postgis_topology :
  createDbExtension false (Some "postgis_topology") Samples.accepting_driver
  = {| executed := [];
       raised := Some {| exc_class := "AttributeError"; exc_message := None;
                         exc_is_Exception := true |} |}.
Proof. reflexivity. Qed.

(** C7: with a template, [createDbExtension] executes no statement: the
    format string "CREATE EXTENSION %" is incomplete, the [ValueError] of
    the formatting is caught and [raise ex.message] raises an
    [AttributeError] (a [TypeError] in Python 2).  The stated behaviour,
    executing "CREATE EXTENSION <template>" and handing on the driver's
    exception, is not what the code does. *)
Theorem C7_createDbExtension_with_template (python2 : bool) (template : string)
    (execute : string -> option exception) :
  createDbExtension python2 (Some template) execute
    = {| executed := [];
         raised := Some (builtin_exception python2
                           (if python2 then "TypeError" else "AttributeError")
                           (if python2 then "exceptions must derive from BaseException"
                            else "message")) |}
  /\ executed (stated_createDbExtension (Some template) execute)
       = ["CREATE EXTENSION " ++ template]
  /\ raised (createDbExtension python2 None Samples.failing_driver)
       = Some (builtin_exception python2 "AttributeError" "message")
  /\ raised (stated_createDbExtension None Samples.failing_driver)
       = Some Samples.driver_error.
Proof.
  split; [destruct python2; reflexivity|].
  split; [reflexivity|].
  split; reflexivity.
Qed.

End TemplateDatabaseProperties.

(* ===================================================================== *)
(** * Properties of the composer data source selector *)
(* ===================================================================== *)

Section ComposerProperties.
Import Composer.
Context `{GuiUtils}.

Ltac open_selector s :=
  destruct s as [rt rv [dsi dsx dse] [rfi rfx rfe] sy co la rts ts vs].

Ltac unfold_slots :=
  unfold onDataSourceSelected, set_referenced_table_by_text, on_cboReferencedTable,
    on_referenced_table_selected, set_stdm_data_source_for_layout,
    set_stdm_referenced_table_for_layout, set_stdm_data_category_for_layout,
    category_is, category, setCurrentIndex, setEnabled,
    with_cboReferencedTable, with_cboDataSource, with_layout, with_sync in *.

Lemma onDataSourceSelected_cboDataSource (text : string) (s : selector) :
  cboDataSource (onDataSourceSelected text s) = cboDataSource s.
Proof.
  open_selector s. unfold_slots. simpl.
  repeat match goal with
         | |- context [if ?b then _ else _] => destruct b; simpl
         end; reflexivity.
Qed.

Lemma onDataSourceSelected_table_mode (text : string) (s : selector) :
  table_mode s -> table_mode (onDataSourceSelected text s).
Proof.
  open_selector s. unfold table_mode. simpl. intros (-> & -> & -> & ->).
  unfold_slots. simpl.
  repeat match goal with
         | |- context [if ?b then _ else _] => destruct b; simpl
         end; repeat split; reflexivity.
Qed.

Lemma onDataSourceSelected_view_mode (text : string) (s : selector) :
  view_mode s ->
  view_mode (onDataSourceSelected text s)
  /\ enabled (cboReferencedTable (onDataSourceSelected text s))
     = negb (String.eqb text "").
Proof.
  open_selector s. unfold view_mode. simpl. intros (-> & -> & -> & ->).
  unfold_slots. simpl.
  destruct (String.eqb text ""); simpl; repeat split; reflexivity.
Qed.

Lemma on_cboDataSource_table_mode (op : combo -> combo * option string) (s : selector) :
  table_mode s -> table_mode (on_cboDataSource op s).
Proof.
  intros Hs. unfold on_cboDataSource.
  destruct (op (cboDataSource s)) as [c signal].
  assert (Hs' : table_mode (with_cboDataSource c s)) by (destruct s; exact Hs).
  destruct signal as [text|]; [|exact Hs'].
  destruct (signals_connected (with_cboDataSource c s)); [|exact Hs'].
  apply onDataSourceSelected_table_mode. exact Hs'.
Qed.

Lemma add_all_table_mode (entries : list (string * option string)) :
  forall s, table_mode s -> table_mode (add_all entries on_cboDataSource s).
Proof.
  induction entries as [|[text data] rest IH]; intros s Hs; simpl.
  - exact Hs.
  - apply IH. apply on_cboDataSource_table_mode. exact Hs.
Qed.

(** Making the first referenced table current changes neither the
    buttons nor the flags. *)
Lemma select_first_referenced_table (s : selector) :
  let s' := on_cboReferencedTable (setCurrentIndex 0) s in
  rbTables s' = rbTables s /\ rbViews s' = rbViews s
  /\ signals_connected s' = signals_connected s.
Proof.
  open_selector s. cbv zeta. unfold on_cboReferencedTable, setCurrentIndex. simpl.
  destruct (_ =? rfx); simpl; [repeat split; reflexivity|].
  destruct co; simpl; repeat split; reflexivity.
Qed.

Lemma reset_table (s : selector) :
  rbTables s = true -> signals_connected s = true ->
  table_mode (_reset_referenced_table_combo s).
Proof.
  intros Ht Hc. unfold _reset_referenced_table_combo.
  set (s1 := if 0 <? count (cboReferencedTable s)
             then on_cboReferencedTable (setCurrentIndex 0) s else s).
  assert (H1 : rbTables s1 = true /\ signals_connected s1 = true).
  { subst s1. destruct (0 <? count (cboReferencedTable s)); [|tauto].
    destruct (select_first_referenced_table s) as (-> & _ & ->). tauto. }
  destruct H1 as [Ht1 Hc1].
  unfold category_is, category. rewrite Ht1. simpl.
  destruct s1; simpl in *. subst. repeat split; reflexivity.
Qed.

Lemma reset_view (s : selector) :
  rbTables s = false -> rbViews s = true -> signals_connected s = true ->
  view_mode (_reset_referenced_table_combo s)
  /\ enabled (cboReferencedTable (_reset_referenced_table_combo s)) = true.
Proof.
  intros Ht Hv Hc. unfold _reset_referenced_table_combo.
  set (s1 := if 0 <? count (cboReferencedTable s)
             then on_cboReferencedTable (setCurrentIndex 0) s else s).
  assert (H1 : rbTables s1 = false /\ rbViews s1 = true /\ signals_connected s1 = true).
  { subst s1. destruct (0 <? count (cboReferencedTable s)); [|tauto].
    destruct (select_first_referenced_table s) as (-> & -> & ->). tauto. }
  destruct H1 as (Ht1 & Hv1 & Hc1).
  unfold category_is, category. rewrite Ht1, Hv1. simpl.
  destruct s1; simpl in *. subst. repeat split; reflexivity.
Qed.

Lemma on_cboDataSource_view_mode (op : combo -> combo * option string) (s : selector) :
  view_mode s -> view_mode (on_cboDataSource op s).
Proof.
  intros Hs. unfold on_cboDataSource.
  destruct (op (cboDataSource s)) as [c signal].
  assert (Hs' : view_mode (with_cboDataSource c s)) by (destruct s; exact Hs).
  destruct signal as [text|]; [|exact Hs'].
  destruct (signals_connected (with_cboDataSource c s)); [|exact Hs'].
  apply onDataSourceSelected_view_mode. exact Hs'.
Qed.

Lemma clear_cboDataSource_items (s : selector) :
  items (cboDataSource (on_cboDataSource clear s)) = [].
Proof.
  unfold on_cboDataSource, clear.
  destruct (currentIndex (cboDataSource s) =? -1).
  - destruct s; reflexivity.
  - destruct (signals_connected _).
    + rewrite onDataSourceSelected_cboDataSource. destruct s; reflexivity.
    + destruct s; reflexivity.
Qed.

(** The empty entry added to the emptied data source combo becomes the
    current item, and the slot switches the referenced table combo off. *)
Lemma add_empty_entry_view_mode (s : selector) :
  view_mode s -> items (cboDataSource s) = [] ->
  let s' := on_cboDataSource (addItem "" None) s in
  view_mode s'
  /\ enabled (cboReferencedTable s') = false
  /\ items (cboDataSource s') <> [].
Proof.
  intros Hs Hi. cbv zeta. unfold on_cboDataSource, addItem. rewrite Hi.
  assert (Hs' : view_mode
            (with_cboDataSource (Combo [("", None)] 0 (enabled (cboDataSource s))) s))
    by (destruct s; exact Hs).
  assert (Hc : signals_connected
            (with_cboDataSource (Combo [("", None)] 0 (enabled (cboDataSource s))) s) = true)
    by (destruct Hs' as (_ & _ & _ & Hc); exact Hc).
  rewrite Hc.
  destruct (onDataSourceSelected_view_mode "" _ Hs') as [Hm He].
  split; [exact Hm|]. split; [exact He|].
  rewrite onDataSourceSelected_cboDataSource. destruct s; discriminate.
Qed.

(** Further entries are appended without any signal. *)
Lemma add_all_view_mode (entries : list (string * option string)) :
  forall s,
    view_mode s -> items (cboDataSource s) <> [] ->
    let s' := add_all entries on_cboDataSource s in
    view_mode s'
    /\ enabled (cboReferencedTable s') = enabled (cboReferencedTable s)
    /\ items (cboDataSource s') <> [].
Proof.
  induction entries as [|[text data] rest IH]; intros s Hs Hi; cbv zeta; simpl.
  - tauto.
  - assert (Hstep : on_cboDataSource (addItem text data) s
                    = with_cboDataSource
                        (Combo (items (cboDataSource s) ++ [(text, data)])
                               (currentIndex (cboDataSource s))
                               (enabled (cboDataSource s))) s).
    { unfold on_cboDataSource, addItem.
      destruct (items (cboDataSource s)) eqn:E; [congruence|]. reflexivity. }
    rewrite Hstep.
    destruct (IH (with_cboDataSource
                    (Combo (items (cboDataSource s) ++ [(text, data)])
                           (currentIndex (cboDataSource s))
                           (enabled (cboDataSource s))) s)) as (Hm & He & Hn).
    + destruct s; exact Hs.
    + destruct s; simpl. destruct (items cboDataSource0); discriminate.
    + split; [exact Hm|]. split; [|exact Hn].
      rewrite He. destruct s; reflexivity.
Qed.

Lemma category_layout_table_mode (c : option string) (s : selector) :
  table_mode s -> table_mode (set_stdm_data_category_for_layout c s).
Proof. destruct s; exact (fun Hs => Hs). Qed.

Lemma category_layout_view_mode (c : option string) (s : selector) :
  view_mode s -> view_mode (set_stdm_data_category_for_layout c s).
Proof. destruct s; exact (fun Hs => Hs). Qed.

(** The slot [onShowTables(True)], run while [rbTables] is checked. *)
Lemma onShowTables_table_mode (save_change : bool) (s : selector) :
  rbTables s = true -> signals_connected s = true ->
  table_mode (onShowTables true save_change s).
Proof.
  intros Ht Hc. unfold onShowTables. cbv zeta iota.
  destruct save_change; [apply category_layout_table_mode|];
    apply add_all_table_mode; do 2 apply on_cboDataSource_table_mode;
    apply reset_table; assumption.
Qed.

(** The slot [onShowViews(True)], run while [rbViews] is checked and the
    signals are connected. *)
Lemma onShowViews_view_mode (save_change : bool) (s : selector) :
  rbTables s = false -> rbViews s = true -> signals_connected s = true ->
  view_mode (onShowViews true save_change s)
  /\ enabled (cboReferencedTable (onShowViews true save_change s)) = false.
Proof.
  intros Ht Hv Hc. unfold onShowViews. cbv zeta iota.
  destruct (reset_view s Ht Hv Hc) as [Hr _].
  pose proof (on_cboDataSource_view_mode clear _ Hr) as Hcl.
  pose proof (clear_cboDataSource_items (_reset_referenced_table_combo s)) as Hem.
  destruct (add_empty_entry_view_mode _ Hcl Hem) as (Ha & He & Hn).
  destruct (add_all_view_mode
              (map (fun view => (view, Some view))
                 (profile_views (on_cboDataSource (addItem "" None)
                    (on_cboDataSource clear (_reset_referenced_table_combo s)))))
              _ Ha Hn) as (Hm & He' & _).
  rewrite He in He'.
  destruct save_change.
  - split; [apply category_layout_view_mode; exact Hm|].
    rewrite <- He'. unfold set_stdm_data_category_for_layout.
    match goal with |- context [with_layout ?l ?x] => destruct x end. reflexivity.
  - split; assumption.
Qed.

Example selector_after_init :
  category Samples.after_init = Some "View"
  /\ enabled (cboReferencedTable Samples.after_init) = false
  /\ sync_data_source Samples.after_init = false
  /\ items (cboDataSource Samples.after_table)
     = [("", None); ("household", Some "hl_household"); ("parcel", Some "hl_parcel")].
Proof. repeat split; reflexivity. Qed.

(** C8, amended: when the category becomes "Table" the referenced table
    combo is disabled and the synchronisation of the data source with the
    referenced table is enabled.  When the category becomes "View" the
    synchronisation is disabled; [_reset_referenced_table_combo] enables
    the referenced table combo, but filling the data source combo right
    after it selects the empty entry, for which [onDataSourceSelected]
    disables the combo again: it is enabled once a data source with a
    non-empty name is selected. *)
Theorem C8_category_switch (s : selector) :
  signals_connected s = true ->
  (rbTables s = false ->
     let s' := setCategory "Table" s in
     category s' = Some "Table"
     /\ enabled (cboReferencedTable s') = false
     /\ sync_data_source s' = true)
  /\ (rbViews s = false ->
       let s' := setCategory "View" s in
       category s' = Some "View"
       /\ sync_data_source s' = false
       /\ enabled (cboReferencedTable s') = false
       /\ (forall dataSource : string,
             enabled (cboReferencedTable (onDataSourceSelected dataSource s'))
             = negb (String.eqb dataSource "")))
  /\ (rbTables s = false -> rbViews s = true ->
       enabled (cboReferencedTable (_reset_referenced_table_combo s)) = true
       /\ sync_data_source (_reset_referenced_table_combo s) = false)
  /\ (rbTables s = true ->
       enabled (cboReferencedTable (_reset_referenced_table_combo s)) = false
       /\ sync_data_source (_reset_referenced_table_combo s) = true).
Proof.
  intros Hc. split; [|split; [|split]].
  - intros Ht. cbv zeta. unfold setCategory. simpl.
    unfold rbTables_setChecked_True. rewrite Ht.
    set (s1 := with_radios true false s).
    assert (H1 : rbTables s1 = true /\ signals_connected s1 = true)
      by (subst s1; destruct s; simpl in *; tauto).
    destruct H1 as [Ht1 Hc1]. rewrite Hc1, andb_true_r.
    set (s2 := if rbViews s then onShowViews false true s1 else s1).
    assert (H2 : rbTables s2 = true /\ signals_connected s2 = true).
    { subst s2. destruct (rbViews s); [|tauto].
      unfold onShowViews. destruct s1; simpl in *; tauto. }
    destruct H2 as [Ht2 Hc2]. rewrite Hc2.
    destruct (onShowTables_table_mode true s2 Ht2 Hc2) as (Hrt & Hsy & Hen & _).
    unfold category. rewrite Hrt. tauto.
  - intros Hv. cbv zeta. unfold setCategory. simpl.
    unfold rbViews_setChecked_True. rewrite Hv.
    set (s1 := with_radios false true s).
    assert (H1 : rbTables s1 = false /\ rbViews s1 = true /\ signals_connected s1 = true)
      by (subst s1; destruct s; simpl in *; tauto).
    destruct H1 as (Ht1 & Hv1 & Hc1). rewrite Hc1, andb_true_r.
    set (s2 := if rbTables s then onShowTables false true s1 else s1).
    assert (H2 : rbTables s2 = false /\ rbViews s2 = true /\ signals_connected s2 = true).
    { subst s2. destruct (rbTables s); [|tauto].
      unfold onShowTables. destruct s1; simpl in *; tauto. }
    destruct H2 as (Ht2 & Hv2 & Hc2). rewrite Hc2.
    destruct (onShowViews_view_mode true s2 Ht2 Hv2 Hc2) as [Hm He].
    pose proof Hm as (Hrt & Hrv & Hsy & _).
    unfold category. rewrite Hrt, Hrv.
    split; [reflexivity|]. split; [exact Hsy|]. split; [exact He|].
    intros dataSource. apply onDataSourceSelected_view_mode. exact Hm.
  - intros Ht Hv. destruct (reset_view s Ht Hv Hc) as [(_ & _ & Hsy & _) He]. tauto.
  - intros Ht. destruct (reset_table s Ht Hc) as (_ & Hsy & He & _). tauto.
Qed.

End ComposerProperties.

(** C8, counterexample: after the category has become "View" the
    referenced table combo is disabled. *)
Lemma C8_counterexample_view :
  Composer.category Samples.after_table = Some "Table"
  /\ Composer.signals_connected Samples.after_table = true
  /\ Composer.category (@Composer.setCategory Samples.find_utils "View" Samples.after_table)
     = Some "View"
  /\ Composer.enabled
       (Composer.cboReferencedTable
          (@Composer.setCategory Samples.find_utils "View" Samples.after_table))
     = false.
Proof. repeat split; vm_compute; reflexivity. Qed.

(** C8, witness: the selector right after its construction, switched to
    "Table", and the selector so obtained, switched back to "View". *)
Lemma C8_witness_switches :
  (Composer.signals_connected Samples.after_init = true
   /\ Composer.rbTables Samples.after_init = false
   /\ (let s' := @Composer.setCategory Samples.find_utils "Table" Samples.after_init in
       Composer.category s' = Some "Table"
       /\ Composer.enabled (Composer.cboReferencedTable s') = false
       /\ Composer.sync_data_source s' = true))
  /\ (Composer.signals_connected Samples.after_table = true
      /\ Composer.rbViews Samples.after_table = false
      /\ (let s' := @Composer.setCategory Samples.find_utils "View" Samples.after_table in
          Composer.category s' = Some "View"
          /\ Composer.sync_data_source s' = false
          /\ Composer.enabled (Composer.cboReferencedTable s') = false
          /\ (forall dataSource : string,
                Composer.enabled
                  (Composer.cboReferencedTable
                     (@Composer.onDataSourceSelected Samples.find_utils dataSource s'))
                = negb (String.eqb dataSource "")))).
Proof.
  split.
  - split; [reflexivity|]. split; [reflexivity|].
    exact (proj1 (@C8_category_switch Samples.find_utils Samples.after_init eq_refl)
             eq_refl).
  - split; [reflexivity|]. split; [reflexivity|].
    exact (proj1 (proj2 (@C8_category_switch Samples.find_utils Samples.after_table eq_refl))
             eq_refl).
Defined.

(* ===================================================================== *)
(** * Further properties: integers and their decimal text *)
(* ===================================================================== *)

Section DecimalText.
Import Py Digits.

Lemma of_uint_acc_value (d : Decimal.uint) :
  forall acc : positive, Zpos (Pos.of_uint_acc d acc) = uint_value d (Zpos acc).
Proof.
  induction d; intros acc; simpl; try reflexivity; rewrite IHd; f_equal; lia.
Qed.

Lemma of_uint_value (d : Decimal.uint) : Z.of_N (Pos.of_uint d) = uint_value d 0.
Proof.
  induction d; simpl; try reflexivity; try exact IHd;
    rewrite of_uint_acc_value; reflexivity.
Qed.

Lemma to_uint_value (p : positive) : uint_value (Pos.to_uint p) 0 = Zpos p.
Proof. rewrite <- of_uint_value, DecimalPos.Unsigned.of_to. reflexivity. Qed.

Lemma digits_us_uint (d : Decimal.uint) :
  forall acc : Z, digits_us (uint_chars d) true acc = Some (uint_value d acc).
Proof.
  unfold uint_chars. induction d; intros acc; simpl; try reflexivity; apply IHd.
Qed.

Lemma digits_us_uint_start (d : Decimal.uint) :
  d <> Decimal.Nil -> digits_us (uint_chars d) false 0 = Some (uint_value d 0).
Proof.
  intros Hd. destruct d; try congruence;
    unfold uint_chars; simpl; apply (digits_us_uint d).
Qed.

Lemma is_digit_not_space (c : ascii) : is_digit c = true -> is_space c = false.
Proof.
  destruct c as [[|] [|] [|] [|] [|] [|] [|] [|]]; vm_compute; congruence.
Qed.

Lemma uint_chars_last (d : Decimal.uint) :
  d <> Decimal.Nil ->
  exists l c, uint_chars d = (l ++ [c])%list /\ is_digit c = true.
Proof.
  unfold uint_chars. induction d; intros Hd; try congruence;
    (destruct (Decimal.uint_eq_dec d Decimal.Nil) as [->|Hn];
     [eexists [], _; simpl; split; reflexivity
     |destruct (IHd Hn) as (l & c & Hl & Hc); simpl; rewrite Hl;
      eexists (_ :: l), c; split; [reflexivity|exact Hc]]).
Qed.

Lemma uint_chars_head (d : Decimal.uint) :
  d <> Decimal.Nil ->
  exists c l, uint_chars d = c :: l /\ is_digit c = true.
Proof.
  unfold uint_chars. destruct d; intros Hd; try congruence;
    simpl; eexists _, _; split; reflexivity.
Qed.

Lemma rstrip_last (l : list ascii) (c : ascii) :
  is_space c = false -> rstrip (l ++ [c])%list = (l ++ [c])%list.
Proof.
  intros Hc. unfold rstrip. rewrite rev_app_distr. simpl. rewrite Hc.
  simpl. rewrite rev_involutive. reflexivity.
Qed.

Lemma strip_digits (d : Decimal.uint) :
  d <> Decimal.Nil -> strip (uint_chars d) = uint_chars d.
Proof.
  intros Hd. unfold strip.
  destruct (uint_chars_head d Hd) as (c & l & Hl & Hc).
  assert (Hls : lstrip (uint_chars d) = uint_chars d).
  { rewrite Hl. simpl. rewrite (is_digit_not_space c Hc). reflexivity. }
  rewrite Hls.
  destruct (uint_chars_last d Hd) as (l' & c' & Hl' & Hc').
  rewrite Hl'. apply rstrip_last. apply is_digit_not_space. exact Hc'.
Qed.

Lemma strip_minus_digits (d : Decimal.uint) :
  d <> Decimal.Nil ->
  strip ("-"%char :: uint_chars d) = "-"%char :: uint_chars d.
Proof.
  intros Hd. unfold strip.
  change (lstrip ("-"%char :: uint_chars d)) with ("-"%char :: uint_chars d).
  destruct (uint_chars_last d Hd) as (l' & c' & Hl' & Hc').
  rewrite Hl'. change ("-"%char :: (l' ++ [c'])%list) with ((("-"%char :: l') ++ [c'])%list).
  apply rstrip_last. apply is_digit_not_space. exact Hc'.
Qed.

Lemma split_sign_digits (d : Decimal.uint) :
  d <> Decimal.Nil -> split_sign (uint_chars d) = (false, uint_chars d).
Proof.
  intros Hd. destruct (uint_chars_head d Hd) as (c & l & Hl & Hc). rewrite Hl.
  unfold split_sign.
  destruct (Ascii.eqb_spec c "-"%char) as [->|_]; [discriminate Hc|].
  destruct (Ascii.eqb_spec c "+"%char) as [->|_]; [discriminate Hc|].
  reflexivity.
Qed.

Lemma string_of_uint_nonnil (d : Decimal.uint) :
  d <> Decimal.Nil -> NilZero.string_of_uint d = NilEmpty.string_of_uint d.
Proof. destruct d; congruence || reflexivity. Qed.

Lemma count_digits_uint (d : Decimal.uint) :
  count_digits (uint_chars d) = Z.of_nat (length (uint_chars d)).
Proof.
  unfold uint_chars. induction d; [reflexivity|..];
    cbn [NilEmpty.string_of_uint list_ascii_of_string count_digits length];
    rewrite IHd, Nat2Z.inj_succ;
    match goal with
    | |- (if is_digit ?c then _ else _) + _ = _ => change (is_digit c) with true
    end; lia.
Qed.

Lemma int_of_str_pos (p : positive) :
  int_of_str (str_of_int (Zpos p))
  = if max_str_digits <? int_str_digits (Zpos p) then Raise ValueError else Ok (Zpos p).
Proof.
  pose proof (DecimalPos.Unsigned.to_uint_nonnil p) as Hn.
  unfold int_str_digits, int_of_str, str_of_int. simpl.
  rewrite (string_of_uint_nonnil _ Hn).
  change (list_ascii_of_string (NilEmpty.string_of_uint (Pos.to_uint p)))
    with (uint_chars (Pos.to_uint p)).
  rewrite (strip_digits _ Hn), (split_sign_digits _ Hn), (digits_us_uint_start _ Hn).
  rewrite to_uint_value. reflexivity.
Qed.

Lemma int_of_str_neg (p : positive) :
  int_of_str (str_of_int (Zneg p))
  = if max_str_digits <? int_str_digits (Zneg p) then Raise ValueError else Ok (Zneg p).
Proof.
  pose proof (DecimalPos.Unsigned.to_uint_nonnil p) as Hn.
  unfold int_str_digits, int_of_str, str_of_int. simpl.
  rewrite (string_of_uint_nonnil _ Hn).
  change (list_ascii_of_string (NilEmpty.string_of_uint (Pos.to_uint p)))
    with (uint_chars (Pos.to_uint p)).
  rewrite (strip_minus_digits _ Hn). simpl.
  rewrite (digits_us_uint_start _ Hn), to_uint_value. reflexivity.
Qed.

(** [int()] reads the decimal text of an integer back as that integer,
    unless the text has too many digits. *)
Lemma int_of_str_of_int (z : Z) :
  int (VStr (str_of_int z))
  = if max_str_digits <? int_str_digits z then Raise ValueError else Ok z.
Proof.
  destruct z as [|p|p]; simpl.
  - reflexivity.
  - apply int_of_str_pos.
  - apply int_of_str_neg.
Qed.

Lemma str_of_int_nonempty (z : Z) : String.eqb (str_of_int z) "" = false.
Proof.
  destruct z as [|p|p]; try reflexivity.
  unfold str_of_int. simpl.
  pose proof (DecimalPos.Unsigned.to_uint_nonnil p) as Hn.
  destruct (Pos.to_uint p); try congruence; reflexivity.
Qed.

Lemma length_list_ascii (s : string) :
  length (list_ascii_of_string s) = String.length s.
Proof. induction s as [|c s IH]; simpl; [reflexivity|rewrite IH; reflexivity]. Qed.

(** The decimal text of an integer has one character per digit, and one
    more for the sign. *)
Lemma str_of_int_length (z : Z) :
  Z.of_nat (String.length (str_of_int z)) <= int_str_digits z + 1.
Proof.
  unfold int_str_digits. rewrite <- length_list_ascii.
  destruct z as [|p|p]; [vm_compute; discriminate| |];
    pose proof (DecimalPos.Unsigned.to_uint_nonnil p) as Hn;
    unfold str_of_int; simpl; rewrite (string_of_uint_nonnil _ Hn);
    change (list_ascii_of_string (NilEmpty.string_of_uint (Pos.to_uint p)))
      with (uint_chars (Pos.to_uint p)).
  - rewrite count_digits_uint. lia.
  - cbn [count_digits length].
    change (is_digit "-") with false. rewrite count_digits_uint, Nat2Z.inj_succ. lia.
Qed.

Lemma str_left_all (s : string) :
  forall n : Z, Z.of_nat (String.length s) <= n -> str_left n s = s.
Proof.
  induction s as [|c s IH]; intros n Hn; simpl; [reflexivity|].
  cbn [String.length] in Hn. rewrite Nat2Z.inj_succ in Hn.
  destruct (Z.ltb_spec 0 n); [|lia].
  rewrite IH; [reflexivity|lia].
Qed.

Lemma str_left_length (s : string) :
  forall n : Z, 0 <= n -> Z.of_nat (String.length (str_left n s)) <= n.
Proof.
  induction s as [|c s IH]; intros n Hn; simpl; [exact Hn|].
  destruct (Z.ltb_spec 0 n); [|exact Hn].
  cbn [String.length]. rewrite Nat2Z.inj_succ. specialize (IH (n - 1)). lia.
Qed.

(** A text that [str()] gives for an integer fits a line edit whole. *)
Lemma str_left_str_of_int (z : Z) :
  (max_str_digits <? int_str_digits z) = false ->
  str_left Qt.maxLength (str_of_int z) = str_of_int z.
Proof.
  intros Hd. apply str_left_all. pose proof (str_of_int_length z) as Hl.
  apply Z.ltb_ge in Hd. unfold max_str_digits in Hd. unfold Qt.maxLength. lia.
Qed.

End DecimalText.

(* ===================================================================== *)
(** * Further properties of the value handlers *)
(* ===================================================================== *)

Section MoreHandlerProperties.
Import Py Qt ValueHandlers HandlerMethods.
Context `{External}.

Lemma bound_int_nearest (z : Z) : bound_int z = Z.max 0 (Z.min 99 z).
Proof.
  unfold bound_int, spin_minimum, spin_maximum.
  destruct (Z.ltb_spec z 0); [lia|]. destruct (Z.ltb_spec 99 z); lia.
Qed.

(** X1: of an integer that fits the toolkit's 32-bit [int] the spin box
    handler keeps the nearest value within the range 0 to 99 of a spin
    box as constructed, and [value()] returns it: an integer within the
    range is read back as set, a larger one as 99 and a negative one as
    0.  An integer that does not fit raises [OverflowError] and leaves
    the control as it was.  The decimal text of the integer is treated
    as the integer, unless it has more than 4300 digits, which raises
    [ValueError]. *)
Theorem X1_spin_box_round_trip (w : world) (z0 z : Z) :
  let w0 := with_control (QSpinBox z0) w in
  let kept := Z.max 0 (Z.min 99 z) in
  set_then_get SpinBoxValueHandler (VInt z) w0
    = (if fits_int z then (Ok (VInt kept), with_control (QSpinBox kept) w)
       else (Raise OverflowError, w0))
  /\ set_then_get SpinBoxValueHandler (VStr (str_of_int z)) w0
    = (if max_str_digits <? int_str_digits z then (Raise ValueError, w0)
       else if fits_int z then (Ok (VInt kept), with_control (QSpinBox kept) w)
       else (Raise OverflowError, w0)).
Proof.
  cbv zeta. rewrite <- bound_int_nearest. unfold set_then_get, bind.
  rewrite !spin_box_setValue. cbn [is_None].
  rewrite int_of_str_of_int. change (int (VInt z)) with (@Ok Z z).
  destruct (max_str_digits <? int_str_digits z), (fits_int z); split; reflexivity.
Qed.

Lemma str_left_prefix (s : string) :
  forall n : Z, exists rest, s = str_left n s ++ rest.
Proof.
  induction s as [|c s IH]; intros n; simpl.
  - exists "". reflexivity.
  - destruct (0 <? n).
    + destruct (IH (n - 1)) as [rest Hr]. exists rest.
      rewrite Hr at 1. reflexivity.
    + exists (String c s). reflexivity.
Qed.

(** X2: the line edit handler keeps of a string its first 32767
    characters, the most a line edit as constructed takes, and reads
    them back; a string of at most that length is read back as set, the
    empty string as [None]. *)
Theorem X2_line_edit_round_trip (w : world) (t s : string) :
  let kept := str_left maxLength s in
  set_then_get LineEditValueHandler (VStr s) (with_control (QLineEdit t) w)
  = (Ok (if String.eqb kept "" then VNone else VStr kept), with_control (QLineEdit kept) w)
  /\ (exists rest, s = kept ++ rest)
  /\ Z.of_nat (String.length kept) <= maxLength
  /\ (Z.of_nat (String.length s) <= maxLength -> kept = s).
Proof.
  cbv zeta. split.
  - unfold set_then_get, setValue, value_of. simpl.
    unfold bind, setText, text, method, eq_str. simpl.
    destruct (String.eqb (str_left maxLength s) ""); reflexivity.
  - split; [apply str_left_prefix|].
    split; [apply str_left_length; discriminate|apply str_left_all].
Qed.

(** X3: on the expression handler with the output type tag "int" an
    integer of at most 4300 digits is read back as set, through its
    decimal text; for a longer one [setValue] raises the [ValueError] of
    [str()] and leaves the text as it was.  With a tag that is none of
    "float", "int" and "str", [value()] returns [None] whatever the text
    is. *)
Theorem X3_expression_round_trip (w : world) (t : string) :
  (forall z : Z,
      let w0 := with_control (ExpressionLineEdit t (VStr "int")) w in
      set_then_get ExpressionLineEditValueHandler (VInt z) w0
      = if max_str_digits <? int_str_digits z then (Raise ValueError, w0)
        else (Ok (VInt z),
              with_control (ExpressionLineEdit (str_of_int z) (VStr "int")) w))
  /\ (forall ty : value,
        if eq_str ty "float" || eq_str ty "int" || eq_str ty "str" then True
        else
          value_of ExpressionLineEditValueHandler
            (with_control (ExpressionLineEdit t ty) w)
          = (Ok VNone, with_control (ExpressionLineEdit t ty) w)).
Proof.
  split.
  - intros z. cbv zeta. unfold set_then_get, setValue, value_of. simpl.
    unfold bind, lift, str_int.
    pose proof (int_of_str_of_int z) as Hz.
    destruct (max_str_digits <? int_str_digits z) eqn:Hd; [reflexivity|].
    unfold setText, method, column_output_data_type, expression_branch. simpl.
    unfold bind, text, method. simpl.
    rewrite (str_left_str_of_int z Hd), (str_of_int_nonempty z).
    cbv beta. cbn [the_control with_control]. cbv beta iota. rewrite Hz. reflexivity.
  - intros ty.
    destruct (eq_str ty "float") eqn:Hf; [exact I|].
    destruct (eq_str ty "int") eqn:Hi; [exact I|].
    destruct (eq_str ty "str") eqn:Hs; [exact I|]. simpl.
    unfold value_of. simpl.
    unfold bind, column_output_data_type. simpl. rewrite Hf. simpl.
    rewrite Hi. simpl. rewrite Hs. reflexivity.
Qed.

(** X4: [clear()] followed by [value()] gives [default()] on the line
    edit handler.  On the date and on the date-time handler, with a live
    control, [value()] then gives the reading of the clock at the time
    of [clear()], which a later [default()] equals exactly when the
    clock still reads the same day (the same day and millisecond).  On
    the check box handler it gives [False], which is not [default()].
    [day] and [msec] are the reading of the clock when [default()] is
    called. *)
Theorem X4_clear_then_value (w : world) (day msec : Z) :
  let later := with_clock day msec w in
  (forall t : string,
      clear_round_trip_at LineEditValueHandler day msec (with_control (QLineEdit t) w)
      = (Ok true, with_control (QLineEdit "") later))
  /\ (forall (k : bool) (d ms : Z),
        let w0 := with_control (QDateTimeEdit k false d ms) w in
        clear_then_get DateEditValueHandler w0
          = (Ok (VDate (clock_day w)),
             with_control (QDateTimeEdit k false (clock_day w) ms) w)
        /\ clear_round_trip_at DateEditValueHandler day msec w0
          = (Ok (clock_day w =? day),
             with_control (QDateTimeEdit k false (clock_day w) ms) later)
        /\ clear_then_get DateTimeEditValueHandler w0
          = (Ok (VDateTime (clock_day w) (clock_msec w)),
             with_control (QDateTimeEdit k false (clock_day w) (clock_msec w)) w)
        /\ clear_round_trip_at DateTimeEditValueHandler day msec w0
           = (Ok ((clock_day w =? day) && (clock_msec w =? msec)),
              with_control (QDateTimeEdit k false (clock_day w) (clock_msec w)) later))
  /\ (forall b : bool,
        clear_round_trip_at CheckBoxValueHandler day msec (with_control (QCheckBox b) w)
        = (Ok false, with_control (QCheckBox false) later)).
Proof.
  cbv zeta. split; [intros t; reflexivity|].
  split; [|intros b; reflexivity].
  intros k d ms. repeat split; reflexivity.
Qed.

(** X5: on a destroyed date control only [setValue] is guarded: it
    returns normally, leaves the control as it was and shows one warning,
    whereas [value()] and [clear()] raise [RuntimeError]. *)
Theorem X5_destroyed_date_control (w : world) (k : bool) (d ms d' ms' : Z) :
  let w0 := with_control (QDateTimeEdit k true d ms) w in
  setValue DateEditValueHandler (VDate d') w0 = (Ok VNone, warned w0)
  /\ setValue DateTimeEditValueHandler (VDateTime d' ms') w0 = (Ok VNone, warned w0)
  /\ the_control (warned w0) = QDateTimeEdit k true d ms
  /\ message_boxes (warned w0)
     = (message_boxes w
        ++ [("Attribute Table Error",
             "The change is not saved. Please use the form to edit data.")])%list
  /\ value_of DateEditValueHandler w0 = (Raise RuntimeError, w0)
  /\ value_of DateTimeEditValueHandler w0 = (Raise RuntimeError, w0)
  /\ clear DateEditValueHandler w0 = (Raise RuntimeError, w0)
  /\ clear DateTimeEditValueHandler w0 = (Raise RuntimeError, w0).
Proof. cbv zeta. repeat split; reflexivity. Qed.

Lemma int_exceptions (v : value) :
  match int v with Ok _ | Raise ValueError | Raise TypeError | Raise OverflowError => True
                 | _ => False end.
Proof.
  destruct v as [| b | z | f | s | l | d | d ms | i]; simpl; try exact I.
  - destruct f; exact I.
  - unfold int_of_str. destruct (split_sign _) as [neg body].
    destruct (digits_us body false 0); [|exact I].
    destruct (max_str_digits <? count_digits body); exact I.
Qed.

Lemma float_exceptions (v : value) :
  match float v with Ok _ | Raise ValueError | Raise TypeError | Raise OverflowError => True
                   | _ => False end.
Proof.
  destruct v as [| b | z | f | s | l | d | d ms | i]; simpl; try exact I.
  - destruct (float_of_Z z); exact I.
  - unfold float_of_str. destruct (drop_underscores _ _) as [t|]; [|exact I].
    destruct (split_sign t) as [neg body].
    destruct (_ || _); [exact I|].
    destruct (list_ascii_eqb _ _); [exact I|].
    destruct (take_decimal body) as [[[m e] [|c r]]|]; exact I.
Qed.

(** X6: [isControlTypeValid] raises [TypeError] on every class when no
    control is set, never returns [False] and never touches the state.
    The date-time handler accepts a [QDateEdit], a subclass of its
    control type, whereas the date handler rejects a [QDateTimeEdit]. *)
Theorem X6_isControlTypeValid (w : world) :
  (forall h : handler,
      isControlTypeValid h (with_control NoControl w)
      = (Raise TypeError, with_control NoControl w))
  /\ (forall h : handler,
        fst (isControlTypeValid h w) <> Ok false /\ snd (isControlTypeValid h w) = w)
  /\ (forall (dead : bool) (d ms : Z),
        fst (isControlTypeValid DateTimeEditValueHandler
               (with_control (QDateTimeEdit true dead d ms) w)) = Ok true
        /\ fst (isControlTypeValid DateEditValueHandler
                  (with_control (QDateTimeEdit false dead d ms) w)) = Raise TypeError).
Proof.
  split; [intros h; reflexivity|].
  split; [|intros dead d ms; split; reflexivity].
  intros h. unfold isControlTypeValid.
  destruct (the_control w); simpl; try (split; [discriminate|reflexivity]);
    destruct (resolve Registry.own_controlType h) as [ct|]; simpl;
    try (split; [discriminate|reflexivity]);
    match goal with
    | |- context [isinstance ?c ?n] => destruct (isinstance c n) as [[|]|e|]
    end; simpl; split; try discriminate; reflexivity.
Qed.

(** X7: each of the seven handler classes whose control is described
    here (line edit, check box, date, date-time, spin box, double spin
    box and expression line edit) has a control that
    [isControlTypeValid] accepts, and on every control that it accepts
    [value()] and [setValue(v)] never end in an [AttributeError] or in
    the [NotImplementedError] of the abstract class.  The other classes
    work on widgets that are not described, where the check gives no
    answer here. *)
Theorem X7_valid_control_answers (w : world) :
  Forall (fun h =>
    fst (isControlTypeValid h (with_control (control_for h) w)) = Ok true)
    described_handlers
  /\ (forall (h : handler) (v : value),
        fst (isControlTypeValid h w) = Ok true ->
        In h described_handlers
        /\ unsupported (fst (value_of h w)) = false
        /\ unsupported (fst (setValue h v w)) = false).
Proof.
  split; [repeat constructor|].
  intros h v. destruct w as [c cd cm mb].
  destruct c as [|t|b|k dead d ms|z|f|t ty|x]; intros Hv;
    try (destruct h; vm_compute in Hv; discriminate Hv).
  - (* QLineEdit *)
    destruct h; try (vm_compute in Hv; discriminate Hv). clear Hv.
    split; [simpl; tauto|]. split.
    + unfold value_of. simpl. unfold bind, text, method, eq_str. simpl.
      destruct (String.eqb t ""); reflexivity.
    + destruct v; reflexivity.
  - (* QCheckBox *)
    destruct h; try (vm_compute in Hv; discriminate Hv). clear Hv.
    split; [simpl; tauto|]. split.
    + reflexivity.
    + destruct v as [| b' | z | f | s | l | d | d ms | i]; try reflexivity.
      unfold setValue. simpl. unfold bind, lower_of, ret, in_tuple. simpl.
      destruct (lower s =? "yes")%string; [reflexivity|].
      destruct (lower s =? "true")%string; [reflexivity|].
      destruct (lower s =? "t")%string; [reflexivity|].
      destruct (lower s =? "1")%string; reflexivity.
  - (* QDateTimeEdit *)
    destruct h, k; try (vm_compute in Hv; discriminate Hv); clear Hv;
      (split; [simpl; tauto|]);
      (split; [destruct dead; reflexivity | destruct v, dead; reflexivity]).
  - (* QSpinBox *)
    destruct h; try (vm_compute in Hv; discriminate Hv). clear Hv.
    split; [simpl; tauto|]. split.
    + reflexivity.
    + change (World (QSpinBox z) cd cm mb)
        with (with_control (QSpinBox z) (World (QSpinBox z) cd cm mb)).
      rewrite spin_box_setValue. destruct (is_None v); [reflexivity|].
      pose proof (int_exceptions v) as Hi.
      destruct (int v) as [n|e|]; [|destruct e; try contradiction; reflexivity|contradiction].
      destruct (fits_int n); reflexivity.
  - (* QDoubleSpinBox *)
    destruct h; try (vm_compute in Hv; discriminate Hv). clear Hv.
    split; [simpl; tauto|]. split.
    + reflexivity.
    + change (World (QDoubleSpinBox f) cd cm mb)
        with (with_control (QDoubleSpinBox f) (World (QDoubleSpinBox f) cd cm mb)).
      rewrite double_spin_box_setValue. destruct (is_None v); [reflexivity|].
      pose proof (float_exceptions v) as Hf.
      destruct (float v) as [g|e|];
        [destruct (bound_double g); reflexivity
        |destruct e; try contradiction; reflexivity|contradiction].
  - (* ExpressionLineEdit *)
    destruct h; try (vm_compute in Hv; discriminate Hv). clear Hv.
    split; [simpl; tauto|]. split.
    + unfold value_of. simpl.
      unfold bind, column_output_data_type, expression_branch. simpl.
      unfold bind, text, method, lift. simpl.
      pose proof (float_exceptions (VStr t)) as Hf.
      pose proof (int_exceptions (VStr t)) as Hi.
      destruct (eq_str ty "float"); simpl.
      { destruct (String.eqb t ""); [reflexivity|].
        cbv beta. cbn [the_control with_control]. cbv beta iota.
        destruct (float (VStr t)) as [g|e|];
          [reflexivity|destruct e; try contradiction; reflexivity|contradiction]. }
      destruct (eq_str ty "int"); simpl.
      { destruct (String.eqb t ""); [reflexivity|].
        cbv beta. cbn [the_control with_control]. cbv beta iota.
        destruct (int (VStr t)) as [g|e|];
          [reflexivity|destruct e; try contradiction; reflexivity|contradiction]. }
      destruct (eq_str ty "str"); simpl; [|reflexivity].
      destruct (String.eqb t ""); reflexivity.
    + destruct v as [| b' | z | f | s | l | d | d ms | i]; try reflexivity.
      unfold setValue. simpl. unfold bind, lift, str_int.
      destruct (max_str_digits <? int_str_digits z); reflexivity.
Qed.

(** X8: every registered class takes [value], [setValue], [default] and
    [clear] from a concrete handler class; [supportsMandatory] is taken
    from the abstract class by [MultipleChoiceComboBox] only.
    [ExpressionLineEditValueHandler] defines the five methods itself, so
    none comes from its three base classes. *)
Theorem X8_methods_defined :
  Forall (fun h =>
    definer (fun c => own_value c h) h <> Some ControlValueHandler
    /\ definer (fun c => own_setValue c VNone) h <> Some ControlValueHandler
    /\ definer own_default h <> Some ControlValueHandler
    /\ definer own_clear h <> Some ControlValueHandler
    /\ (h = MultipleChoiceComboBox
        \/ definer own_supportsMandatory h <> Some ControlValueHandler))
    Registry.registered
  /\ (let e := ExpressionLineEditValueHandler in
      definer (fun c => own_value c e) e = Some e
      /\ definer (fun c => own_setValue c VNone) e = Some e
      /\ definer own_default e = Some e
      /\ definer own_clear e = Some e
      /\ definer own_supportsMandatory e = Some e).
Proof.
  split.
  - unfold Registry.registered.
    repeat (constructor;
            [repeat split; first [discriminate | left; reflexivity | right; discriminate]|]).
    constructor.
  - cbv zeta. repeat split; reflexivity.
Qed.

End MoreHandlerProperties.

(* ===================================================================== *)
(** * Further properties: integers as floats *)
(* ===================================================================== *)

Section IntegersAsFloats.
Import Py Qt ValueHandlers.

Lemma round_canonical (s : bool) (m : positive) (e : Z) :
  fexp prec emax (Zpos (digits2_pos m) + e) = e -> e <= emax - prec ->
  binary_round_aux prec emax s (Zpos m) e loc_Exact = S754_finite s m e.
Proof.
  intros Hf He. unfold binary_round_aux, shr_fexp. simpl Zdigits2.
  rewrite Hf, Z.sub_diag. simpl.
  rewrite Hf, Z.sub_diag. simpl.
  destruct (Z.leb_spec e (emax - prec)); [reflexivity|lia].
Qed.

Lemma digits2_lower (p : positive) : 2 ^ (Zpos (digits2_pos p) - 1) <= Zpos p.
Proof.
  induction p as [p IH|p IH|]; simpl digits2_pos.
  - rewrite Pos2Z.inj_succ. replace (Z.succ (Zpos (digits2_pos p)) - 1) with (Z.succ (Zpos (digits2_pos p) - 1)) by lia.
    rewrite Z.pow_succ_r by lia. lia.
  - rewrite Pos2Z.inj_succ. replace (Z.succ (Zpos (digits2_pos p)) - 1) with (Z.succ (Zpos (digits2_pos p) - 1)) by lia.
    rewrite Z.pow_succ_r by lia. lia.
  - simpl. lia.
Qed.

Lemma small_digits (p : positive) : Zpos p < 2 ^ 53 -> Zpos (digits2_pos p) <= 53.
Proof.
  intros Hp. destruct (Z.le_gt_cases (Zpos (digits2_pos p)) 53) as [|Hd]; [assumption|].
  pose proof (digits2_lower p) as Hl.
  assert (2 ^ 53 <= 2 ^ (Zpos (digits2_pos p) - 1)) by (apply Z.pow_le_mono_r; lia).
  lia.
Qed.

Lemma iter_xO_value (p k : positive) : Zpos (Pos.iter xO p k) = Zpos p * 2 ^ Zpos k.
Proof.
  induction k as [|k IH] using Pos.peano_ind.
  - simpl. lia.
  - rewrite Pos.iter_succ, Pos2Z.inj_succ, Z.pow_succ_r by lia.
    rewrite Pos2Z.inj_xO, IH. lia.
Qed.

Lemma iter_xO_digits (p k : positive) :
  digits2_pos (Pos.iter xO p k) = (digits2_pos p + k)%positive.
Proof.
  induction k as [|k IH] using Pos.peano_ind.
  - simpl. lia.
  - rewrite Pos.iter_succ. simpl. rewrite IH. lia.
Qed.

Lemma binary_round_small (s : bool) (p : positive) :
  Zpos p < 2 ^ 53 ->
  exists m e, binary_round prec emax s p 0 = S754_finite s m e
              /\ e <= 0 /\ Zpos m = Zpos p * 2 ^ (- e).
Proof.
  intros Hp. pose proof (small_digits p Hp) as Hd.
  unfold binary_round.
  assert (Hf : fexp prec emax (Zpos (digits2_pos p) + 0) = Zpos (digits2_pos p) - 53).
  { unfold fexp, emin, prec, emax. lia. }
  rewrite Hf. unfold shl_align.
  destruct (Zpos (digits2_pos p) - 53 - 0) as [|k|k] eqn:Hk; try lia.
  - exists p, 0. split; [|split; [lia|simpl; lia]].
    apply round_canonical; [|unfold emax, prec; lia].
    unfold fexp, emin, prec, emax. lia.
  - exists (Pos.iter xO p k), (Zpos (digits2_pos p) - 53).
    split; [|split; [lia|]].
    + apply round_canonical; [|unfold emax, prec; lia].
      rewrite iter_xO_digits. unfold fexp, emin, prec, emax. lia.
    + rewrite iter_xO_value. f_equal. f_equal. lia.
Qed.

Lemma float_of_Z_exact (z : Z) : Z.abs z < 2 ^ 53 -> float_eq_int (float_of_Z z) z = true.
Proof.
  intros Hz. unfold float_of_Z, binary_normalize.
  destruct z as [|p|p].
  - reflexivity.
  - destruct (binary_round_small false p) as (m & e & -> & He & Hm); [exact Hz|].
    unfold float_eq_int. destruct (Z.leb_spec 0 e); rewrite Z.eqb_eq.
    + assert (e = 0) by lia. subst e. simpl in Hm. simpl. lia.
    + lia.
  - destruct (binary_round_small true p) as (m & e & -> & He & Hm); [exact Hz|].
    unfold float_eq_int. destruct (Z.leb_spec 0 e); rewrite Z.eqb_eq.
    + assert (e = 0) by lia. subst e. simpl in Hm. simpl. lia.
    + lia.
Qed.

Lemma float_of_Z_finite (z : Z) :
  Z.abs z < 2 ^ 53 -> float (VInt z) = Ok (float_of_Z z).
Proof.
  intros Hz. simpl. unfold float_of_Z, binary_normalize.
  destruct z as [|p|p]; [reflexivity| |].
  - destruct (binary_round_small false p) as (m & e & -> & _); [exact Hz|reflexivity].
  - destruct (binary_round_small true p) as (m & e & -> & _); [exact Hz|reflexivity].
Qed.

(** The integers of the range of a double spin box are kept as they
    are. *)
Lemma bound_double_small_int (z : Z) :
  0 <= z <= 99 -> bound_double (float_of_Z z) = Some (float_of_Z z).
Proof.
  intros Hz.
  assert (Hn : exists n : nat, (n < 100)%nat /\ z = Z.of_nat n)
    by (exists (Z.to_nat z); lia).
  destruct Hn as (n & Hn & ->). clear Hz.
  do 100 (destruct n as [|n]; [vm_compute; reflexivity|]).
  lia.
Qed.

Context `{External}.

(** X9: on the double spin box handler an integer from 0 to 99, the
    range of a double spin box as constructed, is stored as the float of
    the same value: [value()] compares equal to the integer set. *)
Theorem X9_double_spin_box_integers (w : world) (f0 : spec_float) (z : Z) :
  0 <= z <= 99 ->
  set_then_get DoubleSpinBoxValueHandler (VInt z) (with_control (QDoubleSpinBox f0) w)
    = (Ok (VFloat (float_of_Z z)), with_control (QDoubleSpinBox (float_of_Z z)) w)
  /\ py_eq (VFloat (float_of_Z z)) (VInt z) = true.
Proof.
  intros Hz.
  assert (Hs : Z.abs z < 2 ^ 53) by lia.
  split.
  - unfold set_then_get, bind. rewrite double_spin_box_setValue. cbn [is_None].
    rewrite (float_of_Z_finite z Hs), (bound_double_small_int z Hz). reflexivity.
  - simpl. apply float_of_Z_exact. exact Hs.
Qed.

(** Outside the range the nearest bound is stored, and a float is
    rounded to two decimals. *)
Example double_spin_box_samples (w : world) (f0 : spec_float) :
  let w0 := with_control (QDoubleSpinBox f0) w in
  fst (set_then_get DoubleSpinBoxValueHandler (VInt 1000) w0)
    = Ok (VFloat (float_of_decimal false 9999 (-2)))
  /\ fst (set_then_get DoubleSpinBoxValueHandler (VInt (-5)) w0)
     = Ok (VFloat (S754_zero false))
  /\ fst (set_then_get DoubleSpinBoxValueHandler (VStr "0.125") w0)
     = Ok (VFloat (float_of_decimal false 13 (-2)))
  /\ fst (set_then_get DoubleSpinBoxValueHandler (VStr "2.675") w0)
     = Ok (VFloat (float_of_decimal false 267 (-2)))
  /\ fst (set_then_get DoubleSpinBoxValueHandler (VStr "inf") w0)
     = Ok (VFloat (float_of_decimal false 9999 (-2)))
  /\ fst (set_then_get DoubleSpinBoxValueHandler (VStr "nan") w0) = Outside.
Proof. cbv zeta. repeat split; reflexivity. Qed.

(** Above that bound the float may differ from the integer. *)
Example float_of_Z_inexact :
  py_eq (VFloat (float_of_Z (2 ^ 53 + 1))) (VInt (2 ^ 53 + 1)) = false.
Proof. reflexivity. Qed.

End IntegersAsFloats.

(* ===================================================================== *)
(** * Further properties of the registry *)
(* ===================================================================== *)

Section MoreRegistryProperties.
Import Py ValueHandlers Registry.

(** X10: a successful [register] makes the class the answer of a lookup
    of its control kind, leaves every other key as it was, and is
    idempotent: registering the same class again changes nothing. *)
Theorem X10_register_lookup (cls : handler_class)
    (handlers handlers1 : gmap string handler_class) :
  register cls handlers = (Ok tt, handlers1) ->
  exists kind,
    control_class_name cls = Ok kind
    /\ lookup kind handlers1 = Some cls
    /\ (forall other, other <> kind -> lookup other handlers1 = lookup other handlers)
    /\ register cls handlers1 = (Ok tt, handlers1).
Proof.
  intros Hr. destruct (register_succeeds_inv _ _ _ Hr) as (kind & Hk & ->).
  exists kind. split; [exact Hk|]. unfold lookup.
  split; [apply lookup_insert_eq|].
  split.
  - intros other Hne. apply lookup_insert_ne. congruence.
  - rewrite (register_ok cls kind _ Hk). f_equal. apply insert_insert_eq.
Qed.

Lemma register_all_app (first rest : list handler_class) :
  forall handlers : gmap string handler_class,
    register_all (first ++ rest)%list handlers
    = match register_all first handlers with
      | (Ok _, handlers') => register_all rest handlers'
      | failure => failure
      end.
Proof.
  induction first as [|cls first IH]; intros handlers; simpl.
  - reflexivity.
  - destruct (register cls handlers) as [[[]|e|] h1]; [apply IH|reflexivity|reflexivity].
Qed.

(** X11: a class that cannot be registered ends the run of [register]
    calls with [AttributeError]: the classes before it stay registered,
    the class itself and the classes after it are not. *)
Theorem X11_register_all_stops (first rest : list handler_class) (bad : handler_class)
    (handlers handlers1 : gmap string handler_class) :
  register_all first handlers = (Ok tt, handlers1) ->
  control_class_name bad = Raise AttributeError ->
  register_all (first ++ bad :: rest)%list handlers = (Raise AttributeError, handlers1).
Proof.
  intros Hf Hb. rewrite register_all_app, Hf. simpl.
  unfold register. rewrite Hb. reflexivity.
Qed.

(** X12: after the module is loaded each of its seventeen registered
    classes is found under the class name of its own control type, and
    the abstract class, which has no control type, cannot be
    registered. *)
Theorem X12_module_load_lookup :
  Forall (fun h =>
    exists kind,
      control_class_name (class_of h) = Ok kind
      /\ lookup kind (snd module_load) = Some (class_of h))
    registered
  /\ control_class_name (class_of ControlValueHandler) = Raise AttributeError
  /\ (forall handlers,
        register (class_of ControlValueHandler) handlers
        = (Raise AttributeError, handlers)).
Proof.
  split; [|split; [reflexivity|intros handlers; reflexivity]].
  unfold registered.
  repeat (constructor; [eexists; split; [reflexivity|vm_compute; reflexivity]|]).
  constructor.
Qed.

End MoreRegistryProperties.

(* ===================================================================== *)
(** * Further properties of the composer data source selector *)
(* ===================================================================== *)

Section MoreComposerProperties.
Import Py Composer ComposerEvents.
Context `{GuiUtils}.

Ltac open_sel s :=
  destruct s as [rt rv [dsi dsx dse] [rfi rfx rfe] sy co la rts ts vs].

Ltac norm_selector :=
  cbv [with_connected with_sync with_cboReferencedTable with_cboDataSource with_radios
       rbTables rbViews cboDataSource cboReferencedTable sync_data_source
       signals_connected layout ref_tables tables profile_views].

Lemma same_frame_refl (s : selector) : same_frame s s.
Proof. repeat split; reflexivity. Qed.

Lemma same_frame_trans (a b c : selector) :
  same_frame a b -> same_frame b c -> same_frame a c.
Proof.
  unfold same_frame. intros (A1 & A2 & A3 & A4 & A5 & A6 & A7) (B1 & B2 & B3 & B4 & B5 & B6 & B7).
  repeat split; congruence.
Qed.

Lemma setCurrentIndex_keeps (i : Z) (c : combo) :
  items (fst (setCurrentIndex i c)) = items c
  /\ enabled (fst (setCurrentIndex i c)) = enabled c.
Proof.
  unfold setCurrentIndex. destruct (_ =? currentIndex c); split; reflexivity.
Qed.

(** An operation on the referenced table combo and its slot. *)
Lemma on_cboReferencedTable_frame (op : combo -> combo * option string) (s : selector) :
  let s' := on_cboReferencedTable op s in
  same_frame s s'
  /\ sync_data_source s' = sync_data_source s
  /\ cboDataSource s' = cboDataSource s
  /\ items (cboReferencedTable s') = items (fst (op (cboReferencedTable s)))
  /\ enabled (cboReferencedTable s') = enabled (fst (op (cboReferencedTable s))).
Proof.
  cbv zeta. unfold on_cboReferencedTable.
  destruct s as [rt rv ds rf sy co la rts ts vs]. simpl.
  destruct (op rf) as [c [text|]]; simpl.
  - destruct co; simpl; repeat split; reflexivity.
  - repeat split; reflexivity.
Qed.

Lemma set_referenced_table_by_text_frame (text : string) (s : selector) :
  let s' := set_referenced_table_by_text text s in
  same_frame s s'
  /\ sync_data_source s' = sync_data_source s
  /\ cboDataSource s' = cboDataSource s
  /\ items (cboReferencedTable s') = items (cboReferencedTable s)
  /\ enabled (cboReferencedTable s') = enabled (cboReferencedTable s).
Proof.
  cbv zeta. unfold set_referenced_table_by_text.
  destruct (_ =? -1).
  - pose proof (same_frame_refl s). tauto.
  - destruct (on_cboReferencedTable_frame
                (setCurrentIndex (index_by_text (items (cboReferencedTable s)) text)) s)
      as (F & S & D & I & E).
    destruct (setCurrentIndex_keeps
                (index_by_text (items (cboReferencedTable s)) text)
                (cboReferencedTable s)) as [Ki Ke].
    rewrite I, E. tauto.
Qed.

Lemma maybe_set_referenced_table_frame (b : bool) (text : string) (s : selector) :
  let s' := if b then set_referenced_table_by_text text s else s in
  same_frame s s'
  /\ sync_data_source s' = sync_data_source s
  /\ cboDataSource s' = cboDataSource s
  /\ items (cboReferencedTable s') = items (cboReferencedTable s)
  /\ enabled (cboReferencedTable s') = enabled (cboReferencedTable s).
Proof.
  destruct b.
  - apply set_referenced_table_by_text_frame.
  - pose proof (same_frame_refl s). cbv zeta. tauto.
Qed.

(** The slot of the data source combo. *)
Lemma onDataSourceSelected_frame (text : string) (s : selector) :
  let s' := onDataSourceSelected text s in
  same_frame s s'
  /\ sync_data_source s' = sync_data_source s
  /\ cboDataSource s' = cboDataSource s
  /\ items (cboReferencedTable s') = items (cboReferencedTable s)
  /\ enabled (cboReferencedTable s')
     = (if category_is s "View" then negb (String.eqb text "")
        else enabled (cboReferencedTable s))
  /\ layout_data_source (layout s') = currentData (cboDataSource s).
Proof.
  cbv zeta. unfold onDataSourceSelected.
  set (s1 := if category_is s "View" then _ else s).
  assert (H1 : same_frame s s1
               /\ sync_data_source s1 = sync_data_source s
               /\ cboDataSource s1 = cboDataSource s
               /\ items (cboReferencedTable s1) = items (cboReferencedTable s)
               /\ enabled (cboReferencedTable s1)
                  = (if category_is s "View" then negb (String.eqb text "")
                     else enabled (cboReferencedTable s))).
  { subst s1. destruct (category_is s "View").
    - destruct (String.eqb text ""); destruct s; simpl; repeat split; reflexivity.
    - pose proof (same_frame_refl s). tauto. }
  destruct H1 as (F1 & S1 & D1 & I1 & E1).
  set (s2 := if sync_data_source s1 then set_referenced_table_by_text text s1 else s1).
  assert (H2 : same_frame s1 s2
               /\ sync_data_source s2 = sync_data_source s1
               /\ cboDataSource s2 = cboDataSource s1
               /\ items (cboReferencedTable s2) = items (cboReferencedTable s1)
               /\ enabled (cboReferencedTable s2) = enabled (cboReferencedTable s1)).
  { subst s2. apply maybe_set_referenced_table_frame. }
  destruct H2 as (F2 & S2 & D2 & I2 & E2).
  pose proof (same_frame_trans _ _ _ F1 F2) as F.
  rewrite D2, D1.
  assert (F3 : same_frame s2 (set_stdm_data_source_for_layout
                                (currentData (cboDataSource s)) s2))
    by (destruct s2; repeat split; reflexivity).
  split; [exact (same_frame_trans _ _ _ F F3)|].
  destruct s2; simpl in *. repeat split; congruence.
Qed.

Lemma with_cboDataSource_frame (c : combo) (s : selector) :
  same_frame s (with_cboDataSource c s)
  /\ sync_data_source (with_cboDataSource c s) = sync_data_source s
  /\ cboDataSource (with_cboDataSource c s) = c
  /\ cboReferencedTable (with_cboDataSource c s) = cboReferencedTable s
  /\ (forall name, category_is (with_cboDataSource c s) name = category_is s name)
  /\ signals_connected (with_cboDataSource c s) = signals_connected s.
Proof. destruct s; repeat split; reflexivity. Qed.

(** An operation on the data source combo and its slot. *)
Lemma on_cboDataSource_frame (op : combo -> combo * option string) (s : selector) :
  let s' := on_cboDataSource op s in
  same_frame s s'
  /\ sync_data_source s' = sync_data_source s
  /\ cboDataSource s' = fst (op (cboDataSource s))
  /\ items (cboReferencedTable s') = items (cboReferencedTable s)
  /\ enabled (cboReferencedTable s')
     = match snd (op (cboDataSource s)) with
       | Some text =>
           if signals_connected s && category_is s "View"
           then negb (String.eqb text "")
           else enabled (cboReferencedTable s)
       | None => enabled (cboReferencedTable s)
       end.
Proof.
  cbv zeta. unfold on_cboDataSource.
  destruct (op (cboDataSource s)) as [c signal]. cbn [fst snd].
  destruct (with_cboDataSource_frame c s) as (F0 & S0 & D0 & R0 & C0 & K0).
  destruct signal as [text|]; [|rewrite R0; tauto].
  rewrite K0. destruct (signals_connected s) eqn:Hc; [|rewrite R0; tauto].
  destruct (onDataSourceSelected_frame text (with_cboDataSource c s))
    as (F & S & D & I & E & _).
  rewrite S, D, I, E, C0, R0. cbn [andb].
  split; [exact (same_frame_trans _ _ _ F0 F)|]. tauto.
Qed.

Lemma same_frame_category (s s' : selector) :
  same_frame s s' ->
  category s' = category s
  /\ (forall name, category_is s' name = category_is s name).
Proof.
  intros (Ht & Hv & _). unfold category_is, category. rewrite Ht, Hv. tauto.
Qed.

Lemma maybe_select_first_frame (b : bool) (s : selector) :
  let s' := if b then on_cboReferencedTable (setCurrentIndex 0) s else s in
  same_frame s s'
  /\ sync_data_source s' = sync_data_source s
  /\ cboDataSource s' = cboDataSource s
  /\ items (cboReferencedTable s') = items (cboReferencedTable s).
Proof.
  destruct b; cbv zeta.
  - destruct (on_cboReferencedTable_frame (setCurrentIndex 0) s) as (F & S & D & I & _).
    destruct (setCurrentIndex_keeps 0 (cboReferencedTable s)) as [Ki _].
    rewrite I. tauto.
  - pose proof (same_frame_refl s). tauto.
Qed.

(** [_reset_referenced_table_combo] *)
Lemma reset_frame (s : selector) :
  let s' := _reset_referenced_table_combo s in
  same_frame s s'
  /\ cboDataSource s' = cboDataSource s
  /\ items (cboReferencedTable s') = items (cboReferencedTable s)
  /\ sync_data_source s' = category_is s "Table"
  /\ enabled (cboReferencedTable s') = negb (category_is s "Table").
Proof.
  cbv zeta. unfold _reset_referenced_table_combo.
  set (s1 := if 0 <? count (cboReferencedTable s) then _ else s).
  destruct (maybe_select_first_frame (0 <? count (cboReferencedTable s)) s)
    as (F & S & D & I). fold s1 in F, S, D, I.
  destruct (same_frame_category s s1 F) as [_ Hc]. rewrite Hc.
  rewrite <- D, <- I.
  assert (F' : forall x, same_frame s x -> same_frame s x) by auto.
  destruct (category_is s "Table");
    (split; [apply (same_frame_trans _ _ _ F); destruct s1; repeat split; reflexivity|]);
    destruct s1; simpl; repeat split; reflexivity.
Qed.

Lemma with_cboDataSource_twice (c1 c2 : combo) (s : selector) :
  with_cboDataSource c2 (with_cboDataSource c1 s) = with_cboDataSource c2 s.
Proof. destruct s; reflexivity. Qed.

(** Entries added to a combo that is not empty are appended without any
    signal. *)
Lemma add_all_nonempty (entries : list (string * option string)) :
  forall s : selector,
    items (cboDataSource s) <> [] ->
    add_all entries on_cboDataSource s
    = with_cboDataSource
        (Combo (items (cboDataSource s) ++ entries)%list
               (currentIndex (cboDataSource s)) (enabled (cboDataSource s))) s.
Proof.
  induction entries as [|[text data] rest IH]; intros s Hi; simpl.
  - rewrite app_nil_r. destruct s as [rt rv [dsi dsx dse] rf sy co la rts ts vs].
    reflexivity.
  - assert (Hstep : on_cboDataSource (addItem text data) s
                    = with_cboDataSource
                        (Combo (items (cboDataSource s) ++ [(text, data)])%list
                               (currentIndex (cboDataSource s))
                               (enabled (cboDataSource s))) s).
    { unfold on_cboDataSource, addItem.
      destruct (items (cboDataSource s)) eqn:E; [congruence|]. reflexivity. }
    rewrite Hstep, IH.
    + rewrite with_cboDataSource_twice.
      destruct s as [rt rv [dsi dsx dse] rf sy co la rts ts vs]. simpl.
      rewrite <- app_assoc. reflexivity.
    + destruct s as [rt rv [dsi dsx dse] rf sy co la rts ts vs]. simpl.
      destruct dsi; discriminate.
Qed.

(** The data source combo is cleared, given the empty entry and then
    filled with [fill]. *)
Lemma refill_frame (fill : selector -> list (string * option string)) (s : selector) :
  (forall a b, same_frame a b -> fill b = fill a) ->
  let s1 := on_cboDataSource (addItem "" None) (on_cboDataSource clear s) in
  let s' := add_all (fill s1) on_cboDataSource s1 in
  same_frame s s'
  /\ sync_data_source s' = sync_data_source s
  /\ cboDataSource s' = Combo (("", None) :: fill s) 0 (enabled (cboDataSource s))
  /\ items (cboReferencedTable s') = items (cboReferencedTable s)
  /\ enabled (cboReferencedTable s')
     = (if signals_connected s && category_is s "View" then false
        else enabled (cboReferencedTable s)).
Proof.
  intros Hfill. cbv zeta.
  destruct (on_cboDataSource_frame clear s) as (F1 & S1 & D1 & I1 & E1).
  set (c1 := on_cboDataSource clear s) in *.
  destruct (on_cboDataSource_frame (addItem "" None) c1) as (F2 & S2 & D2 & I2 & E2).
  set (c2 := on_cboDataSource (addItem "" None) c1) in *.
  pose proof (same_frame_trans _ _ _ F1 F2) as F12.
  assert (Hds2 : cboDataSource c2 = Combo [("", None)] 0 (enabled (cboDataSource s))).
  { rewrite D2, D1. reflexivity. }
  assert (Hen2 : enabled (cboReferencedTable c2)
                 = (if signals_connected s && category_is s "View" then false
                    else enabled (cboReferencedTable s))).
  { rewrite E2, D1. cbn [snd addItem clear items].
    pose proof F1 as (_ & _ & Hc & _).
    destruct (same_frame_category s c1 F1) as [_ Hcat].
    rewrite Hc, Hcat.
    destruct (signals_connected s && category_is s "View") eqn:Hcv; [reflexivity|].
    rewrite E1. cbn [snd clear].
    destruct (currentIndex (cboDataSource s) =? -1); reflexivity. }
  rewrite add_all_nonempty by (rewrite Hds2; discriminate).
  rewrite Hds2. cbn [items currentIndex enabled].
  rewrite (Hfill s c2 F12).
  destruct (with_cboDataSource_frame
              (Combo ([("", None)] ++ fill s)%list 0 (enabled (cboDataSource s))) c2)
    as (F3 & S3 & D3 & R3 & _).
  rewrite S3, D3, R3, S2, S1, I2, I1, Hen2.
  split; [exact (same_frame_trans _ _ _ F12 F3)|]. repeat split; reflexivity.
Qed.

Lemma category_layout_frame (c : option string) (s : selector) :
  let s' := set_stdm_data_category_for_layout c s in
  rbTables s' = rbTables s /\ rbViews s' = rbViews s
  /\ signals_connected s' = signals_connected s
  /\ tables s' = tables s /\ profile_views s' = profile_views s
  /\ ref_tables s' = ref_tables s
  /\ sync_data_source s' = sync_data_source s
  /\ cboDataSource s' = cboDataSource s
  /\ cboReferencedTable s' = cboReferencedTable s
  /\ layout_category (layout s') = c.
Proof. destruct s; cbv zeta; repeat split; reflexivity. Qed.

(** [onShowTables(True, save_change=False)] *)
Lemma show_tables_frame (s : selector) :
  let s' := onShowTables true false s in
  same_frame s s'
  /\ cboDataSource s' = Combo (table_entries s) 0 (enabled (cboDataSource s))
  /\ items (cboReferencedTable s') = items (cboReferencedTable s)
  /\ sync_data_source s' = category_is s "Table"
  /\ enabled (cboReferencedTable s')
     = (if signals_connected s && category_is s "View" then false
        else negb (category_is s "Table")).
Proof.
  cbv zeta. unfold onShowTables. cbv zeta iota.
  destruct (reset_frame s) as (F0 & D0 & I0 & S0 & E0).
  pose proof (refill_frame
                (fun x => map (fun kv => (lower (snd kv), Some (fst kv)))
                              (filter (fun kv => negb (_contains_supporting_document (fst kv)))
                                      (tables x)))
                (_reset_referenced_table_combo s)) as R.
  cbv zeta beta in R.
  destruct R as (F & S & D & I & E).
  { intros a b (_ & _ & _ & Ht & _). rewrite Ht. reflexivity. }
  rewrite S, D, I, E, S0, D0, I0, E0.
  pose proof F0 as (_ & _ & Hc & Ht & _). rewrite Hc, Ht.
  destruct (same_frame_category s _ F0) as [_ Hcat]. rewrite Hcat.
  split; [exact (same_frame_trans _ _ _ F0 F)|]. repeat split; reflexivity.
Qed.

(** [onShowViews(True, save_change=False)] *)
Lemma show_views_frame (s : selector) :
  let s' := onShowViews true false s in
  same_frame s s'
  /\ cboDataSource s' = Combo (view_entries s) 0 (enabled (cboDataSource s))
  /\ items (cboReferencedTable s') = items (cboReferencedTable s)
  /\ sync_data_source s' = category_is s "Table"
  /\ enabled (cboReferencedTable s')
     = (if signals_connected s && category_is s "View" then false
        else negb (category_is s "Table")).
Proof.
  cbv zeta. unfold onShowViews. cbv zeta iota.
  destruct (reset_frame s) as (F0 & D0 & I0 & S0 & E0).
  pose proof (refill_frame
                (fun x => map (fun view => (view, Some view)) (profile_views x))
                (_reset_referenced_table_combo s)) as R.
  cbv zeta beta in R.
  destruct R as (F & S & D & I & E).
  { intros a b (_ & _ & _ & _ & Hv & _). rewrite Hv. reflexivity. }
  rewrite S, D, I, E, S0, D0, I0, E0.
  pose proof F0 as (_ & _ & Hc & _ & Hv & _). rewrite Hc, Hv.
  destruct (same_frame_category s _ F0) as [_ Hcat]. rewrite Hcat.
  split; [exact (same_frame_trans _ _ _ F0 F)|]. repeat split; reflexivity.
Qed.

(** X13: whatever the state and the connections, [onShowTables(True)]
    leaves in the data source combo the empty entry followed, in order,
    by one entry per table whose name does not contain
    "supporting_document" (lower-cased display text, name as data), with
    the empty entry current; no table with a supporting document name is
    ever offered. *)
Theorem X13_onShowTables_entries (save_change : bool) (s : selector) :
  let s' := onShowTables true save_change s in
  items (cboDataSource s') = table_entries s
  /\ currentIndex (cboDataSource s') = 0
  /\ tables s' = tables s
  /\ Forall (fun entry =>
        match snd entry with
        | Some name => _contains_supporting_document name = false
        | None => True
        end) (items (cboDataSource s'))
  /\ (forall key value,
        In (key, value) (tables s) -> _contains_supporting_document key = false ->
        In (lower value, Some key) (items (cboDataSource s'))).
Proof.
  cbv zeta.
  assert (Hs : items (cboDataSource (onShowTables true save_change s)) = table_entries s
               /\ currentIndex (cboDataSource (onShowTables true save_change s)) = 0
               /\ tables (onShowTables true save_change s) = tables s).
  { destruct (show_tables_frame s) as (F & D & _).
    pose proof F as (_ & _ & _ & Ht & _).
    destruct save_change.
    - change (onShowTables true true s)
        with (set_stdm_data_category_for_layout
                (category (onShowTables true false s)) (onShowTables true false s)).
      destruct (category_layout_frame (category (onShowTables true false s))
                  (onShowTables true false s)) as (_ & _ & _ & Ht' & _ & _ & _ & D' & _).
      rewrite D', Ht', D, Ht. repeat split; reflexivity.
    - rewrite D, Ht. repeat split; reflexivity. }
  destruct Hs as (Hi & Hx & Ht). rewrite Hi.
  split; [reflexivity|]. split; [exact Hx|]. split; [exact Ht|].
  unfold table_entries. split.
  - constructor; [exact I|].
    apply List.Forall_forall. intros entry Hin.
    apply in_map_iff in Hin. destruct Hin as ([key value] & <- & Hin).
    apply list_elem_of_In, list_elem_of_filter in Hin. destruct Hin as [Hf _].
    simpl in *. destruct (_contains_supporting_document key); [contradiction|reflexivity].
  - intros key value Hin Hc. right.
    apply in_map_iff. exists (key, value). split; [reflexivity|].
    apply list_elem_of_In, list_elem_of_filter. split.
    + simpl. rewrite Hc. exact I.
    + apply list_elem_of_In. exact Hin.
Qed.

Lemma setCurrentIndex_cases (i : Z) (c : combo) :
  setCurrentIndex i c = (c, None)
  \/ exists i', setCurrentIndex i c
                = (Combo (items c) i' (enabled c), Some (itemText c i')).
Proof.
  unfold setCurrentIndex. destruct (_ =? currentIndex c); [left|right; eexists]; reflexivity.
Qed.

Lemma entries_frame (s s' : selector) :
  same_frame s s' -> table_entries s' = table_entries s /\ view_entries s' = view_entries s.
Proof.
  intros (_ & _ & _ & Ht & Hv & _). unfold table_entries, view_entries.
  rewrite Ht, Hv. tauto.
Qed.

Lemma consistent_choose_data_source (i : Z) (s : selector) :
  consistent s -> consistent (on_cboDataSource (setCurrentIndex i) s).
Proof.
  intros (Hc & Hr & Ht & Hv).
  destruct (on_cboDataSource_frame (setCurrentIndex i) s) as (F & S & D & I & E).
  destruct (entries_frame _ _ F) as [Et Ev].
  pose proof F as (Frt & Frv & Fc & _).
  destruct (setCurrentIndex_keeps i (cboDataSource s)) as [Ki _].
  unfold consistent. rewrite Frt, Frv, Fc, S, Et, Ev, D, Ki.
  split; [exact Hc|]. split; [exact Hr|]. split.
  - intros Hrt. destruct (Ht Hrt) as (He & Hs & Hi).
    split; [|tauto]. rewrite E.
    assert (Hcat : category_is s "View" = false)
      by (unfold category_is, category; rewrite Hrt; reflexivity).
    rewrite Hcat, andb_false_r. destruct (snd _); exact He.
  - intros Hrv. destruct (Hv Hrv) as (Hs & Hi & He).
    split; [exact Hs|]. split; [exact Hi|]. rewrite E.
    assert (Hcat : category_is s "View" = true).
    { unfold category_is, category. rewrite Hr, Hrv. reflexivity. }
    rewrite Hc, Hcat. cbn [andb].
    destruct (setCurrentIndex_cases i (cboDataSource s)) as [Hn|(i' & Hn)];
      rewrite Hn; cbn [fst snd]; [exact He|].
    reflexivity.
Qed.

Lemma consistent_choose_referenced_table (i : Z) (s : selector) :
  consistent s -> consistent (on_cboReferencedTable (setCurrentIndex i) s).
Proof.
  intros (Hc & Hr & Ht & Hv).
  destruct (on_cboReferencedTable_frame (setCurrentIndex i) s) as (F & S & D & I & E).
  destruct (entries_frame _ _ F) as [Et Ev].
  pose proof F as (Frt & Frv & Fc & _).
  destruct (setCurrentIndex_keeps i (cboReferencedTable s)) as [_ Ke].
  unfold consistent. rewrite Frt, Frv, Fc, S, Et, Ev, D, E, Ke. tauto.
Qed.

Lemma consistent_category_layout (c : option string) (s : selector) :
  consistent s -> consistent (set_stdm_data_category_for_layout c s).
Proof. destruct s; exact (fun Hs => Hs). Qed.

Lemma consistent_setCategory (name : string) (s : selector) :
  consistent s -> consistent (setCategory name s).
Proof.
  intros Hs. unfold setCategory.
  destruct (String.eqb name "Table").
  - unfold rbTables_setChecked_True. destruct (rbTables s) eqn:Hrt; [exact Hs|].
    destruct Hs as (Hc & Hr & _ & _).
    assert (Hrv : rbViews s = true).
    { rewrite Hrt in Hr. destruct (rbViews s); [reflexivity|discriminate Hr]. }
    rewrite Hrv.
    set (s1 := with_radios true false s).
    assert (H1 : signals_connected s1 = true) by (subst s1; destruct s; exact Hc).
    rewrite H1. cbn [andb].
    set (s2 := onShowViews false true s1).
    assert (H2 : signals_connected s2 = true /\ rbTables s2 = true /\ rbViews s2 = false)
      by (subst s2 s1; destruct s; simpl in *; tauto).
    destruct H2 as (Hc2 & Hrt2 & Hrv2). rewrite Hc2.
    change (onShowTables true true s2)
      with (set_stdm_data_category_for_layout
              (category (onShowTables true false s2)) (onShowTables true false s2)).
    apply consistent_category_layout.
    destruct (show_tables_frame s2) as (F & D & _ & S & E).
    destruct (entries_frame _ _ F) as [Et Ev].
    pose proof F as (Frt & Frv & Fc & _).
    assert (Hcat : category_is s2 "Table" = true /\ category_is s2 "View" = false)
      by (unfold category_is, category; rewrite Hrt2; split; reflexivity).
    destruct Hcat as [Hct Hcv].
    unfold consistent. rewrite Frt, Frv, Fc, S, E, D, Et, Hct, Hcv, Hrt2, Hrv2, Hc2.
    cbn. repeat split; try reflexivity; discriminate.
  - destruct (String.eqb name "View"); [|exact Hs].
    unfold rbViews_setChecked_True. destruct (rbViews s) eqn:Hrv; [exact Hs|].
    destruct Hs as (Hc & Hr & _ & _).
    assert (Hrt : rbTables s = true) by (rewrite Hr, Hrv; reflexivity).
    rewrite Hrt.
    set (s1 := with_radios false true s).
    assert (H1 : signals_connected s1 = true) by (subst s1; destruct s; exact Hc).
    rewrite H1. cbn [andb].
    set (s2 := onShowTables false true s1).
    assert (H2 : signals_connected s2 = true /\ rbTables s2 = false /\ rbViews s2 = true)
      by (subst s2 s1; destruct s; simpl in *; tauto).
    destruct H2 as (Hc2 & Hrt2 & Hrv2). rewrite Hc2.
    change (onShowViews true true s2)
      with (set_stdm_data_category_for_layout
              (category (onShowViews true false s2)) (onShowViews true false s2)).
    apply consistent_category_layout.
    destruct (show_views_frame s2) as (F & D & _ & S & E).
    destruct (entries_frame _ _ F) as [Et Ev].
    pose proof F as (Frt & Frv & Fc & _).
    assert (Hcat : category_is s2 "Table" = false /\ category_is s2 "View" = true)
      by (unfold category_is, category; rewrite Hrt2, Hrv2; split; reflexivity).
    destruct Hcat as [Hct Hcv].
    unfold consistent. rewrite Frt, Frv, Fc, S, E, D, Ev, Hct, Hcv, Hrt2, Hrv2, Hc2.
    cbn. repeat split; try reflexivity; discriminate.
Qed.

Lemma consistent_setSelectedSource (d : option string) (s : selector) :
  consistent s -> consistent (setSelectedSource d s).
Proof.
  intros Hs. unfold setSelectedSource. destruct (_ =? -1); [exact Hs|].
  apply consistent_choose_data_source. exact Hs.
Qed.

Lemma consistent_set_referenced_table (r : option string) (s : selector) :
  consistent s -> consistent (set_referenced_table r s).
Proof.
  intros Hs. unfold set_referenced_table.
  destruct (category_is s "View"); [|exact Hs].
  destruct (_ =? -1); [exact Hs|].
  apply consistent_choose_referenced_table. exact Hs.
Qed.

Lemma consistent_step (e : event) (s : selector) :
  consistent s -> consistent (step e s).
Proof.
  intros Hs. destruct e as [n|d|r|n c r|i|i]; simpl.
  - apply consistent_setCategory; exact Hs.
  - apply consistent_setSelectedSource; exact Hs.
  - apply consistent_set_referenced_table; exact Hs.
  - unfold set_data_source. destruct (String.eqb n ""); [exact Hs|].
    apply consistent_set_referenced_table, consistent_setSelectedSource,
      consistent_setCategory. exact Hs.
  - apply consistent_choose_data_source; exact Hs.
  - apply consistent_choose_referenced_table; exact Hs.
Qed.

(** X14: every call that reaches the selector keeps it consistent.  So
    after any sequence of calls exactly one of the two buttons is
    checked; with "Table" checked the referenced table combo is disabled,
    the synchronisation is on and the data source combo lists the tables;
    with "View" checked the synchronisation is off, the data source combo
    lists the views and the referenced table combo is enabled exactly
    when the current data source has a non-empty text. *)
Theorem X14_events_keep_consistent (events : list event) (s : selector) :
  consistent s -> consistent (run events s).
Proof.
  revert s. induction events as [|e rest IH]; intros s Hs; simpl.
  - exact Hs.
  - apply IH, consistent_step, Hs.
Qed.

(** ** Before the signals are connected *)

Lemma unconnected_referenced_table (op : combo -> combo * option string) (s : selector) :
  signals_connected s = false ->
  on_cboReferencedTable op s = with_cboReferencedTable (fst (op (cboReferencedTable s))) s.
Proof.
  intros Hc. unfold on_cboReferencedTable.
  destruct (op (cboReferencedTable s)) as [c [text|]]; [|reflexivity].
  assert (Hc' : signals_connected (with_cboReferencedTable c s) = false)
    by (destruct s; exact Hc).
  rewrite Hc'. reflexivity.
Qed.

Lemma unconnected_data_source (op : combo -> combo * option string) (s : selector) :
  signals_connected s = false ->
  on_cboDataSource op s = with_cboDataSource (fst (op (cboDataSource s))) s.
Proof.
  intros Hc. unfold on_cboDataSource.
  destruct (op (cboDataSource s)) as [c [text|]]; [|reflexivity].
  assert (Hc' : signals_connected (with_cboDataSource c s) = false)
    by (destruct s; exact Hc).
  rewrite Hc'. reflexivity.
Qed.

Lemma add_all_unconnected_referenced_table (entries : list (string * option string)) :
  forall s : selector,
    signals_connected s = false ->
    add_all entries on_cboReferencedTable s
    = with_cboReferencedTable (add_items entries (cboReferencedTable s)) s.
Proof.
  induction entries as [|[text data] rest IH]; intros s Hc; simpl.
  - destruct s; reflexivity.
  - rewrite (unconnected_referenced_table _ s Hc), IH by (destruct s; exact Hc).
    destruct s; reflexivity.
Qed.

Lemma add_all_unconnected_data_source (entries : list (string * option string)) :
  forall s : selector,
    signals_connected s = false ->
    add_all entries on_cboDataSource s
    = with_cboDataSource (add_items entries (cboDataSource s)) s.
Proof.
  induction entries as [|[text data] rest IH]; intros s Hc; simpl.
  - destruct s; reflexivity.
  - rewrite (unconnected_data_source _ s Hc), IH by (destruct s; exact Hc).
    destruct s; reflexivity.
Qed.

Lemma add_items_spec (entries : list (string * option string)) :
  forall c : combo,
    items (add_items entries c) = (items c ++ entries)%list
    /\ enabled (add_items entries c) = enabled c
    /\ currentIndex (add_items entries c)
       = match items c, entries with
         | [], _ :: _ => 0
         | _, _ => currentIndex c
         end.
Proof.
  induction entries as [|[text data] rest IH]; intros c; simpl.
  - rewrite app_nil_r. destruct (items c); repeat split; reflexivity.
  - destruct (IH (fst (addItem text data c))) as (Hi & He & Hx).
    rewrite Hi, He, Hx. unfold addItem.
    destruct (items c) as [|it l]; simpl.
    + destruct rest; repeat split; reflexivity.
    + rewrite <- app_assoc. destruct (l ++ [(text, data)])%list eqn:E.
      * destruct l; discriminate.
      * repeat split; reflexivity.
Qed.

(** X15: the constructor leaves the selector consistent, with the
    category "View", the signals connected, the synchronisation off and
    the referenced table combo disabled.  The data source combo lists
    the empty entry and the views, the referenced table combo gets the
    empty entry and one entry per entity of the profile, and nothing is
    written onto the layout. *)
Theorem X15_init_state (ui : selector) :
  exclusive ui ->
  let s := init ui in
  consistent s
  /\ category s = Some "View"
  /\ signals_connected s = true
  /\ sync_data_source s = false
  /\ enabled (cboReferencedTable s) = false
  /\ cboDataSource s = Combo (view_entries ui) 0 (enabled (cboDataSource ui))
  /\ items (cboReferencedTable s)
     = (items (cboReferencedTable ui)
        ++ ("", None) :: map (fun e => (lower (fst e), Some (snd e))) (ref_tables ui))%list
  /\ layout s = layout ui.
Proof.
  intros Hex. cbv zeta. unfold init, _populate_referenced_tables.
  destruct ui as [rt rv ds rf sy co la rts ts vs]. unfold exclusive in Hex. simpl in Hex.
  norm_selector.
  set (E := ("", None) :: map (fun e => (lower (fst e), Some (snd e))) rts).
  rewrite add_all_unconnected_referenced_table by reflexivity.
  norm_selector.
  destruct (add_items_spec E rf) as (Hi & He & _).
  set (rf1 := add_items E rf) in *.
  assert (H3 : rbViews_setChecked_True (Selector rt rv ds rf1 false false la rts ts vs)
               = Selector false true ds rf1 false false la rts ts vs).
  { unfold rbViews_setChecked_True. simpl.
    destruct rv; [|rewrite andb_false_r; reflexivity].
    rewrite andb_true_r in Hex. subst rt. reflexivity. }
  rewrite H3.
  set (s3 := Selector false true ds rf1 false false la rts ts vs).
  unfold onShowViews. cbv zeta iota.
  assert (H4 : _reset_referenced_table_combo s3
               = Selector false true ds
                   (setEnabled true
                      (if 0 <? count rf1 then fst (setCurrentIndex 0 rf1) else rf1))
                   false false la rts ts vs).
  { unfold _reset_referenced_table_combo. subst s3. simpl.
    destruct (0 <? count rf1).
    - rewrite unconnected_referenced_table by reflexivity. reflexivity.
    - reflexivity. }
  rewrite H4.
  set (rf2 := setEnabled true _).
  rewrite (unconnected_data_source clear) by reflexivity.
  norm_selector.
  rewrite (unconnected_data_source (addItem "" None)) by reflexivity.
  norm_selector.
  rewrite add_all_unconnected_data_source by reflexivity.
  norm_selector. cbn [fst clear addItem items enabled].
  set (V := map (fun view => (view, Some view)) vs).
  destruct (add_items_spec V (Combo [("", None)] 0 (enabled ds))) as (Vi & Ve & Vx).
  set (ds1 := add_items V _) in *. cbn [items enabled currentIndex] in Vi, Ve, Vx.
  assert (Hds : ds1 = Combo (("", None) :: V) 0 (enabled ds)).
  { destruct ds1 as [i x e]. simpl in *. subst. reflexivity. }
  rewrite Hds.
  assert (Hrf : items rf2 = (items rf ++ E)%list).
  { subst rf2. unfold setEnabled. simpl.
    destruct (0 <? count rf1); [|exact Hi].
    destruct (setCurrentIndex_keeps 0 rf1) as [Ki _]. rewrite Ki. exact Hi. }
  unfold consistent, category, view_entries. simpl. fold V.
  repeat split; try reflexivity; try discriminate; exact Hrf.
Qed.

Lemma itemData_items (c c' : combo) (i : Z) :
  items c' = items c -> itemData c' i = itemData c i /\ itemText c' i = itemText c i.
Proof.
  intros Hi. unfold itemData, itemText, item_at, count. rewrite Hi. tauto.
Qed.

(** X16: with the signals connected, choosing another item of the data
    source combo makes it current and writes its data, not its text,
    onto the layout as the data source; choosing another item of the
    referenced table combo writes its data as the referenced table. *)
Theorem X16_choice_written_to_layout (s : selector) (i : Z) :
  signals_connected s = true ->
  (0 <= i < count (cboDataSource s) -> i <> currentIndex (cboDataSource s) ->
     let s' := step (ChooseDataSource i) s in
     currentIndex (cboDataSource s') = i
     /\ layout_data_source (layout s') = itemData (cboDataSource s) i)
  /\ (0 <= i < count (cboReferencedTable s) -> i <> currentIndex (cboReferencedTable s) ->
       let s' := step (ChooseReferencedTable i) s in
       currentIndex (cboReferencedTable s') = i
       /\ layout_referenced_table (layout s') = itemData (cboReferencedTable s) i).
Proof.
  intros Hc. split; intros Hi Hne; cbv zeta; simpl.
  - unfold on_cboDataSource, setCurrentIndex.
    assert (Hin : (0 <=? i) && (i <? count (cboDataSource s)) = true)
      by (apply andb_true_intro; split; [apply Z.leb_le|apply Z.ltb_lt]; lia).
    rewrite Hin. destruct (Z.eqb_spec i (currentIndex (cboDataSource s))); [contradiction|].
    set (c := Combo (items (cboDataSource s)) i (enabled (cboDataSource s))).
    destruct (with_cboDataSource_frame c s) as (_ & _ & D0 & _ & _ & K0).
    rewrite K0, Hc.
    destruct (onDataSourceSelected_frame (itemText (cboDataSource s) i)
                (with_cboDataSource c s)) as (_ & _ & D & _ & _ & L).
    rewrite D, L, D0. split; [reflexivity|].
    unfold currentData. subst c. simpl.
    apply (itemData_items (cboDataSource s)). reflexivity.
  - unfold on_cboReferencedTable, setCurrentIndex.
    assert (Hin : (0 <=? i) && (i <? count (cboReferencedTable s)) = true)
      by (apply andb_true_intro; split; [apply Z.leb_le|apply Z.ltb_lt]; lia).
    rewrite Hin. destruct (Z.eqb_spec i (currentIndex (cboReferencedTable s)));
      [contradiction|].
    destruct s as [rt rv ds rf sy co la rts ts vs]. simpl in *. subst co. simpl.
    split; [reflexivity|].
    unfold referenced_table_name. simpl.
    apply (itemData_items rf). reflexivity.
Qed.

(** X17: with the signals connected, a change of the category is written
    onto the layout: after [setCategory("Table")] on a selector whose
    "Table" button was not checked the category of the selector and the
    category stored on the layout are both "Table", and likewise for
    "View". *)
Theorem X17_category_written_to_layout (s : selector) :
  signals_connected s = true ->
  (rbTables s = false ->
     category (setCategory "Table" s) = Some "Table"
     /\ layout_category (layout (setCategory "Table" s)) = Some "Table")
  /\ (rbViews s = false ->
       category (setCategory "View" s) = Some "View"
       /\ layout_category (layout (setCategory "View" s)) = Some "View").
Proof.
  intros Hc. split.
  - intros Hrt. unfold setCategory. simpl. unfold rbTables_setChecked_True. rewrite Hrt.
    set (s1 := with_radios true false s).
    assert (H1 : signals_connected s1 = true) by (subst s1; destruct s; exact Hc).
    rewrite H1, andb_true_r.
    set (s2 := if rbViews s then onShowViews false true s1 else s1).
    assert (H2 : signals_connected s2 = true /\ rbTables s2 = true).
    { subst s2 s1. destruct (rbViews s); destruct s; simpl in *; tauto. }
    destruct H2 as [Hc2 Hrt2]. rewrite Hc2.
    change (onShowTables true true s2)
      with (set_stdm_data_category_for_layout
              (category (onShowTables true false s2)) (onShowTables true false s2)).
    destruct (show_tables_frame s2) as (F & _).
    destruct (same_frame_category _ _ F) as [Hcat _].
    destruct (category_layout_frame (category (onShowTables true false s2))
                (onShowTables true false s2)) as (Frt & Frv & _ & _ & _ & _ & _ & _ & _ & L).
    rewrite L. unfold category at 1. rewrite Frt, Frv. fold (category (onShowTables true false s2)).
    rewrite Hcat. unfold category. rewrite Hrt2. tauto.
  - intros Hrv. unfold setCategory. simpl. unfold rbViews_setChecked_True. rewrite Hrv.
    set (s1 := with_radios false true s).
    assert (H1 : signals_connected s1 = true) by (subst s1; destruct s; exact Hc).
    rewrite H1, andb_true_r.
    set (s2 := if rbTables s then onShowTables false true s1 else s1).
    assert (H2 : signals_connected s2 = true /\ rbTables s2 = false /\ rbViews s2 = true).
    { subst s2 s1. destruct (rbTables s); destruct s; simpl in *; tauto. }
    destruct H2 as (Hc2 & Hrt2 & Hrv2). rewrite Hc2.
    change (onShowViews true true s2)
      with (set_stdm_data_category_for_layout
              (category (onShowViews true false s2)) (onShowViews true false s2)).
    destruct (show_views_frame s2) as (F & _).
    destruct (same_frame_category _ _ F) as [Hcat _].
    destruct (category_layout_frame (category (onShowViews true false s2))
                (onShowViews true false s2)) as (Frt & Frv & _ & _ & _ & _ & _ & _ & _ & L).
    rewrite L. unfold category at 1. rewrite Frt, Frv. fold (category (onShowViews true false s2)).
    rewrite Hcat. unfold category. rewrite Hrt2, Hrv2. tauto.
Qed.

Lemma prefix_spec (n : string) :
  forall s : string, String.prefix n s = true <-> exists post, s = n ++ post.
Proof.
  induction n as [|a n IH]; intros s.
  - destruct s; simpl; split; eauto.
  - destruct s as [|b s]; simpl.
    + split; [discriminate|intros [post Hp]; discriminate Hp].
    + destruct (ascii_dec a b) as [->|Hne].
      * rewrite IH. split; intros [post Hp]; exists post; [rewrite Hp; reflexivity|].
        injection Hp as Hp. exact Hp.
      * split; [discriminate|]. intros [post Hp]. injection Hp as Hab _. congruence.
Qed.

Lemma has_substring_unfold (n s : string) :
  has_substring n s
  = if String.prefix n s then true
    else match s with
         | EmptyString => false
         | String _ s' => has_substring n s'
         end.
Proof. destruct s; reflexivity. Qed.

(** X18: [_contains_supporting_document] answers [True] exactly for the
    names in which "supporting_document" occurs somewhere. *)
Theorem X18_contains_supporting_document (table : string) :
  _contains_supporting_document table = true
  <-> exists before after, table = before ++ "supporting_document" ++ after.
Proof.
  unfold _contains_supporting_document. generalize "supporting_document" as n. intros n.
  induction table as [|c s IH]; rewrite has_substring_unfold.
  - destruct (String.prefix n "") eqn:Hp.
    + apply prefix_spec in Hp. destruct Hp as [post Hp].
      split; [intros _; exists "", post; exact Hp|reflexivity].
    + split; [discriminate|]. intros (before & after & Hs).
      destruct before; [|discriminate Hs]. simpl in Hs.
      assert (Hp' : String.prefix n "" = true) by (apply prefix_spec; eauto).
      congruence.
  - destruct (String.prefix n (String c s)) eqn:Hp.
    + apply prefix_spec in Hp. destruct Hp as [post Hp].
      split; [intros _; exists "", post; exact Hp|reflexivity].
    + rewrite IH. split.
      * intros (before & after & Hs). exists (String c before), after.
        rewrite Hs. reflexivity.
      * intros (before & after & Hs). destruct before as [|b before].
        -- simpl in Hs.
           assert (Hp' : String.prefix n (String c s) = true) by (apply prefix_spec; eauto).
           congruence.
        -- injection Hs as _ Hs. eauto.
Qed.

End MoreComposerProperties.

(* ===================================================================== *)
(** * Further properties of the template database helper *)
(* ===================================================================== *)

Section MoreTemplateDatabaseProperties.
Import TemplateDatabase.

(** X19: whatever the template and the driver, [createDbExtension] hands
    at most one statement to the driver, and that statement is
    "CREATE EXTENSION postgis": the template never reaches the database.
    It returns normally only without a template and with a driver that
    accepts the statement.  An exception that reaches the caller is
    either an [AttributeError] or a [TypeError] of the interpreter,
    raised by [raise ex.message], or an exception of the driver that
    does not derive from [Exception], which [except Exception] lets
    pass as it is. *)
Theorem X19_createDbExtension_outcomes (python2 : bool) (template : option string)
    (execute : string -> option exception) :
  let o := createDbExtension python2 template execute in
  executed o = match template with
               | Some _ => []
               | None => ["CREATE EXTENSION postgis"]
               end
  /\ match raised o with
     | None => template = None /\ execute "CREATE EXTENSION postgis" = None
     | Some ex =>
         (exc_is_Exception ex = true
          /\ (exc_class ex = "AttributeError" \/ exc_class ex = "TypeError"))
         \/ (exc_is_Exception ex = false
             /\ template = None
             /\ execute "CREATE EXTENSION postgis" = Some ex)
     end.
Proof.
  cbv zeta. destruct template as [t|].
  - unfold createDbExtension. rewrite percent_incomplete. simpl.
    split; [reflexivity|]. left.
    destruct python2; (split; [reflexivity|]); [right|left]; reflexivity.
  - unfold createDbExtension.
    destruct (execute "CREATE EXTENSION postgis") as [ex|] eqn:He; simpl.
    + split; [reflexivity|]. unfold except_Exception.
      destruct (exc_is_Exception ex) eqn:Hx.
      * left. split; [|apply raise_message_class].
        unfold raise_message. destruct (exc_message ex); reflexivity.
      * right. tauto.
    + tauto.
Qed.

(** An interrupt of the driver reaches the caller as it is; an error of
    the driver does not. *)
Example createDbExtension_interrupted :
  raised (createDbExtension false None Samples.interrupted_driver)
    = Some Samples.keyboard_interrupt
  /\ raised (createDbExtension false None Samples.failing_driver)
     = Some (builtin_exception false "AttributeError" "message").
Proof. split; reflexivity. Qed.

End MoreTemplateDatabaseProperties.

(* ===================================================================== *)
(** * Properties of the mapper dialog *)
(* ===================================================================== *)

Section MapperDialogProperties.
Import Py MapperDialog.

(** X20: [center] puts the dialog in the middle of the screen: the
    margin left of it and the margin right of it differ by at most one,
    and so do the margins above and below, also when the dialog is
    larger than the screen. *)
Theorem X20_center_margins (screen_width screen_height width height : Z) :
  let '(x, y) := center screen_width screen_height width height in
  0 <= (screen_width - (x + width)) - x <= 1
  /\ 0 <= (screen_height - (y + height)) - y <= 1.
Proof.
  unfold center.
  pose proof (Z.div_mod (screen_width - width) 2 ltac:(lia)).
  pose proof (Z.mod_pos_bound (screen_width - width) 2 ltac:(lia)).
  pose proof (Z.div_mod (screen_height - height) 2 ltac:(lia)).
  pose proof (Z.mod_pos_bound (screen_height - height) 2 ltac:(lia)).
  lia.
Qed.

Lemma lower_case_facts (c : ascii) :
  is_ascii_lower c = true ->
  is_ascii_upper c = false
  /\ is_ascii_lower (chr (code c - 32)) = false
  /\ is_ascii_upper (chr (code c - 32)) = true
  /\ lower_char (chr (code c - 32)) = lower_char c
  /\ Ascii.eqb (chr (code c - 32)) "_"%char = false
  /\ Ascii.eqb c "_"%char = false.
Proof.
  destruct c as [[|] [|] [|] [|] [|] [|] [|] [|]]; vm_compute; intros Hc;
    first [discriminate Hc | repeat split].
Qed.

Lemma upper_case_facts (c : ascii) :
  is_ascii_upper c = true ->
  is_ascii_lower c = false
  /\ is_ascii_lower (chr (code c + 32)) = true
  /\ lower_char (chr (code c + 32)) = lower_char c
  /\ Ascii.eqb (chr (code c + 32)) "_"%char = false
  /\ Ascii.eqb c "_"%char = false.
Proof.
  destruct c as [[|] [|] [|] [|] [|] [|] [|] [|]]; vm_compute; intros Hc;
    first [discriminate Hc | repeat split].
Qed.

Lemma replace_underscores_none (s : string) : no_underscore (replace_underscores s) = true.
Proof.
  unfold no_underscore. induction s as [|c s IH]; simpl; [reflexivity|].
  rewrite IH, andb_true_r. destruct (Ascii.eqb c "_"%char) eqn:E; [reflexivity|].
  rewrite E. reflexivity.
Qed.

Lemma replace_underscores_id (s : string) :
  no_underscore s = true -> replace_underscores s = s.
Proof.
  unfold no_underscore. induction s as [|c s IH]; simpl; [reflexivity|].
  intros Hs. apply andb_prop in Hs. destruct Hs as [Hc Hs].
  rewrite (IH Hs). destruct (Ascii.eqb c "_"%char); [discriminate Hc|reflexivity].
Qed.

Lemma title_from_facts (s : string) :
  forall p : bool,
    String.length (title_from p s) = String.length s
    /\ lower (title_from p s) = lower s
    /\ (no_underscore s = true -> no_underscore (title_from p s) = true)
    /\ title_from p (title_from p s) = title_from p s.
Proof.
  unfold no_underscore. induction s as [|c s IH]; intros p; simpl.
  - repeat split; reflexivity.
  - destruct (is_ascii_lower c) eqn:Hl.
    + destruct (lower_case_facts c Hl) as (Hu & Hl' & Hu' & Hlow & Hn' & Hn).
      destruct (IH true) as (I1 & I2 & I3 & I4).
      destruct p; simpl; rewrite ?Hl, ?Hl', ?Hu', ?I1, ?I2, ?I4, ?Hlow, ?Hn, ?Hn';
        simpl; repeat split; try reflexivity; exact I3.
    + destruct (is_ascii_upper c) eqn:Hu.
      * destruct (upper_case_facts c Hu) as (_ & Hl' & Hlow & Hn' & Hn).
        destruct (IH true) as (I1 & I2 & I3 & I4).
        destruct p; simpl; rewrite ?Hl, ?Hu, ?Hl', ?I1, ?I2, ?I4, ?Hlow, ?Hn, ?Hn';
          simpl; repeat split; try reflexivity; exact I3.
      * destruct (IH false) as (I1 & I2 & I3 & I4).
        simpl. rewrite Hl, Hu, I1, I2, I4.
        repeat split; try reflexivity.
        intros Hs. apply andb_prop in Hs. destruct Hs as [Hc Hs].
        rewrite Hc, (I3 Hs). reflexivity.
Qed.

(** X21: on a name of ASCII characters [userLabel] changes underscores
    into spaces and the case of letters, and nothing else: the label has
    the length of the name, no underscore, and the same lower-case form
    as the name with its underscores replaced.  Applying it to a label
    again changes nothing. *)
Theorem X21_userLabel (attr : string) :
  is_ascii attr = true ->
  String.length (userLabel attr) = String.length attr
  /\ no_underscore (userLabel attr) = true
  /\ lower (userLabel attr) = lower (replace_underscores attr)
  /\ userLabel (userLabel attr) = userLabel attr.
Proof.
  intros _. unfold userLabel, title.
  destruct (title_from_facts (replace_underscores attr) false) as (L & Lo & N & I).
  pose proof (replace_underscores_none attr) as Hn.
  assert (Hlen : String.length (replace_underscores attr) = String.length attr)
    by (clear; induction attr as [|c s IH]; simpl; [reflexivity|rewrite IH; reflexivity]).
  split; [rewrite L; exact Hlen|].
  split; [exact (N Hn)|].
  split; [exact Lo|].
  rewrite (replace_underscores_id _ (N Hn)). exact I.
Qed.

Example userLabel_samples :
  userLabel "first_name" = "First Name"
  /\ userLabel "id2x_TYPE" = "Id2X Type"
  /\ userLabel "" = "".
Proof. repeat split; reflexivity. Qed.

End MapperDialogProperties.

(* ===================================================================== *)
(** * Instances on the sample inputs *)
(* ===================================================================== *)

(** X2, witness: the text "Kisumu" put into a line edit. *)
Lemma X2_witness_short_text :
  Z.of_nat (String.length "Kisumu") <= Qt.maxLength
  /\ Py.str_left Qt.maxLength "Kisumu" = "Kisumu".
Proof.
  assert (Hl : Z.of_nat (String.length "Kisumu") <= Qt.maxLength) by (vm_compute; discriminate).
  split; [exact Hl|].
  exact (proj2 (proj2 (proj2
           (@X2_line_edit_round_trip Samples.toolkit_only
              (Samples.sample_world Qt.NoControl) "" "Kisumu"))) Hl).
Defined.

(** X7, witness: the spin box handler on a spin box. *)
Lemma X7_witness_spin_box :
  fst (HandlerMethods.isControlTypeValid ValueHandlers.SpinBoxValueHandler
         (Samples.sample_world (Qt.QSpinBox 3))) = Py.Ok true
  /\ (In ValueHandlers.SpinBoxValueHandler HandlerMethods.described_handlers
      /\ HandlerMethods.unsupported
           (fst (ValueHandlers.value_of ValueHandlers.SpinBoxValueHandler
                   (Samples.sample_world (Qt.QSpinBox 3)))) = false
      /\ HandlerMethods.unsupported
           (fst (ValueHandlers.setValue ValueHandlers.SpinBoxValueHandler (Py.VStr "7")
                   (Samples.sample_world (Qt.QSpinBox 3)))) = false).
Proof.
  split; [reflexivity|].
  exact (proj2 (@X7_valid_control_answers Samples.toolkit_only
                  (Samples.sample_world (Qt.QSpinBox 3)))
           ValueHandlers.SpinBoxValueHandler (Py.VStr "7") eq_refl).
Defined.

(** X9, witness: the integer 7 on a double spin box. *)
Lemma X9_witness_seven :
  0 <= 7 <= 99
  /\ (ValueHandlers.set_then_get ValueHandlers.DoubleSpinBoxValueHandler (Py.VInt 7)
        (Qt.with_control (Qt.QDoubleSpinBox (Py.float_of_Z 1))
           (Samples.sample_world Qt.NoControl))
      = (Py.Ok (Py.VFloat (Py.float_of_Z 7)),
         Qt.with_control (Qt.QDoubleSpinBox (Py.float_of_Z 7))
           (Samples.sample_world Qt.NoControl))
      /\ Py.py_eq (Py.VFloat (Py.float_of_Z 7)) (Py.VInt 7) = true).
Proof.
  assert (Hz : 0 <= 7 <= 99) by lia.
  split; [exact Hz|].
  exact (@X9_double_spin_box_integers Samples.toolkit_only
           (Samples.sample_world Qt.NoControl) (Py.float_of_Z 1) 7 Hz).
Defined.

(** X10, witness: the line edit handler registered in an empty registry. *)
Lemma X10_witness_line_edit :
  Registry.register (Registry.class_of ValueHandlers.LineEditValueHandler) ∅
    = (Py.Ok tt,
       <["QLineEdit" := Registry.class_of ValueHandlers.LineEditValueHandler]> ∅)
  /\ exists kind,
       Registry.control_class_name (Registry.class_of ValueHandlers.LineEditValueHandler)
         = Py.Ok kind
       /\ Registry.lookup kind
            (<["QLineEdit" := Registry.class_of ValueHandlers.LineEditValueHandler]> ∅)
          = Some (Registry.class_of ValueHandlers.LineEditValueHandler)
       /\ (forall other, other <> kind ->
             Registry.lookup other
               (<["QLineEdit" := Registry.class_of ValueHandlers.LineEditValueHandler]> ∅)
             = Registry.lookup other ∅)
       /\ Registry.register (Registry.class_of ValueHandlers.LineEditValueHandler)
            (<["QLineEdit" := Registry.class_of ValueHandlers.LineEditValueHandler]> ∅)
          = (Py.Ok tt,
             <["QLineEdit" := Registry.class_of ValueHandlers.LineEditValueHandler]> ∅).
Proof.
  split; [reflexivity|].
  exact (X10_register_lookup (Registry.class_of ValueHandlers.LineEditValueHandler) ∅
           (<["QLineEdit" := Registry.class_of ValueHandlers.LineEditValueHandler]> ∅)
           eq_refl).
Defined.

(** X11, witness: the abstract class between the line edit handler and
    the check box handler. *)
Lemma X11_witness_abstract_class :
  Registry.register_all [Registry.class_of ValueHandlers.LineEditValueHandler] ∅
    = (Py.Ok tt,
       <["QLineEdit" := Registry.class_of ValueHandlers.LineEditValueHandler]> ∅)
  /\ Registry.control_class_name (Registry.class_of ValueHandlers.ControlValueHandler)
     = Py.Raise Py.AttributeError
  /\ Registry.register_all
       ([Registry.class_of ValueHandlers.LineEditValueHandler]
        ++ Registry.class_of ValueHandlers.ControlValueHandler
           :: [Registry.class_of ValueHandlers.CheckBoxValueHandler])%list ∅
     = (Py.Raise Py.AttributeError,
        <["QLineEdit" := Registry.class_of ValueHandlers.LineEditValueHandler]> ∅).
Proof.
  split; [reflexivity|]. split; [reflexivity|].
  exact (X11_register_all_stops
           [Registry.class_of ValueHandlers.LineEditValueHandler]
           [Registry.class_of ValueHandlers.CheckBoxValueHandler]
           (Registry.class_of ValueHandlers.ControlValueHandler) ∅
           (<["QLineEdit" := Registry.class_of ValueHandlers.LineEditValueHandler]> ∅)
           eq_refl eq_refl).
Defined.

(** X13, witness: the table "hl_parcel" of the sample profile. *)
Lemma X13_witness_parcel :
  In ("hl_parcel", "Parcel") (Composer.tables Samples.after_init)
  /\ Composer._contains_supporting_document "hl_parcel" = false
  /\ In (Py.lower "Parcel", Some "hl_parcel")
        (Composer.items
           (Composer.cboDataSource
              (@Composer.onShowTables Samples.find_utils true false Samples.after_init))).
Proof.
  assert (Hin : In ("hl_parcel", "Parcel") (Composer.tables Samples.after_init))
    by (right; left; reflexivity).
  split; [exact Hin|]. split; [reflexivity|].
  exact (proj2 (proj2 (proj2 (proj2
           (@X13_onShowTables_entries Samples.find_utils false Samples.after_init))))
           "hl_parcel" "Parcel" Hin eq_refl).
Defined.

(** X14, witness: a run of calls on the selector right after its
    construction. *)
Lemma X14_witness_run :
  ComposerEvents.consistent Samples.after_init
  /\ ComposerEvents.consistent
       (@ComposerEvents.run Samples.find_utils
          [ComposerEvents.SetCategory "Table";
           ComposerEvents.ChooseDataSource 1;
           ComposerEvents.SetReferencedTable (Some "hl_parcel");
           ComposerEvents.SetDataSource "hl_household_view" "View" (Some "hl_household");
           ComposerEvents.ChooseReferencedTable 2]
          Samples.after_init).
Proof.
  assert (Hs : ComposerEvents.consistent Samples.after_init).
  { split; [reflexivity|]. split; [reflexivity|]. split.
    - intros Ht. discriminate Ht.
    - intros _. repeat split; reflexivity. }
  split; [exact Hs|].
  exact (@X14_events_keep_consistent Samples.find_utils _ Samples.after_init Hs).
Defined.

(** X15, witness: the sample selector as [setupUi] leaves it. *)
Lemma X15_witness_fresh_ui :
  ComposerEvents.exclusive Samples.fresh_ui
  /\ (let s := @Composer.init Samples.find_utils Samples.fresh_ui in
      ComposerEvents.consistent s
      /\ Composer.category s = Some "View"
      /\ Composer.signals_connected s = true
      /\ Composer.sync_data_source s = false
      /\ Composer.enabled (Composer.cboReferencedTable s) = false
      /\ Composer.cboDataSource s
         = Composer.Combo (ComposerEvents.view_entries Samples.fresh_ui) 0
             (Composer.enabled (Composer.cboDataSource Samples.fresh_ui))
      /\ Composer.items (Composer.cboReferencedTable s)
         = (Composer.items (Composer.cboReferencedTable Samples.fresh_ui)
            ++ ("", None)
               :: map (fun e => (Py.lower (fst e), Some (snd e)))
                    (Composer.ref_tables Samples.fresh_ui))%list
      /\ Composer.layout s = Composer.layout Samples.fresh_ui).
Proof.
  split; [reflexivity|].
  exact (@X15_init_state Samples.find_utils Samples.fresh_ui eq_refl).
Defined.

(** X16, witness: the second entry of the data source combo chosen on
    the sample selector in the category "Table". *)
Lemma X16_witness_second_entry :
  Composer.signals_connected Samples.after_table = true
  /\ 0 <= 1 < Composer.count (Composer.cboDataSource Samples.after_table)
  /\ 1 <> Composer.currentIndex (Composer.cboDataSource Samples.after_table)
  /\ (let s' := @ComposerEvents.step Samples.find_utils (ComposerEvents.ChooseDataSource 1)
                  Samples.after_table in
      Composer.currentIndex (Composer.cboDataSource s') = 1
      /\ Composer.layout_data_source (Composer.layout s')
         = Composer.itemData (Composer.cboDataSource Samples.after_table) 1).
Proof.
  assert (Hi : 0 <= 1 < Composer.count (Composer.cboDataSource Samples.after_table))
    by (change (0 <= 1 < 3); lia).
  assert (Hn : 1 <> Composer.currentIndex (Composer.cboDataSource Samples.after_table))
    by (change (1 <> 0); lia).
  split; [reflexivity|]. split; [exact Hi|]. split; [exact Hn|].
  exact (proj1 (@X16_choice_written_to_layout Samples.find_utils Samples.after_table 1
                  eq_refl) Hi Hn).
Defined.

(** X17, witness: the sample selector right after its construction,
    switched to "Table". *)
Lemma X17_witness_to_table :
  Composer.signals_connected Samples.after_init = true
  /\ Composer.rbTables Samples.after_init = false
  /\ (Composer.category (@Composer.setCategory Samples.find_utils "Table" Samples.after_init)
      = Some "Table"
      /\ Composer.layout_category
           (Composer.layout
              (@Composer.setCategory Samples.find_utils "Table" Samples.after_init))
         = Some "Table").
Proof.
  split; [reflexivity|]. split; [reflexivity|].
  exact (proj1 (@X17_category_written_to_layout Samples.find_utils Samples.after_init
                  eq_refl) eq_refl).
Defined.

(** X18, witness: the supporting document table of the sample profile. *)
Lemma X18_witness_supporting_document :
  (exists before after,
      "hl_household_supporting_document" = before ++ "supporting_document" ++ after)
  /\ Composer._contains_supporting_document "hl_household_supporting_document" = true.
Proof.
  assert (Hex : exists before after,
             "hl_household_supporting_document" = before ++ "supporting_document" ++ after)
    by (exists "hl_household_", ""; reflexivity).
  split; [exact Hex|].
  exact (proj2 (X18_contains_supporting_document "hl_household_supporting_document")
           Hex).
Defined.

(** X21, witness: the attribute name "first_name". *)
Lemma X21_witness_first_name :
  MapperDialog.is_ascii "first_name" = true
  /\ (String.length (MapperDialog.userLabel "first_name") = String.length "first_name"
      /\ MapperDialog.no_underscore (MapperDialog.userLabel "first_name") = true
      /\ Py.lower (MapperDialog.userLabel "first_name")
         = Py.lower (MapperDialog.replace_underscores "first_name")
      /\ MapperDialog.userLabel (MapperDialog.userLabel "first_name")
         = MapperDialog.userLabel "first_name").
Proof.
  split; [reflexivity|].
  exact (X21_userLabel "first_name" eq_refl).
Defined.
